(** * twitch-recorder: session lifecycle, wait loops and post-processing

    A shallow embedding of [stream.py], [recorder.py] and [postprocess.py].
    Python code that sleeps, spawns a subprocess, queries Streamlink or
    touches the file system is written in a state-and-exception monad over
    a [World]; what the outside answers is fixed by an [Env]. *)

From stdpp Require Import gmap strings list.
From Stdlib Require Import ZArith DecimalString Lia.

Open Scope string_scope.
Open Scope list_scope.
Open Scope Z_scope.

(** ** Python exceptions and results *)

(** The [Exception] subclasses the three modules name or can meet. *)
Inductive exn : Type :=
  | FileNotFoundError
  | TimeoutExpired
  | ValueError
  | NoPluginError
  | PluginError
  | OtherException.

(** What evaluating a Python call gives: a value, a raised exception, or
    a loop that used up the iterations it was allowed. *)
Inductive res (A : Type) : Type :=
  | Val (a : A)
  | Exn (e : exn)
  | OutOfFuel.
Arguments Val {A} a.
Arguments Exn {A} e.
Arguments OutOfFuel {A}.

(** ** Log lines (level info and above)

    Debug lines are left out.  A line carries the values it is made from:
    a path stands for the path whose [.name] the line shows, a size for the
    size in bytes that the line shows in MB; [printed] below turns the paths
    of a line into the names shown. *)

Inductive LogMsg : Type :=
  (* stream.py *)
  | LogUrlNotRecognised (url : string)
  | LogWaitingForLive (channel : string) (timeout interval : Z)
  | LogStreamIsLive
  | LogDidNotGoLive (timeout : Z)
  | LogStreamDropped (grace_period : Z)
  | LogStreamBack
  | LogDidNotReturn (grace_period : Z)
  (* recorder.py *)
  | LogRecordingSegment (num : nat) (path : string)
  | LogStreamlinkNotFound
  | LogStreamlinkError
  | LogSegmentDiscarded
  | LogSegmentSaved (path : string) (size : nat)
  | LogMaxReconnects (max_reconnects : Z)
  | LogReconnecting (attempt max_reconnects : Z)
  | LogStreamEnded
  | LogSessionComplete (segments : nat) (reconnections : Z)
  (* postprocess.py *)
  | LogRemuxing (src dest : string)
  | LogMerging (count : nat) (dest : string)
  | LogCleanedUp (count : nat)
  | LogNoSegments
  | LogMergeDisabled (count : nat)
  | LogFinalRecording (path : string) (size : nat)
  | LogPostprocessFailed
  | LogFfmpegFailed (returncode : Z)
  | LogFfmpegNotFound (ffmpeg : string)
  | LogFfmpegTimedOut.

(** ** Observable events *)

Inductive Event : Type :=
  | EvLookup (url : string)                 (* session.streams(url) *)
  | EvSleep (seconds : Z)                   (* time.sleep *)
  | EvRun (cmd : list string)               (* subprocess.run *)
  | EvWrite (path content : string)         (* temporary file written *)
  | EvUnlink (path : string)                (* Path.unlink(missing_ok=True) *)
  | EvLog (msg : LogMsg).

(** ** The world *)

(** Files by path; a file is its content, its size the content's length. *)
Abbreviation FS := (gmap string string).

Record World : Type := mkWorld {
  fs : FS;
  clock : Z;                    (* seconds slept so far *)
  lookups : nat;                (* stream lookups made so far *)
  spawned : nat;                (* subprocesses run so far *)
  trace : list (Z * Event)      (* events, each with the clock it happened at *)
}.

Definition set_fs (f : FS) (w : World) : World :=
  mkWorld f (clock w) (lookups w) (spawned w) (trace w).
Definition set_clock (t : Z) (w : World) : World :=
  mkWorld (fs w) t (lookups w) (spawned w) (trace w).
Definition set_lookups (n : nat) (w : World) : World :=
  mkWorld (fs w) (clock w) n (spawned w) (trace w).
Definition set_spawned (n : nat) (w : World) : World :=
  mkWorld (fs w) (clock w) (lookups w) n (trace w).
Definition record (e : Event) (w : World) : World :=
  mkWorld (fs w) (clock w) (lookups w) (spawned w) (trace w ++ [(clock w, e)]).

Definition empty_world : World := mkWorld ∅ 0 0 0 [].

(** ** What the outside answers *)

Inductive lookup_result : Type :=
  | StreamsDict (streams : gmap string string)   (* quality name to stream *)
  | LookupRaises (e : exn).

Inductive proc_result : Type :=
  | Completed (returncode : Z)
  | ProcRaises (e : exn).

Record Env : Type := mkEnv {
  (* the k-th call of Streamlink().streams(url) *)
  session_streams : nat -> string -> lookup_result;
  (* the k-th call of subprocess.run(cmd) on a file system *)
  subprocess_run : nat -> list string -> FS -> proc_result * FS;
  (* the name tempfile.NamedTemporaryFile picks *)
  mktemp : FS -> string
}.

(** ** The monad *)

Definition M (A : Type) : Type := World -> res A * World.

Definition ret {A} (a : A) : M A := fun w => (Val a, w).
Definition raise {A} (e : exn) : M A := fun w => (Exn e, w).
Definition out_of_fuel {A} : M A := fun w => (OutOfFuel, w).

Definition bind {A B} (m : M A) (k : A -> M B) : M B := fun w =>
  match m w with
  | (Val a, w') => k a w'
  | (Exn e, w') => (Exn e, w')
  | (OutOfFuel, w') => (OutOfFuel, w')
  end.

Notation "x <- m ;; k" := (bind m (fun x => k))
  (at level 100, m at next level, right associativity).
Notation "m ;; k" := (bind m (fun _ => k))
  (at level 100, right associativity).

(** [try: m except e: h e] *)
Definition try_except {A} (m : M A) (h : exn -> M A) : M A := fun w =>
  match m w with
  | (Exn e, w') => h e w'
  | r => r
  end.

(** [try: m finally: f] *)
Definition try_finally {A} (m : M A) (f : M unit) : M A := fun w =>
  let '(r, w') := m w in
  match f w' with
  | (Val _, w'') => (r, w'')
  | (Exn e, w'') => (Exn e, w'')
  | (OutOfFuel, w'') => (OutOfFuel, w'')
  end.

Definition emit (e : Event) : M unit := fun w => (Val tt, record e w).
Definition log (m : LogMsg) : M unit := emit (EvLog m).

(** [time.sleep(seconds)]: a negative length raises [ValueError]. *)
Definition sleep (seconds : Z) : M unit := fun w =>
  if seconds <? 0 then (Exn ValueError, w)
  else (Val tt, set_clock (clock w + seconds) (record (EvSleep seconds) w)).

(** ** File system *)

Definition path_exists (p : string) : M bool := fun w =>
  (Val (bool_decide (is_Some (fs w !! p))), w).

(** [p.stat().st_size] of a file that exists; 0 stands for a missing one,
    which no caller below asks for. *)
Definition st_size (p : string) : M nat := fun w =>
  (Val (from_option String.length 0%nat (fs w !! p)), w).

(** [Path.unlink(missing_ok=True)] on a path that is a regular file or is
    missing.  A [World] holds files only and permission faults are left
    out; [unlink_on] below is the call on a machine with directories, on
    which it can raise. *)
Definition unlink (p : string) : M unit := fun w =>
  (Val tt, set_fs (delete p (fs w)) (record (EvUnlink p) w)).

(** [Path(dir) / name], for a directory written without a trailing slash
    and a relative name. *)
Definition path_join (dir name : string) : string := dir +:+ "/" +:+ name.

(** [subprocess.run(cmd, ...)] *)
Definition run_subprocess (E : Env) (cmd : list string) : M Z := fun w =>
  let '(r, fs') := subprocess_run E (spawned w) cmd (fs w) in
  let w' := set_spawned (S (spawned w)) (set_fs fs' (record (EvRun cmd) w)) in
  match r with
  | Completed rc => (Val rc, w')
  | ProcRaises e => (Exn e, w')
  end.

(** ** stream.py *)

Definition TWITCH_URL (channel : string) : string :=
  "https://twitch.tv/" +:+ channel.

(** [session.streams(url)] *)
Definition streams_of (E : Env) (url : string) : M (gmap string string) :=
  fun w =>
    let w' := set_lookups (S (lookups w)) (record (EvLookup url) w) in
    match session_streams E (lookups w) url with
    | StreamsDict d => (Val d, w')
    | LookupRaises e => (Exn e, w')
    end.

(** [key in d] for a dict *)
Definition dict_in (key : string) (d : gmap string string) : bool :=
  bool_decide (is_Some (d !! key)).

Definition is_live (E : Env) (channel quality : string) : M bool :=
  let url := TWITCH_URL channel in
  try_except
    (streams <- streams_of E url ;;
     ret (dict_in quality streams || dict_in "best" streams))
    (fun e =>
       match e with
       | NoPluginError => log (LogUrlNotRecognised url) ;; ret false
       | PluginError => ret false
       | _ => ret false
       end).

Section wait_loops.
Context (E : Env) (channel quality : string).

Fixpoint wait_until_live_loop (timeout interval : Z)
    (fuel : nat) (waited : Z) {struct fuel} : M bool :=
  if waited <? timeout then
    match fuel with
    | O => out_of_fuel
    | S fuel' =>
        live <- is_live E channel quality ;;
        if live then
          log LogStreamIsLive ;; ret true
        else
          sleep interval ;;
          wait_until_live_loop timeout interval fuel' (waited + interval)
    end
  else
    log (LogDidNotGoLive timeout) ;; ret false.

Definition wait_until_live (timeout interval : Z) (fuel : nat) : M bool :=
  log (LogWaitingForLive channel timeout interval) ;;
  wait_until_live_loop timeout interval fuel 0.

Fixpoint wait_for_reconnect_loop (grace_period check_interval : Z)
    (fuel : nat) (waited : Z) {struct fuel} : M bool :=
  if waited <? grace_period then
    match fuel with
    | O => out_of_fuel
    | S fuel' =>
        sleep check_interval ;;
        live <- is_live E channel quality ;;
        if live then
          log LogStreamBack ;; ret true
        else
          wait_for_reconnect_loop grace_period check_interval fuel'
            (waited + check_interval)
    end
  else
    log (LogDidNotReturn grace_period) ;; ret false.

Definition wait_for_reconnect (grace_period check_interval : Z)
    (fuel : nat) : M bool :=
  log (LogStreamDropped grace_period) ;;
  wait_for_reconnect_loop grace_period check_interval fuel 0.
End wait_loops.

(** ** config.py *)

Module Config.
Record t : Type := mk {
  channel : string;
  output_dir : string;
  quality : string;
  stream_timeout : Z;
  initial_wait : Z;
  retry_interval : Z;
  reconnect_grace_period : Z;
  reconnect_check_interval : Z;
  max_reconnects : Z;
  merge_segments : bool;
  cleanup_segments : bool;
  ffmpeg_path : string;
  streamlink_args : list string
}.

(** The dataclass defaults. *)
Definition default : t := {|
  channel := "channelname";
  output_dir := "/path/to/jellyfin/library/TwitchRecordings";
  quality := "best";
  stream_timeout := 120;
  initial_wait := 7200;
  retry_interval := 30;
  reconnect_grace_period := 300;
  reconnect_check_interval := 15;
  max_reconnects := 10;
  merge_segments := true;
  cleanup_segments := true;
  ffmpeg_path := "ffmpeg";
  streamlink_args := ["--twitch-disable-ads"; "--twitch-disable-hosting"]
|}.
End Config.

(** ** recorder.py *)

Record RecordingSession : Type := mkSession {
  config : Config.t;
  session_date : string;
  segments : list string;
  reconnect_count : Z
}.

(** [RecordingSession(config=config)]; the date is the one [datetime.now()]
    gives when the session is made. *)
Definition new_session (c : Config.t) (date : string) : RecordingSession :=
  mkSession c date [] 0.

Definition append_segment (p : string) (s : RecordingSession) : RecordingSession :=
  mkSession (config s) (session_date s) (segments s ++ [p]) (reconnect_count s).
Definition incr_reconnect_count (s : RecordingSession) : RecordingSession :=
  mkSession (config s) (session_date s) (segments s) (reconnect_count s + 1).

(** [str(n)] for an int *)
Definition str_nat (n : nat) : string := NilEmpty.string_of_uint (Nat.to_uint n).
Definition str_int (z : Z) : string := NilZero.string_of_int (Z.to_int z).

(** [f"{num:02d}"] for num >= 0 *)
Definition format_02d (num : nat) : string :=
  let s := str_nat num in
  if (String.length s <? 2)%nat then "0" +:+ s else s.

Definition session_id (s : RecordingSession) : string :=
  Config.channel (config s) +:+ "_" +:+ session_date s.

Definition output_dir (s : RecordingSession) : string :=
  Config.output_dir (config s).

Definition final_filename (s : RecordingSession) : string :=
  path_join (output_dir s)
    (Config.channel (config s) +:+ " - " +:+ session_date s +:+ ".mp4").

(** The path of the segment with sequence number [num]. *)
Definition segment_path_of (s : RecordingSession) (num : nat) : string :=
  path_join (output_dir s) (session_id s +:+ "_part" +:+ format_02d num +:+ ".ts").

Definition next_segment_path (s : RecordingSession) : string :=
  let num := (length (segments s) + 1)%nat in
  segment_path_of s num.

Definition streamlink_cmd (s : RecordingSession) (segment_path : string)
    : list string :=
  [ "streamlink";
    TWITCH_URL (Config.channel (config s));
    Config.quality (config s);
    "--output"; segment_path;
    "--stream-timeout"; str_int (Config.stream_timeout (config s));
    "--hls-live-restart" ] ++ Config.streamlink_args (config s).

(** Returns the path (or [None]) together with the session as the call
    leaves it. *)
Definition record_segment (E : Env) (s : RecordingSession)
    : M (option string * RecordingSession) :=
  let segment_path := next_segment_path s in
  let cmd := streamlink_cmd s segment_path in
  log (LogRecordingSegment (length (segments s) + 1) segment_path) ;;
  ran <- try_except
           (rc <- run_subprocess E cmd ;; ret (Some rc))
           (fun e =>
              match e with
              | FileNotFoundError => log LogStreamlinkNotFound ;; ret None
              | _ => log LogStreamlinkError ;; ret None
              end) ;;
  match ran with
  | None => ret (None, s)
  | Some _ =>
      present <- path_exists segment_path ;;
      bad <- (if negb present then ret true
              else size <- st_size segment_path ;; ret (size =? 0)%nat) ;;
      if bad then
        log LogSegmentDiscarded ;;
        unlink segment_path ;;
        ret (None, s)
      else
        size <- st_size segment_path ;;
        log (LogSegmentSaved segment_path size) ;;
        ret (Some segment_path, append_segment segment_path s)
  end.

(** The [while True] loop of [run]; [fuel] bounds its iterations and each
    reconnect wait's. *)
Fixpoint run_loop (E : Env) (fuel : nat) (s : RecordingSession)
    : M RecordingSession :=
  match fuel with
  | O => out_of_fuel
  | S fuel' =>
      r <- record_segment E s ;;
      let s := snd r in
      let c := config s in
      if Config.max_reconnects c <=? reconnect_count s then
        log (LogMaxReconnects (Config.max_reconnects c)) ;;
        ret s
      else
        came_back <- wait_for_reconnect E (Config.channel c) (Config.quality c)
                       (Config.reconnect_grace_period c)
                       (Config.reconnect_check_interval c) fuel ;;
        if came_back then
          let s := incr_reconnect_count s in
          log (LogReconnecting (reconnect_count s) (Config.max_reconnects c)) ;;
          run_loop E fuel' s
        else
          log LogStreamEnded ;;
          ret s
  end.

Definition run (E : Env) (fuel : nat) (s : RecordingSession)
    : M RecordingSession :=
  s <- run_loop E fuel s ;;
  log (LogSessionComplete (length (segments s)) (reconnect_count s)) ;;
  ret s.

(** ** postprocess.py *)

Definition newline : string := String (Ascii.ascii_of_nat 10) EmptyString.

Definition _run_ffmpeg (E : Env) (cmd : list string) (ffmpeg : string) : M bool :=
  try_except
    (returncode <- run_subprocess E cmd ;;
     if negb (returncode =? 0) then
       log (LogFfmpegFailed returncode) ;; ret false
     else ret true)
    (fun e =>
       match e with
       | FileNotFoundError => log (LogFfmpegNotFound ffmpeg) ;; ret false
       | TimeoutExpired => log LogFfmpegTimedOut ;; ret false
       | _ => raise e
       end).

Definition remux_cmd (src dest ffmpeg : string) : list string :=
  [ffmpeg; "-i"; src; "-c"; "copy"; "-movflags"; "+faststart"; dest; "-y"].

Definition remux_single (E : Env) (src dest ffmpeg : string) : M bool :=
  log (LogRemuxing src dest) ;;
  _run_ffmpeg E (remux_cmd src dest ffmpeg) ffmpeg.

(** What the [for seg in segments: f.write(...)] loop puts in the file. *)
Definition concat_list_content (segments : list string) : string :=
  String.concat "" (map (fun seg => "file '" +:+ seg +:+ "'" +:+ newline) segments).

(** [tempfile.NamedTemporaryFile(mode="w", delete=False)] written and closed. *)
Definition write_temp (E : Env) (content : string) : M string := fun w =>
  let p := mktemp E (fs w) in
  (Val p, set_fs (<[p := content]> (fs w)) (record (EvWrite p content) w)).

Definition concat_cmd (concat_list dest ffmpeg : string) : list string :=
  [ffmpeg; "-f"; "concat"; "-safe"; "0"; "-i"; concat_list;
   "-c"; "copy"; "-movflags"; "+faststart"; dest; "-y"].

Definition merge_segments (E : Env) (segments : list string)
    (dest ffmpeg : string) : M bool :=
  log (LogMerging (length segments) dest) ;;
  concat_list <- write_temp E (concat_list_content segments) ;;
  try_finally
    (_run_ffmpeg E (concat_cmd concat_list dest ffmpeg) ffmpeg)
    (unlink concat_list).

Fixpoint unlink_each (files : list string) : M unit :=
  match files with
  | [] => ret tt
  | f :: files' => unlink f ;; unlink_each files'
  end.

Definition cleanup (files : list string) : M unit :=
  unlink_each files ;;
  log (LogCleanedUp (length files)).

Definition postprocess (E : Env) (segments : list string) (final_path : string)
    (merge clean : bool) (ffmpeg : string) : M (option string) :=
  match segments with
  | [] => log LogNoSegments ;; ret None
  | first :: _ =>
      step <- (if (length segments =? 1)%nat then
                 success <- remux_single E first final_path ffmpeg ;;
                 ret (inl success)
               else if merge then
                 success <- merge_segments E segments final_path ffmpeg ;;
                 ret (inl success)
               else
                 log (LogMergeDisabled (length segments)) ;;
                 ret (inr first)) ;;
      match step with
      | inr kept => ret (Some kept)
      | inl success =>
          ok <- (if success then
                   present <- path_exists final_path ;;
                   if present then
                     size <- st_size final_path ;; ret (0 <? size)%nat
                   else ret false
                 else ret false) ;;
          if ok then
            size <- st_size final_path ;;
            log (LogFinalRecording final_path size) ;;
            (if clean then cleanup segments else ret tt) ;;
            ret (Some final_path)
          else
            log LogPostprocessFailed ;;
            ret None
      end
  end.

(** ** Reading a trace *)

(** The answer [is_live] gives for a lookup result. *)
Definition live_answer (r : lookup_result) (quality : string) : bool :=
  match r with
  | StreamsDict d => dict_in quality d || dict_in "best" d
  | LookupRaises _ => false
  end.

(** The answer of the k-th probe of a channel. *)
Definition live_at (E : Env) (channel quality : string) (k : nat) : bool :=
  live_answer (session_streams E k (TWITCH_URL channel)) quality.

(** The world one probe later. *)
Definition probed (E : Env) (channel : string) (w : World) : World :=
  let url := TWITCH_URL channel in
  let w1 := set_lookups (S (lookups w)) (record (EvLookup url) w) in
  match session_streams E (lookups w) url with
  | LookupRaises NoPluginError => record (EvLog (LogUrlNotRecognised url)) w1
  | _ => w1
  end.

Definition lookup_time (te : Z * Event) : option Z :=
  match te.2 with EvLookup _ => Some te.1 | _ => None end.
Definition run_cmd (te : Z * Event) : option (list string) :=
  match te.2 with EvRun cmd => Some cmd | _ => None end.
Definition unlinked_path (te : Z * Event) : option string :=
  match te.2 with EvUnlink p => Some p | _ => None end.
Definition written_file (te : Z * Event) : option (string * string) :=
  match te.2 with EvWrite p c => Some (p, c) | _ => None end.
Definition sleep_length (te : Z * Event) : option Z :=
  match te.2 with EvSleep d => Some d | _ => None end.
Definition log_line (te : Z * Event) : option LogMsg :=
  match te.2 with EvLog m => Some m | _ => None end.

(** Times of the stream lookups, commands run, paths unlinked, temporary
    files written, sleeps and log lines of a trace, each in trace order. *)
Definition probe_times (tr : list (Z * Event)) : list Z := omap lookup_time tr.
Definition commands (tr : list (Z * Event)) : list (list string) := omap run_cmd tr.
Definition unlinked (tr : list (Z * Event)) : list string := omap unlinked_path tr.
Definition written (tr : list (Z * Event)) : list (string * string) :=
  omap written_file tr.
Definition sleeps (tr : list (Z * Event)) : list Z := omap sleep_length tr.
Definition logged (tr : list (Z * Event)) : list LogMsg := omap log_line tr.

(** [Path.name]: the last component of a path that does not end in a
    slash, which is what follows its last slash. *)
Fixpoint name_from (acc p : string) : string :=
  match p with
  | EmptyString => acc
  | String a p' =>
      if String.eqb (String a "") "/" then name_from "" p'
      else name_from (acc +:+ String a "") p'
  end.
Definition path_name (p : string) : string := name_from "" p.

(** A log line as it is shown: each path by its name.  Sizes stay in
    bytes. *)
Definition printed (m : LogMsg) : LogMsg :=
  match m with
  | LogRecordingSegment num path => LogRecordingSegment num (path_name path)
  | LogSegmentSaved path size => LogSegmentSaved (path_name path) size
  | LogRemuxing src dest => LogRemuxing (path_name src) (path_name dest)
  | LogMerging count dest => LogMerging count (path_name dest)
  | LogFinalRecording path size => LogFinalRecording (path_name path) size
  | _ => m
  end.

(** The final file passes the check of [postprocess]: it exists and is not
    empty. *)
Definition artifact_ok (f : FS) (final_path : string) : Prop :=
  exists content, f !! final_path = Some content /\ (0 < String.length content)%nat.

(** The world after one round of the reconnect loop: a sleep, then a probe. *)
Definition slept_and_probed (E : Env) (channel : string) (seconds : Z)
    (w : World) : World :=
  probed E channel (set_clock (clock w + seconds) (record (EvSleep seconds) w)).

(** How the loop of [run] was left, as its log tells: the budget of
    reconnections was used up, or the stream did not return. *)
Inductive Ending : Type :=
  | BudgetExhausted
  | StreamEnded.

Definition ending_of (te : Z * Event) : option Ending :=
  match te.2 with
  | EvLog (LogMaxReconnects _) => Some BudgetExhausted
  | EvLog LogStreamEnded => Some StreamEnded
  | _ => None
  end.
Definition wait_start (te : Z * Event) : option Z :=
  match te.2 with EvLog (LogStreamDropped g) => Some g | _ => None end.
Definition reconnect_attempt (te : Z * Event) : option Z :=
  match te.2 with EvLog (LogReconnecting n _) => Some n | _ => None end.
Definition stream_back (te : Z * Event) : option unit :=
  match te.2 with EvLog LogStreamBack => Some tt | _ => None end.

(** The endings logged, the reconnect waits begun (with their grace
    period), the counter values logged at each reconnection, and the waits
    that found the stream back. *)
Definition endings (tr : list (Z * Event)) : list Ending := omap ending_of tr.
Definition wait_starts (tr : list (Z * Event)) : list Z := omap wait_start tr.
Definition reconnect_attempts (tr : list (Z * Event)) : list Z :=
  omap reconnect_attempt tr.
Definition stream_backs (tr : list (Z * Event)) : list unit := omap stream_back tr.

(** The steps of the session loop that a trace shows: a capture command
    run, a reconnect wait begun, a reconnection counted, the loop left. *)
Inductive Step : Type :=
  | StepCapture
  | StepWait
  | StepReconnect (count : Z)
  | StepEnd (e : Ending).

Definition step_of (te : Z * Event) : option Step :=
  match te.2 with
  | EvRun _ => Some StepCapture
  | EvLog (LogStreamDropped _) => Some StepWait
  | EvLog (LogReconnecting n _) => Some (StepReconnect n)
  | EvLog (LogMaxReconnects _) => Some (StepEnd BudgetExhausted)
  | EvLog LogStreamEnded => Some (StepEnd StreamEnded)
  | _ => None
  end.
Definition steps (tr : list (Z * Event)) : list Step := omap step_of tr.

(** [k] rounds of capture, wait and reconnection, the counter going up
    from [from]. *)
Fixpoint rounds (from : Z) (k : nat) : list Step :=
  match k with
  | O => []
  | S k' =>
      StepCapture :: StepWait :: StepReconnect (from + 1) :: rounds (from + 1) k'
  end.

(** A stretch of trace with no command run, no wait begun, no reconnection
    or ending logged and no file unlinked. *)
Definition quiet (d : list (Z * Event)) : Prop :=
  commands d = [] /\ wait_starts d = [] /\ reconnect_attempts d = []
  /\ endings d = [] /\ unlinked d = [] /\ steps d = [].

(** A stretch of trace in which the session loop itself does nothing but
    run one capture command: no probe, no sleep, no wait, no ending. *)
Definition capture_only (cmd : list string) (d : list (Z * Event)) : Prop :=
  commands d = [cmd] /\ probe_times d = [] /\ sleeps d = []
  /\ wait_starts d = [] /\ reconnect_attempts d = [] /\ stream_backs d = []
  /\ endings d = [] /\ steps d = [StepCapture].

(** A stretch of trace left by one reconnect wait. *)
Definition wait_only (grace_period : Z) (d : list (Z * Event)) : Prop :=
  commands d = [] /\ wait_starts d = [grace_period]
  /\ reconnect_attempts d = [] /\ endings d = [] /\ unlinked d = []
  /\ steps d = [StepWait].

(** The segments of a session are numbered 1, 2, 3, ... in list order. *)
Definition dense (s : RecordingSession) : Prop :=
  segments s = map (segment_path_of s) (seq 1 (length (segments s))).

(** ** Reading a post-processing run *)

(** The transcode step [postprocess] makes before it looks at the final
    file: a remux for one segment, a merge for more. *)
Definition transcode (E : Env) (segments : list string)
    (final_path ffmpeg : string) : M bool :=
  match segments with
  | [src] => remux_single E src final_path ffmpeg
  | _ => merge_segments E segments final_path ffmpeg
  end.

(** The file system as the ffmpeg process of that step leaves it. *)
Definition tool_fs (E : Env) (segments : list string)
    (final_path ffmpeg : string) (w : World) : FS :=
  match segments with
  | [src] =>
      (subprocess_run E (spawned w) (remux_cmd src final_path ffmpeg) (fs w)).2
  | _ =>
      let concat_list := mktemp E (fs w) in
      (subprocess_run E (spawned w) (concat_cmd concat_list final_path ffmpeg)
         (<[concat_list := concat_list_content segments]> (fs w))).2
  end.

(** The check [postprocess] makes on the final file, as a boolean. *)
Definition artifact_okb (f : FS) (final_path : string) : bool :=
  match f !! final_path with
  | Some content => (0 <? String.length content)%nat
  | None => false
  end.

(** The world after unlinking each of [files] in turn. *)
Fixpoint unlinked_world (files : list string) (w : World) : World :=
  match files with
  | [] => w
  | f :: files' =>
      unlinked_world files' (set_fs (delete f (fs w)) (record (EvUnlink f) w))
  end.

(** ** Sample worlds *)

Definition sample_config (max_reconnects : Z) : Config.t := {|
  Config.channel := "chan";
  Config.output_dir := "/out";
  Config.quality := "720p";
  Config.stream_timeout := 120;
  Config.initial_wait := 90;
  Config.retry_interval := 30;
  Config.reconnect_grace_period := 60;
  Config.reconnect_check_interval := 20;
  Config.max_reconnects := max_reconnects;
  Config.merge_segments := true;
  Config.cleanup_segments := true;
  Config.ffmpeg_path := "ffmpeg";
  Config.streamlink_args := []
|}.

Definition sample_session (max_reconnects : Z) : RecordingSession :=
  new_session (sample_config max_reconnects) "2024-01-01".

(** Streamlink finds only a "best" stream. *)
Definition best_only : lookup_result := StreamsDict {[ "best" := "hls" ]}.

(** The path after [--output] in a streamlink command. *)
Definition output_arg (cmd : list string) : string := default "" (cmd !! 4%nat).

(** A capture tool that is not installed. *)
Definition tool_missing (k : nat) (cmd : list string) (f : FS) : proc_result * FS :=
  (ProcRaises FileNotFoundError, f).

(** A capture tool that leaves an empty file, after which reading its
    output raises. *)
Definition tool_garbled (k : nat) (cmd : list string) (f : FS) : proc_result * FS :=
  (ProcRaises OtherException, <[output_arg cmd := ""]> f).

(** A capture tool that returns having left an empty file. *)
Definition tool_empty (k : nat) (cmd : list string) (f : FS) : proc_result * FS :=
  (Completed 0, <[output_arg cmd := ""]> f).

(** A capture tool whose first two runs write nothing and whose later runs
    write data. *)
Definition tool_third_time (k : nat) (cmd : list string) (f : FS)
    : proc_result * FS :=
  if (k <? 2)%nat then (Completed 1, f)
  else (Completed 0, <[output_arg cmd := "data"]> f).

Definition fresh_name (f : FS) : string := fresh (dom f).

(** The channel is live at every probe. *)
Definition env_always_live (tool : nat -> list string -> FS -> proc_result * FS)
    : Env :=
  mkEnv (fun _ _ => best_only) tool fresh_name.

(** The channel is live at probe [n] (counted from 0) only. *)
Definition env_live_at (n : nat) : Env :=
  mkEnv (fun k _ => if (k =? n)%nat then best_only else StreamsDict ∅)
    tool_missing fresh_name.

(** The channel is never found: every lookup raises. *)
Definition env_never_live : Env :=
  mkEnv (fun _ _ => LookupRaises PluginError) tool_missing fresh_name.

(** An ffmpeg that writes the final file (the last but one argument). *)
Definition ffmpeg_writes (content : string) (k : nat) (cmd : list string)
    (f : FS) : proc_result * FS :=
  (Completed 0, <[default "" (cmd !! (length cmd - 2)%nat) := content]> f).

(** An ffmpeg that fails and writes nothing. *)
Definition ffmpeg_fails (k : nat) (cmd : list string) (f : FS)
    : proc_result * FS :=
  (Completed 1, f).

(** Three segments on disk. *)
Definition three_segments : list string :=
  ["/out/chan_2024-01-01_part01.ts"; "/out/chan_2024-01-01_part02.ts";
   "/out/chan_2024-01-01_part03.ts"].
Definition world_with_segments : World :=
  set_fs (list_to_map (map (fun p => (p, "data")) three_segments)) empty_world.

(** A post-processing world: the channel does not matter, ffmpeg behaves as
    [tool] says. *)
Definition env_ffmpeg (tool : nat -> list string -> FS -> proc_result * FS) : Env :=
  mkEnv (fun _ _ => best_only) tool fresh_name.

(** ** Further readings of a run *)

(** From [w] to [w'] nothing happened but stream lookups, sleeps and log
    lines: no file changed, no subprocess ran, no file was written or
    unlinked, and the clock did not go back. *)
Definition only_polled (w w' : World) : Prop :=
  fs w' = fs w /\ spawned w' = spawned w
  /\ clock w <= clock w' /\ (lookups w <= lookups w')%nat
  /\ exists d, trace w' = trace w ++ d
               /\ commands d = [] /\ unlinked d = [] /\ written d = [].

From Stdlib Require Import Ascii DecimalNat.

(** Reads a decimal numeral, leading zeros allowed (what [int] does to the
    digits of a part number). *)
Definition parse_decimal (s : string) : option nat :=
  Nat.of_uint <$> NilEmpty.uint_of_string s.

(** The path has no single quote in it. *)
Fixpoint quote_free (s : string) : Prop :=
  match s with
  | EmptyString => True
  | String a s' => a <> "'"%char /\ quote_free s'
  end.

(** ** config.py and cli.py *)

(** What the machine and the YAML library answer: whether a path is a
    directory, what [Path.mkdir(parents=True, exist_ok=True)] does (directories
    are not files of a [World]: it succeeds or raises), and what
    [Config.from_yaml] makes of a path on a file system (a configuration, or
    the exception reading or parsing raises). *)
Record Host : Type := mkHost {
  is_dir : string -> bool;
  mkdir_parents : string -> option exn;
  from_yaml : string -> FS -> Config.t + exn
}.

(** [Path.exists()]: a directory or a file. *)
Definition host_exists (H : Host) (p : string) : M bool := fun w =>
  (Val (is_dir H p || bool_decide (is_Some (fs w !! p))), w).

Definition host_mkdir (H : Host) (p : string) : M unit := fun w =>
  match mkdir_parents H p with
  | None => (Val tt, w)
  | Some e => (Exn e, w)
  end.

(** [Path.unlink(missing_ok=True)] on a machine with directories: a
    missing path is passed over, a directory is not unlinked and the call
    raises (IsADirectoryError or PermissionError, by platform). *)
Definition unlink_on (H : Host) (p : string) : M unit :=
  if is_dir H p then raise OtherException else unlink p.

Fixpoint unlink_each_on (H : Host) (files : list string) : M unit :=
  match files with
  | [] => ret tt
  | f :: files' => unlink_on H f ;; unlink_each_on H files'
  end.

(** [cleanup] on such a machine. *)
Definition cleanup_on (H : Host) (files : list string) : M unit :=
  unlink_each_on H files ;;
  log (LogCleanedUp (length files)).

(** Python's truth value of a string. *)
Definition truthy (s : string) : bool :=
  match s with
  | EmptyString => false
  | String _ _ => true
  end.

(** [Config.validate] *)
Definition validate (H : Host) (c : Config.t) : M unit :=
  if negb (truthy (Config.channel c)) || String.eqb (Config.channel c) "channelname"
  then raise ValueError
  else
    present <- host_exists H (Config.output_dir c) ;;
    if negb present then host_mkdir H (Config.output_dir c) else ret tt.

(** The namespace [build_parser().parse_args(argv)] gives. *)
Module Args.
Record t : Type := mk {
  channel : option string;
  config : option string;
  output_dir : option string;
  quality : option string;
  no_merge : bool;
  keep_segments : bool;
  no_wait : bool;
  verbose : bool
}.
End Args.

Definition set_channel (v : string) (c : Config.t) : Config.t :=
  Config.mk v (Config.output_dir c) (Config.quality c) (Config.stream_timeout c)
    (Config.initial_wait c) (Config.retry_interval c)
    (Config.reconnect_grace_period c) (Config.reconnect_check_interval c)
    (Config.max_reconnects c) (Config.merge_segments c)
    (Config.cleanup_segments c) (Config.ffmpeg_path c) (Config.streamlink_args c).
Definition set_output_dir (v : string) (c : Config.t) : Config.t :=
  Config.mk (Config.channel c) v (Config.quality c) (Config.stream_timeout c)
    (Config.initial_wait c) (Config.retry_interval c)
    (Config.reconnect_grace_period c) (Config.reconnect_check_interval c)
    (Config.max_reconnects c) (Config.merge_segments c)
    (Config.cleanup_segments c) (Config.ffmpeg_path c) (Config.streamlink_args c).
Definition set_quality (v : string) (c : Config.t) : Config.t :=
  Config.mk (Config.channel c) (Config.output_dir c) v (Config.stream_timeout c)
    (Config.initial_wait c) (Config.retry_interval c)
    (Config.reconnect_grace_period c) (Config.reconnect_check_interval c)
    (Config.max_reconnects c) (Config.merge_segments c)
    (Config.cleanup_segments c) (Config.ffmpeg_path c) (Config.streamlink_args c).
Definition set_merge_segments (v : bool) (c : Config.t) : Config.t :=
  Config.mk (Config.channel c) (Config.output_dir c) (Config.quality c)
    (Config.stream_timeout c) (Config.initial_wait c) (Config.retry_interval c)
    (Config.reconnect_grace_period c) (Config.reconnect_check_interval c)
    (Config.max_reconnects c) v
    (Config.cleanup_segments c) (Config.ffmpeg_path c) (Config.streamlink_args c).
Definition set_cleanup_segments (v : bool) (c : Config.t) : Config.t :=
  Config.mk (Config.channel c) (Config.output_dir c) (Config.quality c)
    (Config.stream_timeout c) (Config.initial_wait c) (Config.retry_interval c)
    (Config.reconnect_grace_period c) (Config.reconnect_check_interval c)
    (Config.max_reconnects c) (Config.merge_segments c)
    v (Config.ffmpeg_path c) (Config.streamlink_args c).

(** [if value: config.field = value] for an optional string argument. *)
Definition override (value : option string)
    (set : string -> Config.t -> Config.t) (c : Config.t) : Config.t :=
  match value with
  | Some v => if truthy v then set v c else c
  | None => c
  end.

(** The "Build config" block of [main]: the file's configuration when a
    config path is given and exists, the defaults otherwise. *)
Definition load_config (H : Host) (args : Args.t) : M Config.t :=
  match Args.config args with
  | Some path =>
      present <- host_exists H path ;;
      if present then
        fun w => match from_yaml H path (fs w) with
                 | inl c => (Val c, w)
                 | inr e => (Exn e, w)
                 end
      else ret Config.default
  | None => ret Config.default
  end.

(** The "CLI overrides" block of [main]. *)
Definition cli_overrides (args : Args.t) (c : Config.t) : Config.t :=
  let c := override (Args.channel args) set_channel c in
  let c := override (Args.output_dir args) set_output_dir c in
  let c := override (Args.quality args) set_quality c in
  let c := if Args.no_merge args then set_merge_segments false c else c in
  let c := if Args.keep_segments args then set_cleanup_segments false c else c in
  c.

(** The "Wait for stream to go live" block of [main]: one probe with
    [--no-wait], the wait loop without. *)
Definition await_live (E : Env) (args : Args.t) (c : Config.t) (fuel : nat)
    : M bool :=
  if Args.no_wait args then
    is_live E (Config.channel c) (Config.quality c)
  else
    wait_until_live E (Config.channel c) (Config.quality c)
      (Config.initial_wait c) (Config.retry_interval c) fuel.

(** [main], from the parsed arguments on; the date is the one the session
    is made on.  The lines [main] itself logs are not recorded. *)
Definition main (E : Env) (H : Host) (args : Args.t) (date : string)
    (fuel : nat) : M Z :=
  config <- load_config H args ;;
  let config := cli_overrides args config in
  valid <- try_except (validate H config ;; ret true)
             (fun e => match e with
                       | ValueError => ret false
                       | _ => raise e
                       end) ;;
  if negb valid then ret 1
  else
    live <- await_live E args config fuel ;;
    if negb live then ret 0
    else
      session <- run E fuel (new_session config date) ;;
      result <- postprocess E (segments session) (final_filename session)
                  (Config.merge_segments config) (Config.cleanup_segments config)
                  (Config.ffmpeg_path config) ;;
      ret 0.

(** A machine on which every directory exists. *)
Definition host_ready : Host :=
  mkHost (fun _ => true) (fun _ => None) (fun _ _ => inl Config.default).

(** A subprocess world in which streamlink writes data to its output path
    and ffmpeg writes the final file. *)
Definition tools_work (k : nat) (cmd : list string) (f : FS) : proc_result * FS :=
  if String.eqb (default "" (cmd !! 0%nat)) "streamlink"
  then (Completed 0, <[output_arg cmd := "data"]> f)
  else ffmpeg_writes "movie" k cmd f.

(** [twitch-recorder chan -o /out --no-wait] *)
Definition sample_args : Args.t :=
  Args.mk (Some "chan") None (Some "/out") None false false true false.

(** A machine with the directory /out, on which every config file reads
    as [c]. *)
Definition host_with_config (c : Config.t) : Host :=
  mkHost (fun p => String.eqb p "/out") (fun _ => None) (fun _ _ => inl c).

(** [twitch-recorder -c /etc/recorder.yaml --no-wait] *)
Definition sample_args_file : Args.t :=
  Args.mk None (Some "/etc/recorder.yaml") None None false false true false.

Definition world_with_config : World :=
  set_fs {[ "/etc/recorder.yaml" := "channel: chan" ]} empty_world.

(** Streamlink writes data to its output path; ffmpeg is not installed. *)
Definition tools_no_ffmpeg (k : nat) (cmd : list string) (f : FS)
    : proc_result * FS :=
  if String.eqb (default "" (cmd !! 0%nat)) "streamlink"
  then (Completed 0, <[output_arg cmd := "data"]> f)
  else (ProcRaises FileNotFoundError, f).

(** * Properties *)

(** ** Primitives *)

Lemma bind_val {A B} (m : M A) (k : A -> M B) w a w' :
  m w = (Val a, w') -> (x <- m ;; k x) w = k a w'.
Proof. intros H. unfold bind. now rewrite H. Qed.


Lemma is_live_eq E channel quality w :
  is_live E channel quality w
  = (Val (live_at E channel quality (lookups w)), probed E channel w).
Proof.
  unfold is_live, try_except, bind, streams_of, live_at, probed, live_answer.
  destruct (session_streams E (lookups w) (TWITCH_URL channel)) as [d|e]; [reflexivity|].
  destruct e; reflexivity.
Qed.

Lemma probed_clock E channel w : clock (probed E channel w) = clock w.
Proof.
  unfold probed.
  destruct (session_streams _ _ _) as [d|[]]; reflexivity.
Qed.

Lemma probed_lookups E channel w : lookups (probed E channel w) = S (lookups w).
Proof.
  unfold probed.
  destruct (session_streams _ _ _) as [d|[]]; reflexivity.
Qed.

Lemma probed_fs E channel w : fs (probed E channel w) = fs w.
Proof.
  unfold probed.
  destruct (session_streams _ _ _) as [d|[]]; reflexivity.
Qed.


Lemma probed_probe_times E channel w :
  probe_times (trace (probed E channel w)) = probe_times (trace w) ++ [clock w].
Proof.
  unfold probed, probe_times.
  destruct (session_streams _ _ _) as [d|[]]; cbn [trace record set_lookups];
    rewrite ?omap_app; cbn; rewrite ?app_nil_r; reflexivity.
Qed.


Lemma sleep_eq seconds w :
  0 <= seconds ->
  sleep seconds w
  = (Val tt, set_clock (clock w + seconds) (record (EvSleep seconds) w)).
Proof.
  intros H. unfold sleep.
  destruct (Z.ltb_spec seconds 0); [lia | reflexivity].
Qed.

(** ** stream.py: the liveness probe *)

(** C9: [is_live] answers true whenever the requested quality or "best" is
    among the streams found, so an unavailable quality still counts as live
    when a "best" stream exists, and every exception of the stream lookup
    gives the answer false instead of being raised. *)
Theorem is_live_quality_or_best E channel quality w :
  (forall d,
      session_streams E (lookups w) (TWITCH_URL channel) = StreamsDict d ->
      is_Some (d !! quality) \/ is_Some (d !! "best") ->
      (is_live E channel quality w).1 = Val true)
  /\ (forall e,
      session_streams E (lookups w) (TWITCH_URL channel) = LookupRaises e ->
      (is_live E channel quality w).1 = Val false)
  /\ (forall e, (is_live E channel quality w).1 <> Exn e).
Proof.
  rewrite is_live_eq. cbn [fst]. unfold live_at, live_answer, dict_in.
  repeat split.
  - intros d -> [Hq|Hb].
    + rewrite (bool_decide_eq_true_2 _ Hq). reflexivity.
    + rewrite (bool_decide_eq_true_2 _ Hb). now rewrite orb_true_r.
  - intros e ->. reflexivity.
  - intros e. discriminate.
Qed.

(** ** stream.py: waiting for the stream to start *)

Section wait_until_live_facts.
Context (E : Env) (channel quality : string) (timeout interval : Z).
Hypothesis interval_nonneg : 0 <= interval.

(** [m] probes in a row that find the channel offline, each inside the
    budget, take the loop [m] iterations further. *)
Lemma wait_until_live_loop_offline m : forall fuel waited w,
  (forall i, (i < m)%nat -> live_at E channel quality (lookups w + i) = false) ->
  (forall i, (i < m)%nat -> waited + Z.of_nat i * interval < timeout) ->
  exists w',
    wait_until_live_loop E channel quality timeout interval (m + fuel) waited w
    = wait_until_live_loop E channel quality timeout interval fuel
        (waited + Z.of_nat m * interval) w'
    /\ clock w' = clock w + Z.of_nat m * interval
    /\ lookups w' = (lookups w + m)%nat
    /\ fs w' = fs w
    /\ probe_times (trace w')
       = probe_times (trace w)
         ++ map (fun i => clock w + Z.of_nat i * interval) (seq 0 m).
Proof.
  induction m as [|m IH]; intros fuel waited w Hoff Hin.
  - exists w. cbn [seq map Nat.add]. rewrite app_nil_r, Nat.add_0_r.
    repeat split; f_equal; lia.
  - cbn [Nat.add wait_until_live_loop].
    specialize (Hin 0%nat ltac:(lia)) as H0.
    destruct (Z.ltb_spec waited timeout) as [_|?]; [|lia].
    rewrite (bind_val _ _ _ _ _ (is_live_eq E channel quality w)).
    pose proof (Hoff 0%nat ltac:(lia)) as Hl. rewrite Nat.add_0_r in Hl.
    rewrite Hl.
    rewrite (bind_val _ _ _ _ _ (sleep_eq interval _ interval_nonneg)).
    set (w2 := set_clock _ _).
    destruct (IH fuel (waited + interval) w2) as (w' & Heq & Hc & Hk & Hf & Hp).
    + intros i Hi. subst w2. cbn [lookups set_clock record].
      rewrite probed_lookups.
      specialize (Hoff (S i) ltac:(lia)).
      now replace (S (lookups w) + i)%nat with (lookups w + S i)%nat by lia.
    + intros i Hi. specialize (Hin (S i) ltac:(lia)). lia.
    + exists w'. subst w2.
      cbn [clock lookups fs trace set_clock record] in *.
      rewrite probed_clock, ?probed_lookups, ?probed_fs in *.
      repeat split.
      * rewrite Heq. f_equal. lia.
      * lia.
      * lia.
      * exact Hf.
      * rewrite Hp. unfold probe_times at 1. rewrite omap_app.
        fold (probe_times (trace (probed E channel w))).
        rewrite probed_probe_times. cbn [omap lookup_time snd].
        rewrite app_nil_r, <- app_assoc. f_equal.
        cbn [seq map app]. f_equal; [lia|].
        rewrite <- seq_shift, map_map.
        apply map_ext. intros i. lia.
Qed.
End wait_until_live_facts.

Lemma wait_until_live_loop_live E channel quality timeout interval fuel waited w :
  waited < timeout ->
  live_at E channel quality (lookups w) = true ->
  wait_until_live_loop E channel quality timeout interval (S fuel) waited w
  = (Val true, record (EvLog LogStreamIsLive) (probed E channel w)).
Proof.
  intros Hlt Hl. cbn [wait_until_live_loop].
  destruct (Z.ltb_spec waited timeout) as [_|?]; [|lia].
  rewrite (bind_val _ _ _ _ _ (is_live_eq E channel quality w)), Hl.
  reflexivity.
Qed.

Lemma wait_until_live_loop_expired E channel quality timeout interval fuel waited w :
  timeout <= waited ->
  wait_until_live_loop E channel quality timeout interval fuel waited w
  = (Val false, record (EvLog (LogDidNotGoLive timeout)) w).
Proof.
  intros Hge.
  destruct fuel; cbn [wait_until_live_loop];
    (destruct (Z.ltb_spec waited timeout) as [?|_]; [lia|reflexivity]).
Qed.

Lemma probe_times_record_log m w :
  probe_times (trace (record (EvLog m) w)) = probe_times (trace w).
Proof.
  unfold probe_times. cbn [trace record]. rewrite omap_app. cbn.
  now rewrite app_nil_r.
Qed.

(** C7: [wait_until_live] probes at once and then once per [interval]
    seconds of sleep; it returns true at the first probe that finds the
    channel live, after [j] sleeps when that is probe [j] (counted from 0),
    and false once the sleeps add up to [timeout] with every probe made
    until then failing.  With timeout 90 and interval 30 and a channel live
    at the third probe, the probes are at 0, 30 and 60 seconds and the
    answer is true. *)
Theorem wait_until_live_polls E channel quality w :
  (forall timeout interval (j fuel : nat),
      0 <= interval ->
      (forall i, (i < j)%nat -> live_at E channel quality (lookups w + i) = false) ->
      live_at E channel quality (lookups w + j) = true ->
      Z.of_nat j * interval < timeout ->
      (j < fuel)%nat ->
      exists w',
        wait_until_live E channel quality timeout interval fuel w = (Val true, w')
        /\ clock w' = clock w + Z.of_nat j * interval
        /\ probe_times (trace w')
           = probe_times (trace w)
             ++ map (fun i => clock w + Z.of_nat i * interval) (seq 0 (S j)))
  /\ (forall timeout interval (n fuel : nat),
      0 <= interval ->
      (forall i, (i < n)%nat -> live_at E channel quality (lookups w + i) = false) ->
      ((0 < n)%nat -> (Z.of_nat n - 1) * interval < timeout) ->
      timeout <= Z.of_nat n * interval ->
      (n <= fuel)%nat ->
      exists w',
        wait_until_live E channel quality timeout interval fuel w = (Val false, w')
        /\ clock w' = clock w + Z.of_nat n * interval
        /\ probe_times (trace w')
           = probe_times (trace w)
             ++ map (fun i => clock w + Z.of_nat i * interval) (seq 0 n))
  /\ (forall fuel : nat,
      live_at E channel quality (lookups w) = false ->
      live_at E channel quality (lookups w + 1) = false ->
      live_at E channel quality (lookups w + 2) = true ->
      (3 <= fuel)%nat ->
      exists w',
        wait_until_live E channel quality 90 30 fuel w = (Val true, w')
        /\ clock w' = clock w + 60
        /\ probe_times (trace w')
           = probe_times (trace w) ++ [clock w; clock w + 30; clock w + 60]).
Proof.
  assert (Hlive : forall timeout interval (j fuel : nat),
      0 <= interval ->
      (forall i, (i < j)%nat -> live_at E channel quality (lookups w + i) = false) ->
      live_at E channel quality (lookups w + j) = true ->
      Z.of_nat j * interval < timeout ->
      (j < fuel)%nat ->
      exists w',
        wait_until_live E channel quality timeout interval fuel w = (Val true, w')
        /\ clock w' = clock w + Z.of_nat j * interval
        /\ probe_times (trace w')
           = probe_times (trace w)
             ++ map (fun i => clock w + Z.of_nat i * interval) (seq 0 (S j))).
  { intros timeout interval j fuel Hi Hoff Hon Hin Hfuel.
    set (w0 := record (EvLog (LogWaitingForLive channel timeout interval)) w).
    destruct (wait_until_live_loop_offline E channel quality timeout interval Hi
                j (fuel - j) 0 w0) as (w1 & Heq & Hc & Hk & _ & Hp).
    { intros i Hlt. now apply Hoff. }
    { intros i Hlt. nia. }
    replace (j + (fuel - j))%nat with fuel in Heq by lia.
    destruct (fuel - j)%nat as [|f] eqn:Hf; [lia|].
    rewrite wait_until_live_loop_live in Heq;
      [| lia | rewrite Hk; exact Hon].
    eexists. split; [exact Heq|]. split.
    { cbn [clock record]. rewrite probed_clock. exact Hc. }
    rewrite probe_times_record_log, probed_probe_times, Hp, Hc.
    subst w0. rewrite probe_times_record_log. cbn [clock record].
    rewrite <- app_assoc. f_equal.
    rewrite seq_S, map_app. reflexivity. }
  split; [exact Hlive|]. split.
  - intros timeout interval n fuel Hi Hoff Hin Hout Hfuel.
    set (w0 := record (EvLog (LogWaitingForLive channel timeout interval)) w).
    destruct (wait_until_live_loop_offline E channel quality timeout interval Hi
                n (fuel - n) 0 w0) as (w1 & Heq & Hc & Hk & _ & Hp).
    { intros i Hlt. now apply Hoff. }
    { intros i Hlt. specialize (Hin ltac:(lia)).
      assert (Z.of_nat i * interval <= (Z.of_nat n - 1) * interval)
        by (apply Z.mul_le_mono_nonneg_r; lia).
      lia. }
    replace (n + (fuel - n))%nat with fuel in Heq by lia.
    rewrite (wait_until_live_loop_expired E channel quality timeout interval
               (fuel - n) (0 + Z.of_nat n * interval)) in Heq by lia.
    eexists. split; [exact Heq|].
    cbn [clock record]. split; [exact Hc|].
    rewrite probe_times_record_log, Hp. subst w0.
    now rewrite probe_times_record_log.
  - intros fuel H0 H1 H2 Hfuel.
    destruct (Hlive 90 30 2%nat fuel) as (w' & Heq & Hc & Hp); try lia.
    { intros [|[|i]] Hlt; [now rewrite Nat.add_0_r | exact H1 | lia]. }
    { exact H2. }
    exists w'. split; [exact Heq|]. split; [lia|].
    rewrite Hp. cbn [seq map]. repeat f_equal; lia.
Qed.

(** C10: with a timeout of zero or less [wait_until_live] answers false
    without a single probe, whatever the channel's state. *)
Theorem wait_until_live_no_budget E channel quality timeout interval fuel w :
  timeout <= 0 ->
  exists w',
    wait_until_live E channel quality timeout interval fuel w = (Val false, w')
    /\ lookups w' = lookups w
    /\ probe_times (trace w') = probe_times (trace w)
    /\ sleeps (trace w') = sleeps (trace w)
    /\ clock w' = clock w.
Proof.
  intros Hle. unfold wait_until_live.
  eexists. split.
  - erewrite bind_val by reflexivity.
    apply wait_until_live_loop_expired. exact Hle.
  - cbn [lookups clock trace record]. repeat split.
    + unfold probe_times. rewrite <- app_assoc, omap_app. cbn.
      now rewrite app_nil_r.
    + unfold sleeps. rewrite <- app_assoc, omap_app. cbn.
      now rewrite app_nil_r.
Qed.

(** ** stream.py: waiting for the stream to return *)

Lemma slept_and_probed_clock E channel d w :
  clock (slept_and_probed E channel d w) = clock w + d.
Proof. unfold slept_and_probed. now rewrite probed_clock. Qed.

Lemma slept_and_probed_lookups E channel d w :
  lookups (slept_and_probed E channel d w) = S (lookups w).
Proof. unfold slept_and_probed. now rewrite probed_lookups. Qed.

Lemma slept_and_probed_fs E channel d w :
  fs (slept_and_probed E channel d w) = fs w.
Proof. unfold slept_and_probed. now rewrite probed_fs. Qed.


Lemma slept_and_probed_probe_times E channel d w :
  probe_times (trace (slept_and_probed E channel d w))
  = probe_times (trace w) ++ [clock w + d].
Proof.
  unfold slept_and_probed. rewrite probed_probe_times.
  cbn [clock trace set_clock record]. unfold probe_times.
  rewrite omap_app. cbn. now rewrite app_nil_r.
Qed.


Lemma wait_for_reconnect_loop_step E channel quality grace_period check_interval
    fuel waited w :
  0 <= check_interval ->
  waited < grace_period ->
  wait_for_reconnect_loop E channel quality grace_period check_interval
    (S fuel) waited w
  = if live_at E channel quality (lookups w) then
      (Val true,
       record (EvLog LogStreamBack) (slept_and_probed E channel check_interval w))
    else
      wait_for_reconnect_loop E channel quality grace_period check_interval
        fuel (waited + check_interval)
        (slept_and_probed E channel check_interval w).
Proof.
  intros Hi Hlt. cbn [wait_for_reconnect_loop].
  destruct (Z.ltb_spec waited grace_period) as [_|?]; [|lia].
  rewrite (bind_val _ _ _ _ _ (sleep_eq check_interval _ Hi)).
  erewrite bind_val by apply is_live_eq.
  cbn [lookups set_clock record].
  destruct (live_at E channel quality (lookups w)); reflexivity.
Qed.

Lemma wait_for_reconnect_loop_expired E channel quality grace_period
    check_interval fuel waited w :
  grace_period <= waited ->
  wait_for_reconnect_loop E channel quality grace_period check_interval
    fuel waited w
  = (Val false, record (EvLog (LogDidNotReturn grace_period)) w).
Proof.
  intros Hge.
  destruct fuel; cbn [wait_for_reconnect_loop];
    (destruct (Z.ltb_spec waited grace_period) as [?|_]; [lia|reflexivity]).
Qed.

Section wait_for_reconnect_facts.
Context (E : Env) (channel quality : string) (grace_period check_interval : Z).
Hypothesis interval_nonneg : 0 <= check_interval.

(** [m] rounds in a row that find the channel offline, each begun inside
    the grace period, take the loop [m] iterations further. *)
Lemma wait_for_reconnect_loop_offline m : forall fuel waited w,
  (forall i, (i < m)%nat -> live_at E channel quality (lookups w + i) = false) ->
  (forall i, (i < m)%nat -> waited + Z.of_nat i * check_interval < grace_period) ->
  exists w',
    wait_for_reconnect_loop E channel quality grace_period check_interval
      (m + fuel) waited w
    = wait_for_reconnect_loop E channel quality grace_period check_interval
        fuel (waited + Z.of_nat m * check_interval) w'
    /\ clock w' = clock w + Z.of_nat m * check_interval
    /\ lookups w' = (lookups w + m)%nat
    /\ fs w' = fs w
    /\ probe_times (trace w')
       = probe_times (trace w)
         ++ map (fun i => clock w + (Z.of_nat i + 1) * check_interval) (seq 0 m).
Proof.
  induction m as [|m IH]; intros fuel waited w Hoff Hin.
  - exists w. cbn [seq map Nat.add]. rewrite app_nil_r, Nat.add_0_r.
    repeat split; f_equal; lia.
  - cbn [Nat.add].
    rewrite wait_for_reconnect_loop_step
      by (try assumption; specialize (Hin 0%nat ltac:(lia)); lia).
    pose proof (Hoff 0%nat ltac:(lia)) as Hl. rewrite Nat.add_0_r in Hl.
    rewrite Hl.
    destruct (IH fuel (waited + check_interval)
                (slept_and_probed E channel check_interval w))
      as (w' & Heq & Hc & Hk & Hf & Hp).
    + intros i Hi. rewrite slept_and_probed_lookups.
      specialize (Hoff (S i) ltac:(lia)).
      now replace (S (lookups w) + i)%nat with (lookups w + S i)%nat by lia.
    + intros i Hi. specialize (Hin (S i) ltac:(lia)). lia.
    + exists w'.
      rewrite slept_and_probed_clock, slept_and_probed_lookups,
        slept_and_probed_fs, slept_and_probed_probe_times in *.
      repeat split.
      * rewrite Heq. f_equal. lia.
      * lia.
      * lia.
      * exact Hf.
      * rewrite Hp, <- app_assoc. f_equal.
        cbn [seq map app]. f_equal; [lia|].
        rewrite <- seq_shift, map_map.
        apply map_ext. intros i. lia.
Qed.
End wait_for_reconnect_facts.

(** C8: [wait_for_reconnect] sleeps [check_interval] seconds before each
    probe, the first one included; it returns true at the first probe that
    finds the channel live and false once the sleeps add up to
    [grace_period] with every probe failing.  With a grace period of 60 and
    a check every 20 seconds and a channel that never returns, it probes
    three times, at 20, 40 and 60 seconds, and answers false after the
    whole 60 seconds. *)
Theorem wait_for_reconnect_polls E channel quality w :
  (forall grace_period check_interval (j fuel : nat),
      0 <= check_interval ->
      (forall i, (i < j)%nat -> live_at E channel quality (lookups w + i) = false) ->
      live_at E channel quality (lookups w + j) = true ->
      Z.of_nat j * check_interval < grace_period ->
      (j < fuel)%nat ->
      exists w',
        wait_for_reconnect E channel quality grace_period check_interval fuel w
        = (Val true, w')
        /\ clock w' = clock w + (Z.of_nat j + 1) * check_interval
        /\ probe_times (trace w')
           = probe_times (trace w)
             ++ map (fun i => clock w + (Z.of_nat i + 1) * check_interval)
                  (seq 0 (S j)))
  /\ (forall grace_period check_interval (n fuel : nat),
      0 <= check_interval ->
      (forall i, (i < n)%nat -> live_at E channel quality (lookups w + i) = false) ->
      ((0 < n)%nat -> (Z.of_nat n - 1) * check_interval < grace_period) ->
      grace_period <= Z.of_nat n * check_interval ->
      (n <= fuel)%nat ->
      exists w',
        wait_for_reconnect E channel quality grace_period check_interval fuel w
        = (Val false, w')
        /\ clock w' = clock w + Z.of_nat n * check_interval
        /\ probe_times (trace w')
           = probe_times (trace w)
             ++ map (fun i => clock w + (Z.of_nat i + 1) * check_interval)
                  (seq 0 n))
  /\ (forall fuel : nat,
      (forall k, live_at E channel quality k = false) ->
      (3 <= fuel)%nat ->
      exists w',
        wait_for_reconnect E channel quality 60 20 fuel w = (Val false, w')
        /\ clock w' = clock w + 60
        /\ probe_times (trace w')
           = probe_times (trace w) ++ [clock w + 20; clock w + 40; clock w + 60]).
Proof.
  assert (Hexp : forall grace_period check_interval (n fuel : nat),
      0 <= check_interval ->
      (forall i, (i < n)%nat -> live_at E channel quality (lookups w + i) = false) ->
      ((0 < n)%nat -> (Z.of_nat n - 1) * check_interval < grace_period) ->
      grace_period <= Z.of_nat n * check_interval ->
      (n <= fuel)%nat ->
      exists w',
        wait_for_reconnect E channel quality grace_period check_interval fuel w
        = (Val false, w')
        /\ clock w' = clock w + Z.of_nat n * check_interval
        /\ probe_times (trace w')
           = probe_times (trace w)
             ++ map (fun i => clock w + (Z.of_nat i + 1) * check_interval)
                  (seq 0 n)).
  { intros grace_period check_interval n fuel Hi Hoff Hin Hout Hfuel.
    set (w0 := record (EvLog (LogStreamDropped grace_period)) w).
    destruct (wait_for_reconnect_loop_offline E channel quality grace_period
                check_interval Hi n (fuel - n) 0 w0)
      as (w1 & Heq & Hc & Hk & _ & Hp).
    { intros i Hlt. now apply Hoff. }
    { intros i Hlt. specialize (Hin ltac:(lia)).
      assert (Z.of_nat i * check_interval <= (Z.of_nat n - 1) * check_interval)
        by (apply Z.mul_le_mono_nonneg_r; lia).
      lia. }
    replace (n + (fuel - n))%nat with fuel in Heq by lia.
    rewrite (wait_for_reconnect_loop_expired E channel quality grace_period
               check_interval (fuel - n) (0 + Z.of_nat n * check_interval))
      in Heq by lia.
    eexists. split; [exact Heq|].
    cbn [clock record]. split; [exact Hc|].
    rewrite probe_times_record_log, Hp. subst w0.
    now rewrite probe_times_record_log. }
  split; [|split; [exact Hexp|]].
  - intros grace_period check_interval j fuel Hi Hoff Hon Hin Hfuel.
    set (w0 := record (EvLog (LogStreamDropped grace_period)) w).
    destruct (wait_for_reconnect_loop_offline E channel quality grace_period
                check_interval Hi j (fuel - j) 0 w0)
      as (w1 & Heq & Hc & Hk & _ & Hp).
    { intros i Hlt. now apply Hoff. }
    { intros i Hlt.
      assert (Z.of_nat i * check_interval <= Z.of_nat j * check_interval)
        by (apply Z.mul_le_mono_nonneg_r; lia).
      lia. }
    replace (j + (fuel - j))%nat with fuel in Heq by lia.
    destruct (fuel - j)%nat as [|f] eqn:Hf; [lia|].
    rewrite (wait_for_reconnect_loop_step E channel quality grace_period
               check_interval f (0 + Z.of_nat j * check_interval) w1)
      in Heq by lia.
    rewrite Hk in Heq. change (lookups w0) with (lookups w) in Heq.
    rewrite Hon in Heq.
    eexists. split; [exact Heq|]. split.
    { cbn [clock record]. rewrite slept_and_probed_clock, Hc.
      subst w0. cbn [clock record]. lia. }
    rewrite probe_times_record_log, slept_and_probed_probe_times, Hp, Hc.
    subst w0. rewrite probe_times_record_log. cbn [clock record].
    rewrite <- app_assoc. f_equal.
    rewrite seq_S, map_app. cbn [map Nat.add]. do 2 f_equal. lia.
  - intros fuel Hnever Hfuel.
    destruct (Hexp 60 20 3%nat fuel) as (w' & Heq & Hc & Hp); try lia.
    { intros i _. apply Hnever. }
    exists w'. split; [exact Heq|]. split; [lia|].
    rewrite Hp. cbn [seq map]. repeat f_equal; lia.
Qed.

(** ** recorder.py: one capture attempt *)

(** The world when [subprocess.run] is over, for the command of an attempt. *)
Lemma record_segment_cases E s w :
  let p := next_segment_path s in
  let cmd := streamlink_cmd s p in
  let w0 := record (EvLog (LogRecordingSegment (length (segments s) + 1) p)) w in
  let out := subprocess_run E (spawned w) cmd (fs w) in
  let w1 := set_spawned (S (spawned w)) (set_fs out.2 (record (EvRun cmd) w0)) in
  record_segment E s w =
  match out.1 with
  | ProcRaises FileNotFoundError =>
      (Val (None, s), record (EvLog LogStreamlinkNotFound) w1)
  | ProcRaises _ =>
      (Val (None, s), record (EvLog LogStreamlinkError) w1)
  | Completed _ =>
      match out.2 !! p with
      | Some content =>
          if (String.length content =? 0)%nat then
            (Val (None, s),
             set_fs (delete p out.2)
               (record (EvUnlink p) (record (EvLog LogSegmentDiscarded) w1)))
          else
            (Val (Some p, append_segment p s),
             record (EvLog (LogSegmentSaved p (String.length content))) w1)
      | None =>
          (Val (None, s),
           set_fs (delete p out.2)
             (record (EvUnlink p) (record (EvLog LogSegmentDiscarded) w1)))
      end
  end.
Proof.
  cbv zeta.
  unfold record_segment, bind, try_except, run_subprocess, log, emit, ret,
    path_exists, st_size, unlink.
  cbn [fs spawned record set_fs set_spawned clock lookups trace].
  destruct (subprocess_run E (spawned w) _ (fs w)) as [[rc|e] fs'];
    cbn [fst snd fs spawned record set_fs set_spawned clock lookups trace].
  - destruct (fs' !! next_segment_path s) as [content|] eqn:Hp;
      cbn [negb from_option].
    + rewrite bool_decide_eq_true_2 by eauto.
      cbn [negb fs set_fs set_spawned record from_option].
      rewrite Hp. cbn [from_option].
      destruct (String.length content =? 0)%nat;
        cbn [fs set_fs set_spawned record from_option];
        rewrite ?Hp; reflexivity.
    + rewrite bool_decide_eq_false_2 by (intros [? ?]; discriminate).
      reflexivity.
  - destruct e; reflexivity.
Qed.


(** Unfolds the observers of a trace built from appended events. *)
Ltac observe :=
  unfold capture_only, wait_only, commands, probe_times, sleeps, wait_starts,
    reconnect_attempts, stream_backs, endings, unlinked, written, logged, steps;
  rewrite ?omap_app; cbn.

Lemma record_segment_effect E s w :
  exists ret s' w' d,
    record_segment E s w = (Val (ret, s'), w')
    /\ trace w' = trace w ++ d
    /\ capture_only (streamlink_cmd s (next_segment_path s)) d
    /\ clock w' = clock w /\ lookups w' = lookups w
    /\ spawned w' = S (spawned w)
    /\ config s' = config s /\ session_date s' = session_date s
    /\ reconnect_count s' = reconnect_count s
    /\ (ret = None /\ s' = s
        \/ ret = Some (next_segment_path s)
           /\ s' = append_segment (next_segment_path s) s).
Proof.
  pose proof (record_segment_cases E s w) as H. cbv zeta in H.
  destruct (subprocess_run E (spawned w) _ (fs w)) as [[rc|e] fs'];
    cbn [fst snd] in H.
  - destruct (fs' !! next_segment_path s) as [content|].
    + destruct (String.length content =? 0)%nat.
      * do 4 eexists. split; [exact H|].
        cbn [trace record set_fs set_spawned clock lookups spawned].
        rewrite <- !app_assoc. split; [reflexivity|].
        split; [observe; tauto|]. tauto.
      * do 4 eexists. split; [exact H|].
        cbn [trace record set_fs set_spawned clock lookups spawned].
        rewrite <- !app_assoc. split; [reflexivity|].
        split; [observe; tauto|]. cbn. tauto.
    + do 4 eexists. split; [exact H|].
      cbn [trace record set_fs set_spawned clock lookups spawned].
      rewrite <- !app_assoc. split; [reflexivity|].
      split; [observe; tauto|]. tauto.
  - assert (He : record_segment E s w
                 = (Val (None, s),
                    record (EvLog (match e with
                                   | FileNotFoundError => LogStreamlinkNotFound
                                   | _ => LogStreamlinkError end))
                      (set_spawned (S (spawned w))
                         (set_fs fs'
                            (record (EvRun (streamlink_cmd s (next_segment_path s)))
                               (record (EvLog (LogRecordingSegment
                                                 (length (segments s) + 1)
                                                 (next_segment_path s))) w)))))).
    { rewrite H. destruct e; reflexivity. }
    do 4 eexists. split; [exact He|].
    cbn [trace record set_fs set_spawned clock lookups spawned].
    rewrite <- !app_assoc. split; [reflexivity|].
    split; [destruct e; observe; tauto|]. tauto.
Qed.

(** ** recorder.py: the session loop *)

Lemma run_loop_S E fuel s w :
  run_loop E (S fuel) s w =
  match record_segment E s w with
  | (Val (_, s1), w1) =>
      let c := config s1 in
      if Config.max_reconnects c <=? reconnect_count s1 then
        (Val s1, record (EvLog (LogMaxReconnects (Config.max_reconnects c))) w1)
      else
        match wait_for_reconnect E (Config.channel c) (Config.quality c)
                (Config.reconnect_grace_period c)
                (Config.reconnect_check_interval c) (S fuel) w1 with
        | (Val true, w2) =>
            run_loop E fuel (incr_reconnect_count s1)
              (record (EvLog (LogReconnecting (reconnect_count s1 + 1)
                                (Config.max_reconnects c))) w2)
        | (Val false, w2) => (Val s1, record (EvLog LogStreamEnded) w2)
        | (Exn e, w2) => (Exn e, w2)
        | (OutOfFuel, w2) => (OutOfFuel, w2)
        end
  | (Exn e, w1) => (Exn e, w1)
  | (OutOfFuel, w1) => (OutOfFuel, w1)
  end.
Proof.
  cbn [run_loop]. unfold bind at 1.
  destruct (record_segment E s w) as [[[r s1]|e|] w1]; try reflexivity.
  cbn [snd]. cbv zeta.
  destruct (Config.max_reconnects (config s1) <=? reconnect_count s1);
    [reflexivity|].
  unfold bind at 1.
  destruct (wait_for_reconnect _ _ _ _ _ _ w1) as [[[|]|e|] w2]; reflexivity.
Qed.

Lemma dense_append s :
  dense s -> dense (append_segment (next_segment_path s) s).
Proof.
  unfold dense, next_segment_path. cbn [segments append_segment].
  intros H. rewrite length_app. cbn [length].
  rewrite seq_app, map_app. cbn [seq map].
  replace (length (segments s) + 1)%nat with (1 + length (segments s))%nat by lia.
  f_equal. exact H.
Qed.

(** The loop only ever appends segments, and keeps them densely numbered. *)
Lemma run_loop_segments E fuel : forall s w s' w',
  run_loop E fuel s w = (Val s', w') ->
  config s' = config s /\ session_date s' = session_date s
  /\ (exists more, segments s' = segments s ++ more)
  /\ (dense s -> dense s').
Proof.
  induction fuel as [|fuel IH]; intros s w s' w' Hrun; [discriminate|].
  rewrite run_loop_S in Hrun.
  destruct (record_segment_effect E s w)
    as (ret & s1 & w1 & d & Hrec & _ & _ & _ & _ & _ & Hc & Hd & _ & Hseg).
  rewrite Hrec in Hrun. cbv zeta in Hrun.
  assert (Hs1 : (exists more, segments s1 = segments s ++ more)
                /\ (dense s -> dense s1)).
  { destruct Hseg as [[_ ->]|[_ ->]].
    - split; [exists []; now rewrite app_nil_r | auto].
    - split; [eexists; reflexivity | apply dense_append]. }
  destruct Hs1 as [[more1 Hmore1] Hdense1].
  destruct (Config.max_reconnects (config s1) <=? reconnect_count s1).
  { inversion Hrun; subst. eauto 10. }
  destruct (wait_for_reconnect _ _ _ _ _ _ w1) as [[[|]|e|] w2];
    try discriminate.
  - apply IH in Hrun. destruct Hrun as (Hc' & Hd' & [more2 Hmore2] & Hdense2).
    cbn [config session_date segments incr_reconnect_count] in *.
    repeat split; try congruence.
    + exists (more1 ++ more2). now rewrite Hmore2, Hmore1, app_assoc.
    + intros H. apply Hdense2. apply Hdense1 in H. exact H.
  - inversion Hrun; subst. eauto 10.
Qed.

(** C3: the code departs from the claim when [subprocess.run] raises.  The
    claim has the file of every rejected attempt deleted.  Here the tool
    leaves an empty file at the segment path and reading its output
    raises: the [except] branch returns before the file is looked at, so
    the attempt is rejected and takes no number, yet the empty file stays
    and nothing is unlinked.  On the sibling path, the same empty file
    left by a call that returns, the file is unlinked. *)
Lemma record_segment_raise_keeps_file :
  let s := sample_session 2 in
  let out := record_segment (env_always_live tool_garbled) s empty_world in
  let sibling := record_segment (env_always_live tool_empty) s empty_world in
  out.1 = Val (None, s)
  /\ fs out.2 !! next_segment_path s = Some ""
  /\ unlinked (trace out.2) = []
  /\ sibling.1 = Val (None, s)
  /\ fs sibling.2 !! next_segment_path s = None
  /\ unlinked (trace sibling.2) = [next_segment_path s].
Proof. cbv zeta. repeat split; vm_compute; reflexivity. Qed.

(** What one capture attempt does to the session and the files, on the
    code as it is: the path enters the segment list only if
    [subprocess.run] returned and the file then exists with a size above
    0; if it returned and the file is missing or empty the file is deleted,
    if it raised the file system is left as the call left it, and in both
    cases the session is unchanged, so no number is used up.  The segments
    of a session are therefore numbered 1, 2, 3, ... in order, whatever
    failed in between, and after two rejected attempts the first accepted
    segment is part01. *)
Theorem accepted_segments_dense E :
  (forall s w,
      let p := next_segment_path s in
      let out := subprocess_run E (spawned w) (streamlink_cmd s p) (fs w) in
      exists ret s' w',
        record_segment E s w = (Val (ret, s'), w')
        /\ match out.1 with
           | Completed _ =>
               artifact_ok out.2 p /\ ret = Some p
               /\ s' = append_segment p s /\ fs w' = out.2
               \/ ~ artifact_ok out.2 p /\ ret = None
                  /\ s' = s /\ fs w' = delete p out.2
           | ProcRaises _ => ret = None /\ s' = s /\ fs w' = out.2
           end)
  /\ (forall fuel c date w s' w',
      run E fuel (new_session c date) w = (Val s', w') ->
      segments s'
      = map (segment_path_of (new_session c date)) (seq 1 (length (segments s'))))
  /\ (forall c date w0 w1 w2 w3 s1 s2 s3 p,
      record_segment E (new_session c date) w0 = (Val (None, s1), w1) ->
      record_segment E s1 w1 = (Val (None, s2), w2) ->
      record_segment E s2 w2 = (Val (Some p, s3), w3) ->
      p = path_join (Config.output_dir c)
            ((Config.channel c +:+ "_" +:+ date) +:+ "_part01.ts")
      /\ segments s3 = [p]).
Proof.
  split; [|split].
  - intros s w p out. subst p out.
    pose proof (record_segment_cases E s w) as H. cbv zeta in H.
    destruct (subprocess_run E (spawned w) _ (fs w)) as [[rc|e] fs'];
      cbn [fst snd] in *.
    + destruct (fs' !! next_segment_path s) as [content|] eqn:Hp.
      * destruct (Nat.eqb_spec (String.length content) 0) as [Hz|Hnz].
        -- do 3 eexists. split; [exact H|]. right.
           repeat split. intros (c' & Hc' & Hlen). rewrite Hp in Hc'.
           inversion Hc'; subst. lia.
        -- do 3 eexists. split; [exact H|]. left.
           repeat split. exists content. split; [exact Hp | lia].
      * do 3 eexists. split; [exact H|]. right.
        repeat split. intros (c' & Hc' & _). rewrite Hp in Hc'. discriminate.
    + destruct e;
        (exists None, s; eexists; split; [exact H | repeat split]).
  - intros fuel c date w s' w' Hrun. unfold run in Hrun.
    unfold bind at 1 in Hrun.
    destruct (run_loop E fuel (new_session c date) w) as [[s1|e|] w1] eqn:Hloop;
      try discriminate.
    inversion Hrun; subst s' w'.
    apply run_loop_segments in Hloop.
    destruct Hloop as (Hc & Hd & _ & Hdense).
    specialize (Hdense eq_refl). unfold dense in Hdense.
    rewrite Hdense at 1. apply map_ext. intros n.
    unfold segment_path_of, output_dir, session_id. now rewrite Hc, Hd.
  - intros c date w0 w1 w2 w3 s1 s2 s3 p H1 H2 H3.
    assert (Hnone : forall s w s' w',
               record_segment E s w = (Val (None, s'), w') -> s' = s).
    { intros s w s' w' Hr.
      destruct (record_segment_effect E s w)
        as (ret & s'' & w'' & d & Hrec & _ & _ & _ & _ & _ & _ & _ & _ & Hseg).
      rewrite Hrec in Hr. inversion Hr; subst.
      destruct Hseg as [[_ ->]|[? _]]; [reflexivity | discriminate]. }
    apply Hnone in H1. subst s1. apply Hnone in H2. subst s2.
    destruct (record_segment_effect E (new_session c date) w2)
      as (ret & s'' & w'' & d & Hrec & _ & _ & _ & _ & _ & _ & _ & _ & Hseg).
    rewrite Hrec in H3. inversion H3; subst.
    destruct Hseg as [[? _]|[Hp ->]]; [discriminate|].
    inversion Hp; subst. split; reflexivity.
Qed.

(** The tool writes nothing twice, then data: three attempts, one segment,
    numbered part01. *)
Lemma accepted_segments_dense_witness :
  exists s' w',
    run (env_always_live tool_third_time) 5 (sample_session 2) empty_world
    = (Val s', w')
    /\ segments s' = ["/out/chan_2024-01-01_part01.ts"]
    /\ length (commands (trace w')) = 3%nat
    /\ segments s'
       = map (segment_path_of (sample_session 2)) (seq 1 (length (segments s'))).
Proof.
  do 2 eexists. split; [vm_compute; reflexivity|].
  split; [reflexivity|]. split; [reflexivity|].
  eapply (proj1 (proj2 (accepted_segments_dense (env_always_live tool_third_time)))
            5%nat (sample_config 2) "2024-01-01" empty_world).
  vm_compute. reflexivity.
Defined.


Lemma quiet_app d1 d2 : quiet d1 -> quiet d2 -> quiet (d1 ++ d2).
Proof.
  unfold quiet, commands, wait_starts, reconnect_attempts, endings, unlinked,
    steps.
  intros (H1 & H2 & H3 & H4 & H5 & H6) (K1 & K2 & K3 & K4 & K5 & K6).
  rewrite !omap_app, H1, H2, H3, H4, H5, H6, K1, K2, K3, K4, K5, K6.
  repeat split.
Qed.

Lemma slept_and_probed_trace E channel seconds w :
  exists d,
    trace (slept_and_probed E channel seconds w) = trace w ++ d
    /\ quiet d /\ stream_backs d = [].
Proof.
  unfold slept_and_probed, probed.
  cbn [lookups set_clock record clock trace].
  destruct (session_streams E (lookups w) (TWITCH_URL channel)) as [dict|[]];
    cbn [trace record set_lookups set_clock clock];
    rewrite <- ?app_assoc; eexists; (split; [reflexivity|]);
    split; try reflexivity; repeat split.
Qed.

(** Whatever the channel does, a reconnect wait runs no command, logs no
    ending, and logs the stream's return exactly when it answers true. *)
Lemma wait_for_reconnect_loop_effect E channel quality grace_period check_interval
    fuel : forall waited w,
  exists r w' d,
    wait_for_reconnect_loop E channel quality grace_period check_interval
      fuel waited w = (r, w')
    /\ trace w' = trace w ++ d
    /\ quiet d
    /\ stream_backs d = match r with Val true => [tt] | _ => [] end.
Proof.
  induction fuel as [|fuel IH]; intros waited w.
  - cbn [wait_for_reconnect_loop].
    destruct (waited <? grace_period).
    + exists OutOfFuel, w, []. rewrite app_nil_r. repeat split.
    + do 3 eexists. split; [reflexivity|]. cbn [trace record].
      split; [reflexivity|]. repeat split.
  - destruct (Z.ltb_spec waited grace_period) as [Hlt|Hge].
    2:{ rewrite wait_for_reconnect_loop_expired by exact Hge.
        do 3 eexists. split; [reflexivity|]. cbn [trace record].
        split; [reflexivity|]. repeat split. }
    destruct (Z.ltb_spec check_interval 0) as [Hneg|Hpos].
    { exists (Exn ValueError), w, []. rewrite app_nil_r.
      split; [|repeat split].
      cbn [wait_for_reconnect_loop].
      destruct (Z.ltb_spec waited grace_period); [|lia].
      unfold bind, sleep.
      destruct (Z.ltb_spec check_interval 0); [reflexivity|lia]. }
    rewrite wait_for_reconnect_loop_step by assumption.
    destruct (slept_and_probed_trace E channel check_interval w)
      as (d1 & Hd1 & Hq1 & Hb1).
    destruct (live_at E channel quality (lookups w)).
    + do 3 eexists. split; [reflexivity|]. cbn [trace record].
      rewrite Hd1, <- app_assoc. split; [reflexivity|]. split.
      * apply quiet_app; [exact Hq1 | repeat split].
      * unfold stream_backs in *. rewrite omap_app, Hb1. reflexivity.
    + destruct (IH (waited + check_interval)
                  (slept_and_probed E channel check_interval w))
        as (r & w' & d2 & Heq & Hd2 & Hq2 & Hb2).
      exists r, w', (d1 ++ d2). split; [exact Heq|].
      rewrite Hd2, Hd1, <- app_assoc. split; [reflexivity|]. split.
      * apply quiet_app; assumption.
      * unfold stream_backs in *. rewrite omap_app, Hb1, Hb2. reflexivity.
Qed.

Lemma wait_for_reconnect_effect E channel quality grace_period check_interval
    fuel w :
  exists r w' d,
    wait_for_reconnect E channel quality grace_period check_interval fuel w
    = (r, w')
    /\ trace w' = trace w ++ d
    /\ wait_only grace_period d
    /\ stream_backs d = match r with Val true => [tt] | _ => [] end.
Proof.
  unfold wait_for_reconnect.
  destruct (wait_for_reconnect_loop_effect E channel quality grace_period
              check_interval fuel 0
              (record (EvLog (LogStreamDropped grace_period)) w))
    as (r & w' & d & Heq & Hd & (H1 & H2 & H3 & H4 & H5 & H6) & Hb).
  exists r, w', ([(clock w, EvLog (LogStreamDropped grace_period))] ++ d).
  split.
  { erewrite bind_val by reflexivity. exact Heq. }
  split.
  { rewrite Hd. cbn [trace record]. now rewrite <- app_assoc. }
  unfold wait_only, commands, wait_starts, reconnect_attempts, endings,
    unlinked, stream_backs, steps in *.
  rewrite !omap_app, H1, H2, H3, H4, H5, H6, Hb. repeat split.
Qed.

Lemma wait_for_reconnect_live_first E channel quality grace_period check_interval
    fuel w :
  0 < grace_period -> 0 <= check_interval ->
  live_at E channel quality (lookups w) = true ->
  wait_for_reconnect E channel quality grace_period check_interval (S fuel) w
  = (Val true,
     record (EvLog LogStreamBack)
       (slept_and_probed E channel check_interval
          (record (EvLog (LogStreamDropped grace_period)) w))).
Proof.
  intros Hg Hi Hl. unfold wait_for_reconnect.
  erewrite bind_val by reflexivity.
  rewrite wait_for_reconnect_loop_step by lia.
  cbn [lookups record]. now rewrite Hl.
Qed.

Ltac unfold_observers :=
  unfold capture_only, wait_only, quiet, commands, probe_times, sleeps,
    wait_starts, reconnect_attempts, stream_backs, endings, unlinked, steps in *.

(** The shape of every run of the loop that comes to an end: with [k] the
    number of waits that found the stream back, the counter went up by [k]
    one step at a time, [k + 1] captures were run, and the loop was left
    once, either on the budget check right after a capture or on a wait
    that found nothing. *)
Lemma run_loop_shape E fuel : forall s w s' w',
  run_loop E fuel s w = (Val s', w') ->
  exists d (k : nat),
    trace w' = trace w ++ d
    /\ stream_backs d = replicate k tt
    /\ reconnect_count s' = reconnect_count s + Z.of_nat k
    /\ reconnect_attempts d
       = map (fun i => reconnect_count s + Z.of_nat i + 1) (seq 0 k)
    /\ length (commands d) = S k
    /\ (endings d = [BudgetExhausted] /\ length (wait_starts d) = k
        /\ Config.max_reconnects (config s) <= reconnect_count s'
        /\ steps d = rounds (reconnect_count s) k
                     ++ [StepCapture; StepEnd BudgetExhausted]
        \/ endings d = [StreamEnded] /\ length (wait_starts d) = S k
           /\ reconnect_count s' < Config.max_reconnects (config s)
           /\ steps d = rounds (reconnect_count s) k
                        ++ [StepCapture; StepWait; StepEnd StreamEnded]).
Proof.
  induction fuel as [|fuel IH]; intros s w s' w' Hrun; [discriminate|].
  rewrite run_loop_S in Hrun.
  destruct (record_segment_effect E s w)
    as (ret & s1 & w1 & d1 & Hrec & Hd1 & Hcap & _ & _ & _ & Hc & _ & Hn & _).
  rewrite Hrec in Hrun. cbv zeta in Hrun.
  unfold_observers.
  destruct Hcap as (C1 & C2 & C3 & C4 & C5 & C6 & C7 & C8).
  destruct (Z.leb_spec (Config.max_reconnects (config s1)) (reconnect_count s1))
    as [Hle|Hgt].
  { inversion Hrun; subst s' w'. clear Hrun.
    exists (d1 ++ [(clock w1, EvLog (LogMaxReconnects
                                       (Config.max_reconnects (config s1))))]), 0%nat.
    cbn [trace record]. rewrite Hd1, <- app_assoc.
    rewrite !omap_app, C1, C4, C5, C6, C7, C8. cbn.
    repeat split; try lia. left. repeat split. congruence. }
  destruct (wait_for_reconnect_effect E (Config.channel (config s1))
              (Config.quality (config s1))
              (Config.reconnect_grace_period (config s1))
              (Config.reconnect_check_interval (config s1)) (S fuel) w1)
    as (r & w2 & d2 & Hwait & Hd2 & Hw & Hb).
  rewrite Hwait in Hrun. unfold_observers.
  destruct Hw as (W1 & W2 & W3 & W4 & W5 & W6).
  destruct r as [[|]|e|]; try discriminate.
  - apply IH in Hrun.
    destruct Hrun as (d3 & k & Hd3 & B3 & N3 & R3 & L3 & End3).
    unfold_observers.
    cbn [trace record reconnect_count incr_reconnect_count config] in *.
    exists (d1 ++ d2 ++ [(clock w2,
                          EvLog (LogReconnecting (reconnect_count s1 + 1)
                                   (Config.max_reconnects (config s1))))] ++ d3),
      (S k).
    split. { rewrite Hd3, Hd2, Hd1, <- !app_assoc. reflexivity. }
    rewrite !omap_app, C1, C4, C5, C6, C7, C8, W1, W2, W3, W4, W6, Hb, B3, R3.
    cbn [omap app]. cbn.
    repeat split.
    + rewrite N3, Hn. lia.
    + f_equal; [lia|]. rewrite <- seq_shift, map_map.
      apply map_ext. intros i. lia.
    + rewrite L3. reflexivity.
    + rewrite Hc, Hn in *.
      destruct End3 as [(E1 & E2 & E3 & E4)|(E1 & E2 & E3 & E4)]; [left|right];
        rewrite ?E1, ?E2, E4; repeat split; lia.
  - inversion Hrun; subst s' w'. clear Hrun.
    exists (d1 ++ d2 ++ [(clock w2, EvLog LogStreamEnded)]), 0%nat.
    cbn [trace record]. rewrite Hd2, Hd1, <- !app_assoc.
    rewrite !omap_app, C1, C4, C5, C6, C7, C8, W1, W2, W3, W4, W6, Hb. cbn.
    repeat split; try lia. right. repeat split. congruence.
Qed.

(** When every reconnect wait given [f0] iterations or more finds the
    stream back, the loop comes to an end, with the counter at
    [max_reconnects]. *)
Lemma run_loop_waits_return E c (f0 n : nat) : forall fuel s w,
  (forall w1 f, (f0 <= f)%nat ->
     exists w2,
       wait_for_reconnect E (Config.channel c) (Config.quality c)
         (Config.reconnect_grace_period c) (Config.reconnect_check_interval c)
         f w1 = (Val true, w2)) ->
  config s = c ->
  Config.max_reconnects c - reconnect_count s = Z.of_nat n ->
  (f0 + n < fuel)%nat ->
  exists s' w',
    run_loop E fuel s w = (Val s', w')
    /\ reconnect_count s' = Config.max_reconnects c
    /\ config s' = c.
Proof.
  induction n as [|n IH]; intros fuel s w Hwait Hc Hn Hfuel;
    (destruct fuel as [|fuel]; [lia|]);
    rewrite run_loop_S;
    destruct (record_segment_effect E s w)
      as (ret & s1 & w1 & d1 & Hrec & _ & _ & _ & _ & _ & Hc1 & _ & Hn1 & _);
    rewrite Hrec; cbv zeta; rewrite Hc1, Hc, Hn1.
  - destruct (Z.leb_spec (Config.max_reconnects c) (reconnect_count s)); [|lia].
    do 2 eexists. split; [reflexivity|]. split; [lia | congruence].
  - destruct (Z.leb_spec (Config.max_reconnects c) (reconnect_count s)); [lia|].
    destruct (Hwait w1 (S fuel)) as [w2 Hw2]; [lia|].
    rewrite Hw2.
    apply IH; try assumption.
    + cbn [config incr_reconnect_count]. congruence.
    + cbn [reconnect_count incr_reconnect_count]. lia.
    + lia.
Qed.

(** A channel live at every probe is found back by every wait. *)
Lemma wait_for_reconnect_always_live E channel quality grace_period
    check_interval :
  (forall k, live_at E channel quality k = true) ->
  0 < grace_period -> 0 <= check_interval ->
  forall w1 f, (1 <= f)%nat ->
    exists w2,
      wait_for_reconnect E channel quality grace_period check_interval f w1
      = (Val true, w2).
Proof.
  intros Hlive Hg Hi w1 f Hf. destruct f as [|f]; [lia|].
  eexists. apply wait_for_reconnect_live_first; try assumption. apply Hlive.
Qed.

Lemma run_eq E fuel s w :
  run E fuel s w =
  match run_loop E fuel s w with
  | (Val s', w') =>
      (Val s',
       record (EvLog (LogSessionComplete (length (segments s'))
                        (reconnect_count s'))) w')
  | (Exn e, w') => (Exn e, w')
  | (OutOfFuel, w') => (OutOfFuel, w')
  end.
Proof.
  unfold run, bind.
  destruct (run_loop E fuel s w) as [[s'|e|] w']; reflexivity.
Qed.

Lemma run_shape E fuel s w s' w' :
  run E fuel s w = (Val s', w') ->
  exists d (k : nat),
    trace w' = trace w ++ d
    /\ stream_backs d = replicate k tt
    /\ reconnect_count s' = reconnect_count s + Z.of_nat k
    /\ reconnect_attempts d
       = map (fun i => reconnect_count s + Z.of_nat i + 1) (seq 0 k)
    /\ length (commands d) = S k
    /\ (endings d = [BudgetExhausted] /\ length (wait_starts d) = k
        /\ Config.max_reconnects (config s) <= reconnect_count s'
        /\ steps d = rounds (reconnect_count s) k
                     ++ [StepCapture; StepEnd BudgetExhausted]
        \/ endings d = [StreamEnded] /\ length (wait_starts d) = S k
           /\ reconnect_count s' < Config.max_reconnects (config s)
           /\ steps d = rounds (reconnect_count s) k
                        ++ [StepCapture; StepWait; StepEnd StreamEnded]).
Proof.
  rewrite run_eq.
  destruct (run_loop E fuel s w) as [[s1|e|] w1] eqn:Hloop; try discriminate.
  intros Hrun. inversion Hrun; subst s1 w'. clear Hrun.
  apply run_loop_shape in Hloop.
  destruct Hloop as (d & k & Hd & B & N & R & L & End).
  exists (d ++ [(clock w1, EvLog (LogSessionComplete (length (segments s'))
                                   (reconnect_count s')))]), k.
  cbn [trace record]. rewrite Hd, <- app_assoc.
  unfold_observers. rewrite !omap_app, B, R. cbn [omap]. cbn.
  rewrite !app_nil_r.
  repeat split; try assumption.
Qed.

(** With the budget used up, an iteration is one capture and the end. *)
Lemma run_budget_first E fuel s w :
  Config.max_reconnects (config s) <= reconnect_count s ->
  exists s' w' d,
    run E (S fuel) s w = (Val s', w')
    /\ trace w' = trace w ++ d
    /\ steps d = [StepCapture; StepEnd BudgetExhausted]
    /\ commands d = [streamlink_cmd s (next_segment_path s)]
    /\ wait_starts d = [] /\ probe_times d = [] /\ sleeps d = []
    /\ reconnect_count s' = reconnect_count s
    /\ clock w' = clock w /\ lookups w' = lookups w.
Proof.
  intros Hle. rewrite run_eq, run_loop_S.
  destruct (record_segment_effect E s w)
    as (ret & s1 & w1 & d1 & Hrec & Hd1 & Hcap & Hclock & Hlook & _ & Hc & _ & Hn & _).
  rewrite Hrec. cbv zeta. rewrite Hc, Hn.
  destruct (Z.leb_spec (Config.max_reconnects (config s)) (reconnect_count s));
    [|lia].
  do 3 eexists. split; [reflexivity|].
  cbn [trace record clock lookups]. rewrite Hd1, <- !app_assoc.
  split; [reflexivity|].
  unfold_observers.
  destruct Hcap as (C1 & C2 & C3 & C4 & C5 & C6 & C7 & C8).
  rewrite !omap_app, C1, C2, C3, C4, C8. cbn.
  repeat split; assumption.
Qed.

(** C4: with [max_reconnects] at least 0 and every reconnect wait finding
    the stream back, the loop makes [max_reconnects + 1] capture attempts
    and [max_reconnects] waits, each round being a capture, a wait and the
    counter going up by 1, and after the last capture it ends on the budget
    with the counter at [max_reconnects].  The counter starts at 0, and in
    every run that ends it goes up by exactly 1 at each wait that found the
    stream back and never down.  The budget check comes after the capture
    and before the wait: a session whose counter has reached the budget
    makes one capture and ends without a wait, a probe or a sleep. *)
Theorem run_reconnect_budget E :
  (forall c date w (f0 fuel : nat),
      0 <= Config.max_reconnects c ->
      (forall w1 f, (f0 <= f)%nat ->
         exists w2,
           wait_for_reconnect E (Config.channel c) (Config.quality c)
             (Config.reconnect_grace_period c)
             (Config.reconnect_check_interval c) f w1 = (Val true, w2)) ->
      (f0 + Z.to_nat (Config.max_reconnects c) < fuel)%nat ->
      exists s' w' d,
        run E fuel (new_session c date) w = (Val s', w')
        /\ trace w' = trace w ++ d
        /\ length (commands d) = S (Z.to_nat (Config.max_reconnects c))
        /\ length (wait_starts d) = Z.to_nat (Config.max_reconnects c)
        /\ reconnect_count s' = Config.max_reconnects c
        /\ steps d = rounds 0 (Z.to_nat (Config.max_reconnects c))
                     ++ [StepCapture; StepEnd BudgetExhausted])
  /\ (forall c date, reconnect_count (new_session c date) = 0)
  /\ (forall fuel s w s' w',
      run E fuel s w = (Val s', w') ->
      exists d (k : nat),
        trace w' = trace w ++ d
        /\ stream_backs d = replicate k tt
        /\ reconnect_count s' = reconnect_count s + Z.of_nat k
        /\ reconnect_attempts d
           = map (fun i => reconnect_count s + Z.of_nat i + 1) (seq 0 k)
        /\ (steps d = rounds (reconnect_count s) k
                      ++ [StepCapture; StepEnd BudgetExhausted]
            \/ steps d = rounds (reconnect_count s) k
                         ++ [StepCapture; StepWait; StepEnd StreamEnded]))
  /\ (forall fuel s w,
      Config.max_reconnects (config s) <= reconnect_count s ->
      exists s' w' d,
        run E (S fuel) s w = (Val s', w')
        /\ trace w' = trace w ++ d
        /\ steps d = [StepCapture; StepEnd BudgetExhausted]
        /\ wait_starts d = [] /\ probe_times d = [] /\ sleeps d = []
        /\ reconnect_count s' = reconnect_count s).
Proof.
  split; [|split; [reflexivity|split]].
  - intros c date w f0 fuel HM Hwait Hfuel.
    destruct (run_loop_waits_return E c f0 (Z.to_nat (Config.max_reconnects c))
                fuel (new_session c date) w)
      as (s' & w1 & Hloop & Hcount & _); try assumption; try reflexivity.
    { cbn [reconnect_count new_session]. lia. }
    assert (Hrun : run E fuel (new_session c date) w
                   = (Val s', record (EvLog (LogSessionComplete
                                               (length (segments s'))
                                               (reconnect_count s'))) w1)).
    { rewrite run_eq, Hloop. reflexivity. }
    destruct (run_shape _ _ _ _ _ _ Hrun) as (d & k & Hd & _ & N & R & L & End).
    cbn [reconnect_count new_session config] in N, R, End.
    assert (Hk : k = Z.to_nat (Config.max_reconnects c)) by lia.
    subst k.
    do 3 eexists. split; [exact Hrun|]. split; [exact Hd|].
    split; [exact L|].
    destruct End as [(E1 & E2 & _ & E4)|(_ & _ & E3 & _)]; [|lia].
    repeat split; assumption.
  - intros fuel s w s' w' Hrun.
    destruct (run_shape _ _ _ _ _ _ Hrun) as (d & k & Hd & B & N & R & _ & End).
    exists d, k. repeat split; try assumption.
    destruct End as [(_ & _ & _ & E4)|(_ & _ & _ & E4)]; [left|right]; exact E4.
  - intros fuel s w Hle.
    destruct (run_budget_first E fuel s w Hle)
      as (s' & w' & d & Hrun & Hd & St & C & W & P & S & N & _).
    exists s', w', d. repeat split; assumption.
Qed.

(** A budget of 2 and a channel that always comes back
    give 3 captures, 2 waits and a counter of 2. *)
Lemma run_reconnect_budget_witness :
  exists s' w' d,
    run (env_always_live tool_third_time) 5 (sample_session 2) empty_world
    = (Val s', w')
    /\ trace w' = trace empty_world ++ d
    /\ length (commands d) = 3%nat
    /\ length (wait_starts d) = 2%nat
    /\ reconnect_count s' = 2
    /\ steps d = [StepCapture; StepWait; StepReconnect 1;
                  StepCapture; StepWait; StepReconnect 2;
                  StepCapture; StepEnd BudgetExhausted].
Proof.
  apply (proj1 (run_reconnect_budget (env_always_live tool_third_time))
           (sample_config 2) "2024-01-01" empty_world 1%nat 5%nat).
  - vm_compute. discriminate.
  - apply wait_for_reconnect_always_live.
    + intros k. reflexivity.
    + reflexivity.
    + vm_compute. discriminate.
  - vm_compute. lia.
Defined.

(** ** recorder.py: a capture tool that is not installed *)

(** C2 as the claim puts it fails: with the tool missing on every attempt,
    a budget of one reconnection and a live channel, the loop still waits
    for the stream after the first attempt, probes it, and runs a second
    capture; the only ending logged is the used-up budget.  The last
    conjunct is the log as it is shown, the segment path by its name. *)
Lemma run_goes_on_when_tool_missing :
  let out := run (env_always_live tool_missing) 5 (sample_session 1) empty_world in
  out.1 = Val (mkSession (sample_config 1) "2024-01-01" [] 1)
  /\ length (commands (trace out.2)) = 2%nat
  /\ wait_starts (trace out.2) = [60]
  /\ probe_times (trace out.2) = [20]
  /\ steps (trace out.2)
     = [StepCapture; StepWait; StepReconnect 1;
        StepCapture; StepEnd BudgetExhausted]
  /\ map printed (logged (trace out.2))
     = [LogRecordingSegment 1 "chan_2024-01-01_part01.ts";
        LogStreamlinkNotFound;
        LogStreamDropped 60;
        LogStreamBack;
        LogReconnecting 1 1;
        LogRecordingSegment 1 "chan_2024-01-01_part01.ts";
        LogStreamlinkNotFound;
        LogMaxReconnects 1;
        LogSessionComplete 0 1].
Proof. cbv zeta. repeat split; vm_compute; reflexivity. Qed.

Lemma record_segment_not_found E s w :
  (subprocess_run E (spawned w)
     (streamlink_cmd s (next_segment_path s)) (fs w)).1
  = ProcRaises FileNotFoundError ->
  exists w',
    record_segment E s w = (Val (None, s), w')
    /\ fs w' = (subprocess_run E (spawned w)
                  (streamlink_cmd s (next_segment_path s)) (fs w)).2
    /\ exists d, trace w' = trace w ++ d
                 /\ logged d = [LogRecordingSegment (length (segments s) + 1)
                                  (next_segment_path s);
                                LogStreamlinkNotFound]
                 /\ unlinked d = [].
Proof.
  intros Hnf. pose proof (record_segment_cases E s w) as H. cbv zeta in H.
  rewrite Hnf in H. eexists. split; [exact H|].
  cbn [fs trace record set_fs set_spawned]. split; [reflexivity|].
  rewrite <- !app_assoc. eexists. split; [reflexivity|].
  split; reflexivity.
Qed.

(** With the tool missing on every run, the loop never gains a segment. *)
Lemma run_loop_tool_missing E fuel :
  (forall k cmd f, (subprocess_run E k cmd f).1 = ProcRaises FileNotFoundError) ->
  forall s w s' w',
    run_loop E fuel s w = (Val s', w') -> segments s' = segments s.
Proof.
  intros Hnf. induction fuel as [|fuel IH]; intros s w s' w' Hrun;
    [discriminate|].
  rewrite run_loop_S in Hrun.
  destruct (record_segment_not_found E s w (Hnf _ _ _)) as (w1 & Hrec & _).
  rewrite Hrec in Hrun. cbv zeta in Hrun.
  destruct (Config.max_reconnects (config s) <=? reconnect_count s).
  { now inversion Hrun. }
  destruct (wait_for_reconnect _ _ _ _ _ _ w1) as [[[|]|e|] w2];
    try discriminate.
  - apply IH in Hrun. exact Hrun.
  - now inversion Hrun.
Qed.

(** C2 (amended): when the capture tool is not found, [record_segment]
    logs two lines, the attempt and then the error "streamlink not found",
    and returns None with the session unchanged, nothing unlinked and the
    file system as the failed call left it.  The loop goes on as after any
    failed attempt: the budget check and, while the budget lasts, the
    reconnect wait and, if the stream is back, the next capture.  A run
    ends on the used-up budget or on a stream that did not return, never
    on the missing tool: with the tool missing throughout and the channel
    always back, it makes [max_reconnects + 1] attempts and ends on the
    budget with no segment; and whenever a run with the tool missing
    throughout returns, the session has the segments it began with. *)
Theorem tool_missing_does_not_end_session E :
  (forall s w,
      (subprocess_run E (spawned w)
         (streamlink_cmd s (next_segment_path s)) (fs w)).1
      = ProcRaises FileNotFoundError ->
      exists w1 d1,
        record_segment E s w = (Val (None, s), w1)
        /\ trace w1 = trace w ++ d1
        /\ map printed (logged d1)
           = [LogRecordingSegment (length (segments s) + 1)
                (path_name (next_segment_path s));
              LogStreamlinkNotFound]
        /\ unlinked d1 = []
        /\ fs w1 = (subprocess_run E (spawned w)
                      (streamlink_cmd s (next_segment_path s)) (fs w)).2
        /\ forall fuel,
            reconnect_count s < Config.max_reconnects (config s) ->
            run_loop E (S fuel) s w =
            match wait_for_reconnect E (Config.channel (config s))
                    (Config.quality (config s))
                    (Config.reconnect_grace_period (config s))
                    (Config.reconnect_check_interval (config s)) (S fuel) w1 with
            | (Val true, w2) =>
                run_loop E fuel (incr_reconnect_count s)
                  (record (EvLog (LogReconnecting (reconnect_count s + 1)
                                    (Config.max_reconnects (config s)))) w2)
            | (Val false, w2) => (Val s, record (EvLog LogStreamEnded) w2)
            | (Exn e, w2) => (Exn e, w2)
            | (OutOfFuel, w2) => (OutOfFuel, w2)
            end)
  /\ (forall fuel s w s' w',
      run E fuel s w = (Val s', w') ->
      exists d, trace w' = trace w ++ d
                /\ (endings d = [BudgetExhausted] \/ endings d = [StreamEnded]))
  /\ (forall c date w fuel,
      (forall k cmd f, (subprocess_run E k cmd f).1 = ProcRaises FileNotFoundError) ->
      0 <= Config.max_reconnects c ->
      (forall k, live_at E (Config.channel c) (Config.quality c) k = true) ->
      0 < Config.reconnect_grace_period c ->
      0 <= Config.reconnect_check_interval c ->
      (1 + Z.to_nat (Config.max_reconnects c) < fuel)%nat ->
      exists s' w' d,
        run E fuel (new_session c date) w = (Val s', w')
        /\ trace w' = trace w ++ d
        /\ segments s' = []
        /\ length (commands d) = S (Z.to_nat (Config.max_reconnects c))
        /\ length (wait_starts d) = Z.to_nat (Config.max_reconnects c)
        /\ endings d = [BudgetExhausted])
  /\ (forall fuel s w s' w',
      (forall k cmd f, (subprocess_run E k cmd f).1 = ProcRaises FileNotFoundError) ->
      run E fuel s w = (Val s', w') ->
      segments s' = segments s).
Proof.
  split; [|split; [|split]].
  4:{ intros fuel s w s' w' Hnf Hrun. rewrite run_eq in Hrun.
      destruct (run_loop E fuel s w) as [[s1|e|] w1] eqn:Hloop;
        try discriminate.
      inversion Hrun; subst s1.
      exact (run_loop_tool_missing E fuel Hnf _ _ _ _ Hloop). }
  - intros s w Hnf.
    destruct (record_segment_not_found E s w Hnf)
      as (w1 & Hrec & Hfs & d1 & Hd1 & Hlog & Hunl).
    exists w1, d1. split; [exact Hrec|]. split; [exact Hd1|].
    split; [rewrite Hlog; reflexivity|]. split; [exact Hunl|].
    split; [exact Hfs|]. intros fuel Hlt.
    rewrite run_loop_S, Hrec. cbv zeta.
    destruct (Z.leb_spec (Config.max_reconnects (config s)) (reconnect_count s));
      [lia|].
    reflexivity.
  - intros fuel s w s' w' Hrun.
    destruct (run_shape _ _ _ _ _ _ Hrun) as (d & k & Hd & _ & _ & _ & _ & End).
    exists d. split; [exact Hd|]. tauto.
  - intros c date w fuel Hnf HM Hlive Hg Hi Hfuel.
    destruct (run_loop_waits_return E c 1 (Z.to_nat (Config.max_reconnects c))
                fuel (new_session c date) w)
      as (s' & w1 & Hloop & Hcount & _); try assumption; try reflexivity.
    { now apply wait_for_reconnect_always_live. }
    { cbn [reconnect_count new_session]. lia. }
    assert (Hrun : run E fuel (new_session c date) w
                   = (Val s', record (EvLog (LogSessionComplete
                                               (length (segments s'))
                                               (reconnect_count s'))) w1)).
    { rewrite run_eq, Hloop. reflexivity. }
    destruct (run_shape _ _ _ _ _ _ Hrun) as (d & k & Hd & _ & N & _ & L & End).
    cbn [reconnect_count new_session config] in N, End.
    assert (Hk : k = Z.to_nat (Config.max_reconnects c)) by lia.
    subst k.
    apply (run_loop_tool_missing E fuel Hnf) in Hloop.
    do 3 eexists. split; [exact Hrun|]. split; [exact Hd|].
    split; [exact Hloop|]. split; [exact L|].
    destruct End as [(E1 & E2 & _)|(_ & _ & E3 & _)]; [|lia].
    split; assumption.
Qed.

(** A missing tool, a budget of 3 and a channel that always comes back:
    4 attempts, 3 waits, no segment, and the end on the budget. *)
Lemma tool_missing_does_not_end_session_witness :
  exists s' w' d,
    run (env_always_live tool_missing) 5 (sample_session 3) empty_world
    = (Val s', w')
    /\ trace w' = trace empty_world ++ d
    /\ segments s' = []
    /\ length (commands d) = 4%nat
    /\ length (wait_starts d) = 3%nat
    /\ endings d = [BudgetExhausted].
Proof.
  apply (proj1 (proj2 (proj2 (tool_missing_does_not_end_session
                                (env_always_live tool_missing))))
           (sample_config 3) "2024-01-01" empty_world 5%nat).
  - intros k cmd f. reflexivity.
  - vm_compute. discriminate.
  - intros k. reflexivity.
  - reflexivity.
  - vm_compute. discriminate.
  - vm_compute. lia.
Defined.

(** ** postprocess.py *)

Lemma run_ffmpeg_cases E cmd ffmpeg w :
  let out := subprocess_run E (spawned w) cmd (fs w) in
  let w1 := set_spawned (S (spawned w)) (set_fs out.2 (record (EvRun cmd) w)) in
  _run_ffmpeg E cmd ffmpeg w =
  match out.1 with
  | Completed rc =>
      if rc =? 0 then (Val true, w1)
      else (Val false, record (EvLog (LogFfmpegFailed rc)) w1)
  | ProcRaises FileNotFoundError =>
      (Val false, record (EvLog (LogFfmpegNotFound ffmpeg)) w1)
  | ProcRaises TimeoutExpired =>
      (Val false, record (EvLog LogFfmpegTimedOut) w1)
  | ProcRaises e => (Exn e, w1)
  end.
Proof.
  cbv zeta. unfold _run_ffmpeg, try_except, bind, run_subprocess, log, emit, ret, raise.
  destruct (subprocess_run E (spawned w) cmd (fs w)) as [[rc|e] fs']; cbn [fst snd].
  - destruct (rc =? 0); reflexivity.
  - destruct e; reflexivity.
Qed.

(** [_run_ffmpeg] runs its command once, unlinks and writes nothing, and
    leaves the file system as the process left it. *)
Lemma run_ffmpeg_effect E cmd ffmpeg w :
  exists r w' d,
    _run_ffmpeg E cmd ffmpeg w = (r, w')
    /\ r <> OutOfFuel
    /\ trace w' = trace w ++ (clock w, EvRun cmd) :: d
    /\ commands d = [] /\ unlinked d = [] /\ written d = []
    /\ fs w' = (subprocess_run E (spawned w) cmd (fs w)).2
    /\ clock w' = clock w.
Proof.
  pose proof (run_ffmpeg_cases E cmd ffmpeg w) as H. cbv zeta in H.
  destruct (subprocess_run E (spawned w) cmd (fs w)) as [[rc|e] fs'];
    cbn [fst snd] in *.
  - destruct (rc =? 0).
    + exists (Val true). eexists. exists []. split; [exact H|].
      repeat split; discriminate.
    + exists (Val false). eexists. eexists. split; [exact H|].
      cbn [trace record set_fs set_spawned fs clock]. rewrite <- app_assoc.
      split; [discriminate|]. split; [reflexivity|]. repeat split.
  - destruct e;
      try (eexists; eexists; exists []; split; [exact H|];
           repeat split; discriminate);
      (eexists; eexists; eexists; split; [exact H|];
       cbn [trace record set_fs set_spawned fs clock]; rewrite <- app_assoc;
       split; [discriminate|]; split; [reflexivity|]; repeat split).
Qed.

Lemma remux_single_eq E src dest ffmpeg w :
  remux_single E src dest ffmpeg w
  = _run_ffmpeg E (remux_cmd src dest ffmpeg) ffmpeg
      (record (EvLog (LogRemuxing src dest)) w).
Proof. reflexivity. Qed.

Lemma merge_segments_eq E segments dest ffmpeg w :
  let concat_list := mktemp E (fs w) in
  let content := concat_list_content segments in
  let w1 := set_fs (<[concat_list := content]> (fs w))
              (record (EvWrite concat_list content)
                 (record (EvLog (LogMerging (length segments) dest)) w)) in
  merge_segments E segments dest ffmpeg w =
  let '(r, w2) := _run_ffmpeg E (concat_cmd concat_list dest ffmpeg) ffmpeg w1 in
  (r, set_fs (delete concat_list (fs w2)) (record (EvUnlink concat_list) w2)).
Proof.
  cbv zeta. unfold merge_segments, bind, log, emit, write_temp, try_finally, unlink.
  cbn [fs record].
  destruct (_run_ffmpeg E _ ffmpeg _) as [r w2]. reflexivity.
Qed.

Lemma unlink_each_eq files : forall w,
  unlink_each files w = (Val tt, unlinked_world files w).
Proof.
  induction files as [|f files IH]; intros w; [reflexivity|].
  cbn [unlink_each unlinked_world]. unfold bind at 1. unfold unlink at 1.
  apply IH.
Qed.

Lemma unlinked_world_spec files : forall w,
  trace (unlinked_world files w)
  = trace w ++ map (fun f => (clock w, EvUnlink f)) files
  /\ clock (unlinked_world files w) = clock w
  /\ (forall p, p ∉ files -> fs (unlinked_world files w) !! p = fs w !! p)
  /\ (forall p, p ∈ files -> fs (unlinked_world files w) !! p = None).
Proof.
  induction files as [|f files IH]; intros w.
  - cbn. rewrite app_nil_r. repeat split; try reflexivity.
    intros p Hp. inversion Hp.
  - cbn [unlinked_world map].
    destruct (IH (set_fs (delete f (fs w)) (record (EvUnlink f) w)))
      as (Ht & Hc & Hout & Hin).
    cbn [trace clock fs set_fs record] in *.
    rewrite Ht, Hc, <- app_assoc. repeat split.
    + intros p Hp. rewrite not_elem_of_cons in Hp. destruct Hp as [Hne Hp].
      rewrite (Hout p Hp). now apply lookup_delete_ne.
    + intros p Hp. destruct (decide (p ∈ files)) as [Hin'|Hnin].
      * now apply Hin.
      * rewrite (Hout p Hnin). apply elem_of_cons in Hp.
        destruct Hp as [->|?]; [apply lookup_delete_eq | contradiction].
Qed.

Lemma unlinked_map_unlink (t : Z) files :
  unlinked (map (fun f => (t, EvUnlink f)) files) = files.
Proof.
  unfold unlinked. induction files as [|f files IH]; [reflexivity|].
  cbn [map]. change (omap unlinked_path ((t, EvUnlink f) :: ?l))
    with (f :: omap unlinked_path l). now rewrite IH.
Qed.

Lemma cleanup_eq files w :
  cleanup files w
  = (Val tt, record (EvLog (LogCleanedUp (length files))) (unlinked_world files w)).
Proof.
  unfold cleanup. erewrite bind_val by apply unlink_each_eq. reflexivity.
Qed.

Lemma artifact_okb_spec f p : artifact_okb f p = true <-> artifact_ok f p.
Proof.
  unfold artifact_okb, artifact_ok. destruct (f !! p) as [c|].
  - rewrite Nat.ltb_lt. split.
    + intros H. exists c. split; [reflexivity | exact H].
    + intros (c' & Hc & H). inversion Hc; subst. exact H.
  - split; [discriminate|]. intros (c' & Hc & _). discriminate.
Qed.

(** [postprocess] once the transcode step is over. *)
Lemma postprocess_transcoded E segments final_path merge clean ffmpeg w :
  segments <> [] ->
  length segments = 1%nat \/ merge = true ->
  postprocess E segments final_path merge clean ffmpeg w =
  match transcode E segments final_path ffmpeg w with
  | (Val success, wv) =>
      if success && artifact_okb (fs wv) final_path then
        let w1 := record (EvLog (LogFinalRecording final_path
                                   (from_option String.length 0%nat
                                      (fs wv !! final_path)))) wv in
        (Val (Some final_path),
         if clean then
           record (EvLog (LogCleanedUp (length segments)))
             (unlinked_world segments w1)
         else w1)
      else (Val None, record (EvLog LogPostprocessFailed) wv)
  | (Exn e, wv) => (Exn e, wv)
  | (OutOfFuel, wv) => (OutOfFuel, wv)
  end.
Proof.
  intros Hne Hrun.
  assert (Hstep : forall (step : M bool),
    (x <- (success <- step ;; ret (inl success)) ;;
     match x : bool + string with
     | inr kept => ret (Some kept)
     | inl success =>
         ok <- (if success then
                  present <- path_exists final_path ;;
                  if present then
                    size <- st_size final_path ;; ret (0 <? size)%nat
                  else ret false
                else ret false) ;;
         if ok then
           size <- st_size final_path ;;
           log (LogFinalRecording final_path size) ;;
           (if clean then cleanup segments else ret tt) ;;
           ret (Some final_path)
         else
           log LogPostprocessFailed ;;
           ret None
     end) w
    = match step w with
      | (Val success, wv) =>
          if success && artifact_okb (fs wv) final_path then
            let w1 := record (EvLog (LogFinalRecording final_path
                                       (from_option String.length 0%nat
                                          (fs wv !! final_path)))) wv in
            (Val (Some final_path),
             if clean then
               record (EvLog (LogCleanedUp (length segments)))
                 (unlinked_world segments w1)
             else w1)
          else (Val None, record (EvLog LogPostprocessFailed) wv)
      | (Exn e, wv) => (Exn e, wv)
      | (OutOfFuel, wv) => (OutOfFuel, wv)
      end).
  { intros step. unfold bind at 1. unfold bind at 1.
    destruct (step w) as [[success|e|] wv]; try reflexivity.
    cbn [ret]. unfold artifact_okb.
    destruct success; cbn [andb].
    2:{ reflexivity. }
    unfold bind at 1. unfold bind at 1. unfold path_exists at 1.
    destruct (fs wv !! final_path) as [content|] eqn:Hf.
    - rewrite bool_decide_eq_true_2 by eauto.
      unfold bind at 1. unfold st_size at 1. rewrite Hf. cbn [from_option ret].
      destruct (0 <? String.length content)%nat; [|reflexivity].
      unfold bind at 1. unfold st_size at 1. rewrite Hf. cbn [from_option].
      unfold bind at 1. unfold log, emit.
      destruct clean.
      + unfold bind at 1. rewrite cleanup_eq. reflexivity.
      + reflexivity.
    - rewrite bool_decide_eq_false_2 by (intros [? ?]; discriminate).
      reflexivity. }
  destruct segments as [|first [|second rest]]; [congruence| |].
  - cbn [postprocess transcode length Nat.eqb]. apply Hstep.
  - destruct Hrun as [Hlen | ->]; [discriminate|].
    cbn [postprocess transcode length Nat.eqb]. apply Hstep.
Qed.

(** The transcode step: one ffmpeg command; a merge writes the list file
    before the command runs and unlinks it afterwards, and unlinks nothing
    else. *)
Lemma transcode_effect E segments final_path ffmpeg w :
  segments <> [] ->
  exists rs wv d,
    transcode E segments final_path ffmpeg w = (rs, wv)
    /\ rs <> OutOfFuel
    /\ trace wv = trace w ++ d
    /\ match segments with
       | [src] =>
           commands d = [remux_cmd src final_path ffmpeg]
           /\ written d = [] /\ unlinked d = []
           /\ fs wv = tool_fs E segments final_path ffmpeg w
       | _ =>
           let concat_list := mktemp E (fs w) in
           let content := concat_list_content segments in
           (exists d',
               d = (clock w, EvLog (LogMerging (length segments) final_path))
                     :: (clock w, EvWrite concat_list content)
                     :: (clock w, EvRun (concat_cmd concat_list final_path ffmpeg))
                     :: d')
           /\ commands d = [concat_cmd concat_list final_path ffmpeg]
           /\ written d = [(concat_list, content)]
           /\ unlinked d = [concat_list]
           /\ fs wv = delete concat_list (tool_fs E segments final_path ffmpeg w)
       end.
Proof.
  intros Hne. destruct segments as [|s1 [|s2 rest]]; [congruence| |].
  - cbn [transcode]. rewrite remux_single_eq.
    destruct (run_ffmpeg_effect E (remux_cmd s1 final_path ffmpeg) ffmpeg
                (record (EvLog (LogRemuxing s1 final_path)) w))
      as (r & w' & d & Heq & Hr & Ht & Hc & Hu & Hw & Hf & _).
    exists r, w'. eexists. split; [exact Heq|]. split; [exact Hr|].
    cbn [trace record clock fs spawned] in *. rewrite Ht, <- app_assoc.
    split; [reflexivity|].
    unfold commands, written, unlinked in *.
    rewrite !omap_app. cbn [app].
    change (omap run_cmd ((clock w, EvRun ?c) :: d)) with (c :: omap run_cmd d).
    change (omap written_file ((clock w, EvRun ?c) :: d)) with (omap written_file d).
    change (omap unlinked_path ((clock w, EvRun ?c) :: d)) with (omap unlinked_path d).
    rewrite Hc, Hu, Hw. repeat split. exact Hf.
  - cbn [transcode]. set (segments := s1 :: s2 :: rest).
    pose proof (merge_segments_eq E segments final_path ffmpeg w) as Hm.
    cbv zeta in Hm.
    set (concat_list := mktemp E (fs w)) in *.
    set (content := concat_list_content segments) in *.
    destruct (run_ffmpeg_effect E (concat_cmd concat_list final_path ffmpeg) ffmpeg
                (set_fs (<[concat_list := content]> (fs w))
                   (record (EvWrite concat_list content)
                      (record (EvLog (LogMerging (length segments) final_path)) w))))
      as (r & w' & d & Heq & Hr & Ht & Hc & Hu & Hw & Hf & Hclock).
    rewrite Heq in Hm.
    exists r. eexists. eexists. split; [exact Hm|]. split; [exact Hr|].
    cbn [trace record clock fs spawned set_fs] in *.
    rewrite Ht, <- !app_assoc. split; [reflexivity|].
    split; [eexists; reflexivity|].
    unfold commands, written, unlinked in *.
    rewrite !omap_app.
    change (omap run_cmd ((clock w, EvRun ?c) :: d)) with (c :: omap run_cmd d).
    change (omap written_file ((clock w, EvRun ?c) :: d)) with (omap written_file d).
    change (omap unlinked_path ((clock w, EvRun ?c) :: d)) with (omap unlinked_path d).
    rewrite Hc, Hu, Hw. repeat split.
    unfold tool_fs. subst segments. cbv zeta. fold concat_list.
    now rewrite Hf.
Qed.

Lemma omap_unlink_events {A} (f : Z * Event -> option A) (t : Z) files :
  (forall p, f (t, EvUnlink p) = None) ->
  omap f (map (fun p => (t, EvUnlink p)) files) = [].
Proof.
  intros Hf. induction files as [|p ps IH]; [reflexivity|].
  cbn [map].
  change (omap f ((t, EvUnlink p) :: ?l))
    with (match f (t, EvUnlink p) with
          | Some y => y :: omap f l
          | None => omap f l
          end).
  now rewrite Hf.
Qed.

(** What [postprocess] does after the transcode step, case by case. *)
Lemma postprocess_effect E segments final_path merge clean ffmpeg w :
  segments <> [] ->
  length segments = 1%nat \/ merge = true ->
  exists rs wv r w' dr,
    transcode E segments final_path ffmpeg w = (rs, wv)
    /\ postprocess E segments final_path merge clean ffmpeg w = (r, w')
    /\ trace w' = trace wv ++ dr
    /\ commands dr = [] /\ written dr = []
    /\ (rs = Val true /\ artifact_ok (fs wv) final_path
        /\ r = Val (Some final_path)
        /\ (clean = true /\ unlinked dr = segments
            \/ clean = false /\ unlinked dr = [] /\ fs w' = fs wv)
        \/ (rs = Val false \/ rs = Val true /\ ~ artifact_ok (fs wv) final_path)
           /\ r = Val None /\ unlinked dr = [] /\ fs w' = fs wv
        \/ (exists e, rs = Exn e /\ r = Exn e)
           /\ unlinked dr = [] /\ fs w' = fs wv).
Proof.
  intros Hne Hrun.
  pose proof (postprocess_transcoded E segments final_path merge clean ffmpeg w
                Hne Hrun) as Hpost.
  destruct (transcode_effect E segments final_path ffmpeg w Hne)
    as (rs & wv & d & Htr & Hrs & _).
  rewrite Htr in Hpost. exists rs, wv.
  destruct rs as [success|e|]; [| |congruence].
  2:{ exists (Exn e), wv, []. rewrite app_nil_r.
      repeat split; try assumption. right. right. repeat split. eauto. }
  destruct (success && artifact_okb (fs wv) final_path) eqn:Hok.
  - apply andb_true_iff in Hok. destruct Hok as [-> Hok].
    apply artifact_okb_spec in Hok. cbv zeta in Hpost.
    set (size := from_option String.length 0%nat (fs wv !! final_path)) in *.
    destruct clean.
    + destruct (unlinked_world_spec segments
                  (record (EvLog (LogFinalRecording final_path size)) wv))
        as (Ht & Hck & _).
      exists (Val (Some final_path)). eexists.
      exists ([(clock wv, EvLog (LogFinalRecording final_path size))]
              ++ map (fun f => (clock wv, EvUnlink f)) segments
              ++ [(clock wv, EvLog (LogCleanedUp (length segments)))]).
      split; [exact Htr|]. split; [exact Hpost|].
      cbn [trace record clock] in *. rewrite Ht, Hck, <- !app_assoc.
      split; [reflexivity|].
      unfold commands, written. rewrite !omap_app.
      rewrite !omap_unlink_events by reflexivity.
      split; [reflexivity|]. split; [reflexivity|].
      left. repeat split; try assumption. left. split; [reflexivity|].
      unfold unlinked at 1. rewrite !omap_app.
      fold (unlinked (map (fun f => (clock wv, EvUnlink f)) segments)).
      rewrite unlinked_map_unlink. cbn. now rewrite app_nil_r.
    + exists (Val (Some final_path)). eexists.
      exists [(clock wv, EvLog (LogFinalRecording final_path size))].
      split; [exact Htr|]. split; [exact Hpost|].
      repeat split. left. repeat split; try assumption. right. repeat split.
  - exists (Val None). eexists. exists [(clock wv, EvLog LogPostprocessFailed)].
    split; [exact Htr|]. split; [exact Hpost|].
    repeat split. right. left. repeat split.
    apply andb_false_iff in Hok. destruct Hok as [->|Hok]; [now left|].
    destruct success; [right|now left]. split; [reflexivity|].
    intros Habs. apply artifact_okb_spec in Habs. congruence.
Qed.

Lemma append_empty_r (s : string) : s +:+ "" = s.
Proof.
  induction s as [|a s IH]; [reflexivity|].
  change (String a s +:+ "") with (String a (s +:+ "")). now rewrite IH.
Qed.

Lemma concat_list_content_cons seg rest :
  concat_list_content (seg :: rest)
  = ("file '" +:+ seg +:+ "'" +:+ newline) +:+ concat_list_content rest.
Proof.
  unfold concat_list_content.
  destruct rest as [|seg' rest]; cbn [map String.concat];
    [now rewrite append_empty_r | reflexivity].
Qed.

Lemma postprocess_merge_off E first second rest final_path clean ffmpeg w :
  postprocess E (first :: second :: rest) final_path false clean ffmpeg w
  = (Val (Some first),
     record (EvLog (LogMergeDisabled (length (first :: second :: rest)))) w).
Proof. reflexivity. Qed.

(** C6: with two or more segments and merging disabled, [postprocess]
    returns the first segment's path, runs no command, writes and unlinks
    no file and leaves the file system as it was, whether or not cleaning
    is enabled. *)
Theorem postprocess_merge_disabled E first second rest final_path clean ffmpeg w :
  exists w',
    postprocess E (first :: second :: rest) final_path false clean ffmpeg w
    = (Val (Some first), w')
    /\ fs w' = fs w
    /\ spawned w' = spawned w
    /\ commands (trace w') = commands (trace w)
    /\ unlinked (trace w') = unlinked (trace w)
    /\ written (trace w') = written (trace w).
Proof.
  eexists. split; [apply postprocess_merge_off|].
  cbn [fs spawned trace record].
  unfold commands, unlinked, written. rewrite !omap_app. cbn.
  rewrite !app_nil_r. repeat split.
Qed.

(** C5: [postprocess] on no segment returns None and runs nothing.  On one
    segment it runs one command, the remux [ffmpeg -i src -c copy -movflags
    +faststart final -y], which names no concat format and no list file,
    and writes no list file, whatever the merge flag.  On two or more with
    merging enabled it writes the list file, one line [file '<path>'] per
    segment in list order, and then runs one command, the concatenation
    [ffmpeg -f concat -safe 0 -i <list file> -c copy -movflags +faststart
    final -y], and nothing else. *)
Theorem postprocess_dispatch E final_path merge clean ffmpeg w :
  (exists w',
      postprocess E [] final_path merge clean ffmpeg w = (Val None, w')
      /\ commands (trace w') = commands (trace w)
      /\ written (trace w') = written (trace w)
      /\ spawned w' = spawned w /\ fs w' = fs w)
  /\ (forall src,
      exists r w' d,
        postprocess E [src] final_path merge clean ffmpeg w = (r, w')
        /\ trace w' = trace w ++ d
        /\ commands d
           = [[ffmpeg; "-i"; src; "-c"; "copy"; "-movflags"; "+faststart";
               final_path; "-y"]]
        /\ written d = [])
  /\ (forall first second rest,
      let segments := first :: second :: rest in
      let concat_list := mktemp E (fs w) in
      exists r w' d d',
        postprocess E segments final_path true clean ffmpeg w = (r, w')
        /\ trace w' = trace w ++ d
        /\ d = (clock w, EvLog (LogMerging (length segments) final_path))
                 :: (clock w, EvWrite concat_list (concat_list_content segments))
                 :: (clock w,
                     EvRun [ffmpeg; "-f"; "concat"; "-safe"; "0"; "-i"; concat_list;
                            "-c"; "copy"; "-movflags"; "+faststart";
                            final_path; "-y"])
                 :: d'
        /\ commands d
           = [[ffmpeg; "-f"; "concat"; "-safe"; "0"; "-i"; concat_list;
               "-c"; "copy"; "-movflags"; "+faststart"; final_path; "-y"]]
        /\ written d = [(concat_list, concat_list_content segments)])
  /\ (concat_list_content [] = ""
      /\ forall seg rest,
          concat_list_content (seg :: rest)
          = ("file '" +:+ seg +:+ "'" +:+ newline) +:+ concat_list_content rest)
  /\ concat_list_content ["part01.ts"; "part02.ts"; "part03.ts"]
     = "file 'part01.ts'" +:+ newline +:+ "file 'part02.ts'" +:+ newline
       +:+ "file 'part03.ts'" +:+ newline.
Proof.
  split; [|split; [|split; [|split]]].
  - eexists. split; [reflexivity|].
    cbn [fs spawned trace record].
    unfold commands, written. rewrite !omap_app. cbn.
    rewrite !app_nil_r. repeat split.
  - intros src.
    destruct (postprocess_effect E [src] final_path merge clean ffmpeg w)
      as (rs & wv & r & w' & dr & Htr & Hpost & Ht & Hc & Hw & _);
      [discriminate | now left |].
    destruct (transcode_effect E [src] final_path ffmpeg w)
      as (rs' & wv' & d & Htr' & _ & Hd & Hc' & Hw' & _); [discriminate|].
    rewrite Htr in Htr'. inversion Htr'; subst rs' wv'.
    exists r, w', (d ++ dr). split; [exact Hpost|].
    rewrite Ht, Hd, <- app_assoc. split; [reflexivity|].
    unfold commands, written in *. rewrite !omap_app, Hc, Hw, Hc', Hw'.
    split; reflexivity.
  - intros first second rest segments concat_list.
    destruct (postprocess_effect E segments final_path true clean ffmpeg w)
      as (rs & wv & r & w' & dr & Htr & Hpost & Ht & Hc & Hw & _);
      [discriminate | now right |].
    destruct (transcode_effect E segments final_path ffmpeg w)
      as (rs' & wv' & d & Htr' & _ & Hd & [d' Hd'] & Hc' & Hw' & _);
      [discriminate|].
    rewrite Htr in Htr'. inversion Htr'; subst rs' wv'.
    exists r, w', (d ++ dr), (d' ++ dr). split; [exact Hpost|].
    rewrite Ht, Hd, <- app_assoc. split; [reflexivity|].
    split; [rewrite Hd'; reflexivity|].
    unfold commands, written in *. rewrite !omap_app, Hc, Hw, Hc', Hw'.
    split; reflexivity.
  - split; [reflexivity | apply concat_list_content_cons].
  - reflexivity.
Qed.

Lemma fresh_temp_not_segment E segments w s :
  (forall f : FS, f !! mktemp E f = None) ->
  Forall (fun s => is_Some (fs w !! s)) segments ->
  s ∈ segments -> s <> mktemp E (fs w).
Proof.
  intros Hfresh Hdisk Hin ->.
  rewrite Forall_forall in Hdisk. specialize (Hdisk _ Hin).
  rewrite Hfresh in Hdisk. destruct Hdisk as [? ?]. discriminate.
Qed.

(** The transcode step unlinks no segment that is on disk and leaves each
    one as the ffmpeg process left it. *)
Lemma transcode_keeps_segments E segments final_path ffmpeg w :
  segments <> [] ->
  (forall f : FS, f !! mktemp E f = None) ->
  Forall (fun s => is_Some (fs w !! s)) segments ->
  exists rs wv dt,
    transcode E segments final_path ffmpeg w = (rs, wv)
    /\ trace wv = trace w ++ dt
    /\ (forall s, s ∈ segments -> s ∉ unlinked dt)
    /\ (forall s, s ∈ segments ->
        fs wv !! s = tool_fs E segments final_path ffmpeg w !! s).
Proof.
  intros Hne Hfresh Hdisk.
  destruct (transcode_effect E segments final_path ffmpeg w Hne)
    as (rs & wv & dt & Htr & _ & Hdt & Hshape).
  exists rs, wv, dt. split; [exact Htr|]. split; [exact Hdt|].
  destruct segments as [|s1 [|s2 rest]]; [congruence| |].
  - destruct Hshape as (_ & _ & Hu & Hf). rewrite Hu, Hf. split.
    + intros s _ Hin. inversion Hin.
    + reflexivity.
  - cbv zeta in Hshape. destruct Hshape as (_ & _ & _ & Hu & Hf).
    rewrite Hu, Hf. split.
    + intros s Hin Hun. apply list_elem_of_singleton in Hun.
      exact (fresh_temp_not_segment E _ w s Hfresh Hdisk Hin Hun).
    + intros s Hin. apply lookup_delete_ne. intros Heq. symmetry in Heq.
      exact (fresh_temp_not_segment E _ w s Hfresh Hdisk Hin Heq).
Qed.

(** C1: for a non-empty list of segments that are on disk, [postprocess]
    unlinks a segment only after the transcode step reported success and
    the final file was found to exist with a size above 0; when the step
    fails (remux or merge) or the final file is missing or empty after a
    reported success, [postprocess] returns None, unlinks no segment and
    leaves every segment as the ffmpeg process left it. *)
Theorem postprocess_deletes_only_verified E segments final_path merge clean ffmpeg w :
  segments <> [] ->
  (forall f : FS, f !! mktemp E f = None) ->
  Forall (fun s => is_Some (fs w !! s)) segments ->
  exists r w' d,
    postprocess E segments final_path merge clean ffmpeg w = (r, w')
    /\ trace w' = trace w ++ d
    /\ (forall s, s ∈ segments -> s ∈ unlinked d ->
        exists wv,
          transcode E segments final_path ffmpeg w = (Val true, wv)
          /\ artifact_ok (fs wv) final_path
          /\ r = Val (Some final_path))
    /\ (forall rs wv,
        length segments = 1%nat \/ merge = true ->
        transcode E segments final_path ffmpeg w = (rs, wv) ->
        rs <> Val true \/ ~ artifact_ok (fs wv) final_path ->
        r = match rs with Exn e => Exn e | _ => Val None end
        /\ (forall s, s ∈ segments -> s ∉ unlinked d)
        /\ (forall s, s ∈ segments ->
            fs w' !! s = tool_fs E segments final_path ffmpeg w !! s)).
Proof.
  intros Hne Hfresh Hdisk.
  destruct (decide (length segments = 1%nat \/ merge = true)) as [Hrun|Hoff].
  - (* the transcode step runs *)
    destruct (postprocess_effect E segments final_path merge clean ffmpeg w
                Hne Hrun)
      as (rs & wv & r & w' & dr & Htr & Hpost & Ht & _ & _ & Hcases).
    destruct (transcode_keeps_segments E segments final_path ffmpeg w
                Hne Hfresh Hdisk)
      as (rs' & wv' & dt & Htr' & Hdt & Hkept & Hsame).
    rewrite Htr in Htr'. inversion Htr'; subst rs' wv'. clear Htr'.
    exists r, w', (dt ++ dr). split; [exact Hpost|].
    split; [rewrite Ht, Hdt, <- app_assoc; reflexivity|].
    assert (Hun : unlinked (dt ++ dr) = unlinked dt ++ unlinked dr)
      by (unfold unlinked; apply omap_app).
    rewrite Hun. split.
    + intros s Hin Hs. apply elem_of_app in Hs.
      destruct Hs as [Hs|Hs]; [exfalso; exact (Hkept s Hin Hs)|].
      destruct Hcases
        as [(Hrs & Hok & Hr & _)|[(_ & _ & Hu & _)|(_ & Hu & _)]].
      * exists wv. subst rs. tauto.
      * rewrite Hu in Hs. inversion Hs.
      * rewrite Hu in Hs. inversion Hs.
    + intros rs0 wv0 _ Htr0 Hfail.
      rewrite Htr in Htr0. inversion Htr0; subst rs0 wv0. clear Htr0.
      destruct Hcases
        as [(Hrs & Hok & _)|[(Hrs & Hr & Hu & Hf)|([e [Hrs Hr]] & Hu & Hf)]].
      * exfalso. destruct Hfail as [Hfail|Hfail]; auto.
      * split; [destruct Hrs as [->|[-> _]]; exact Hr|].
        rewrite Hu, app_nil_r, Hf. split; [exact Hkept | exact Hsame].
      * split; [subst rs; exact Hr|].
        rewrite Hu, app_nil_r, Hf. split; [exact Hkept | exact Hsame].
  - (* merging is disabled and there are two or more segments *)
    destruct segments as [|s1 [|s2 rest]]; [congruence | tauto |].
    destruct merge; [tauto|].
    eexists. eexists.
    exists [(clock w, EvLog (LogMergeDisabled (length (s1 :: s2 :: rest))))].
    split; [apply postprocess_merge_off|]. split; [reflexivity|]. split.
    + intros s _ Hin. inversion Hin.
    + intros rs wv Hrun. tauto.
Qed.

Lemma fresh_name_fresh (f : FS) : f !! fresh_name f = None.
Proof. unfold fresh_name. apply not_elem_of_dom. apply is_fresh. Qed.

(** ffmpeg fails on three segments that are on disk. *)
Lemma postprocess_deletes_only_verified_witness :
  exists r w' d,
    postprocess (env_ffmpeg ffmpeg_fails) three_segments
      "/out/chan - 2024-01-01.mp4" true true "ffmpeg" world_with_segments
    = (r, w')
    /\ trace w' = trace world_with_segments ++ d
    /\ (forall s, s ∈ three_segments -> s ∈ unlinked d ->
        exists wv,
          transcode (env_ffmpeg ffmpeg_fails) three_segments
            "/out/chan - 2024-01-01.mp4" "ffmpeg" world_with_segments
          = (Val true, wv)
          /\ artifact_ok (fs wv) "/out/chan - 2024-01-01.mp4"
          /\ r = Val (Some "/out/chan - 2024-01-01.mp4"))
    /\ (forall rs wv,
        length three_segments = 1%nat \/ true = true ->
        transcode (env_ffmpeg ffmpeg_fails) three_segments
          "/out/chan - 2024-01-01.mp4" "ffmpeg" world_with_segments
        = (rs, wv) ->
        rs <> Val true \/ ~ artifact_ok (fs wv) "/out/chan - 2024-01-01.mp4" ->
        r = match rs with Exn e => Exn e | _ => Val None end
        /\ (forall s, s ∈ three_segments -> s ∉ unlinked d)
        /\ (forall s, s ∈ three_segments ->
            fs w' !! s
            = tool_fs (env_ffmpeg ffmpeg_fails) three_segments
                "/out/chan - 2024-01-01.mp4" "ffmpeg" world_with_segments !! s)).
Proof.
  apply postprocess_deletes_only_verified.
  - discriminate.
  - exact fresh_name_fresh.
  - repeat constructor; vm_compute; eauto.
Defined.

(** ** Worked cases of the wait loops and the probe *)

(** Only "best" is on offer and 1080p60 is asked for: live.  The lookup
    raises: not live. *)
Lemma is_live_quality_or_best_witness :
  (is_live (env_always_live tool_missing) "chan" "1080p60" empty_world).1 = Val true
  /\ (is_live env_never_live "chan" "1080p60" empty_world).1 = Val false.
Proof.
  split.
  - apply (proj1 (is_live_quality_or_best (env_always_live tool_missing)
                    "chan" "1080p60" empty_world) {[ "best" := "hls" ]}).
    + reflexivity.
    + right. vm_compute. eauto.
  - apply (proj1 (proj2 (is_live_quality_or_best env_never_live
                           "chan" "1080p60" empty_world)) PluginError).
    reflexivity.
Defined.

(** Timeout 90, interval 30, live at the third probe. *)
Lemma wait_until_live_polls_witness :
  exists w',
    wait_until_live (env_live_at 2) "chan" "best" 90 30 5 empty_world
    = (Val true, w')
    /\ clock w' = 60
    /\ probe_times (trace w') = [0; 30; 60].
Proof.
  refine (proj1 (wait_until_live_polls (env_live_at 2) "chan" "best" empty_world)
            90 30 2%nat 5%nat _ _ _ _ _).
  - lia.
  - intros [|[|i]] Hi; [reflexivity | reflexivity | lia].
  - reflexivity.
  - lia.
  - lia.
Defined.

(** Grace period 60, a check every 20 seconds, a channel that never
    returns. *)
Lemma wait_for_reconnect_polls_witness :
  exists w',
    wait_for_reconnect env_never_live "chan" "best" 60 20 5 empty_world
    = (Val false, w')
    /\ clock w' = 60
    /\ probe_times (trace w') = [20; 40; 60].
Proof.
  refine (proj1 (proj2 (wait_for_reconnect_polls env_never_live "chan" "best"
                          empty_world))
            60 20 3%nat 5%nat _ _ _ _ _).
  - lia.
  - intros i Hi. reflexivity.
  - intros _. lia.
  - lia.
  - lia.
Defined.

(** An initial wait of 0 against a channel that is live. *)
Lemma wait_until_live_no_budget_witness :
  exists w',
    wait_until_live (env_always_live tool_missing) "chan" "best" 0 30 5 empty_world
    = (Val false, w')
    /\ lookups w' = lookups empty_world
    /\ probe_times (trace w') = probe_times (trace empty_world)
    /\ sleeps (trace w') = sleeps (trace empty_world)
    /\ clock w' = clock empty_world.
Proof.
  apply (wait_until_live_no_budget (env_always_live tool_missing) "chan" "best"
           0 30 5%nat empty_world).
  lia.
Defined.

(** ** Worked cases of post-processing *)

(** ffmpeg writes the final file: the three segments are merged in order
    and, with cleaning on, unlinked. *)
Example postprocess_merge_success :
  let out := postprocess (env_ffmpeg (ffmpeg_writes "movie")) three_segments
               (final_filename (sample_session 2)) true true "ffmpeg"
               world_with_segments in
  out.1 = Val (Some "/out/chan - 2024-01-01.mp4")
  /\ unlinked (trace out.2) = "0" :: three_segments
  /\ written (trace out.2)
     = [("0", "file '/out/chan_2024-01-01_part01.ts'" +:+ newline
              +:+ "file '/out/chan_2024-01-01_part02.ts'" +:+ newline
              +:+ "file '/out/chan_2024-01-01_part03.ts'" +:+ newline)]
  /\ dom (fs out.2) = {[ "/out/chan - 2024-01-01.mp4" ]}.
Proof. cbv zeta. repeat split; vm_compute; reflexivity. Qed.

(** ffmpeg reports success but leaves an empty final file: nothing is
    returned and the segments stay. *)
Example postprocess_empty_artifact :
  let out := postprocess (env_ffmpeg (ffmpeg_writes "")) three_segments
               (final_filename (sample_session 2)) true true "ffmpeg"
               world_with_segments in
  out.1 = Val None
  /\ unlinked (trace out.2) = ["0"]
  /\ Forall (fun s => fs out.2 !! s = Some "data") three_segments.
Proof.
  cbv zeta. repeat split; try (vm_compute; reflexivity).
  repeat constructor; vm_compute; reflexivity.
Qed.

(** * Further properties *)

(** ** stream.py: the probe and the wait loops, whatever the channel does *)

(** X1: [is_live] answers true exactly when the lookup returns a dict that
    has the requested quality or "best" as a key; a channel that streams
    only other qualities counts as offline.  Whatever the answer, the call
    makes one lookup and leaves files, clock and subprocess count alone. *)
Theorem is_live_exact E channel quality w :
  ((is_live E channel quality w).1 = Val true <->
   exists d, session_streams E (lookups w) (TWITCH_URL channel) = StreamsDict d
             /\ (is_Some (d !! quality) \/ is_Some (d !! "best")))
  /\ ((is_live E channel quality w).1 = Val false <->
      ~ exists d, session_streams E (lookups w) (TWITCH_URL channel) = StreamsDict d
                  /\ (is_Some (d !! quality) \/ is_Some (d !! "best")))
  /\ lookups (is_live E channel quality w).2 = S (lookups w)
  /\ fs (is_live E channel quality w).2 = fs w
  /\ clock (is_live E channel quality w).2 = clock w
  /\ spawned (is_live E channel quality w).2 = spawned w.
Proof.
  rewrite is_live_eq. cbn [fst snd].
  rewrite probed_lookups, probed_fs, probed_clock.
  assert (Hsp : spawned (probed E channel w) = spawned w).
  { unfold probed. destruct (session_streams _ _ _) as [d|[]]; reflexivity. }
  assert (Hiff : live_at E channel quality (lookups w) = true <->
                 exists d, session_streams E (lookups w) (TWITCH_URL channel)
                           = StreamsDict d
                           /\ (is_Some (d !! quality) \/ is_Some (d !! "best"))).
  { unfold live_at, live_answer, dict_in.
    destruct (session_streams E (lookups w) (TWITCH_URL channel)) as [d|e].
    - rewrite orb_true_iff, !bool_decide_eq_true. split.
      + intros H. exists d. split; [reflexivity | exact H].
      + intros (d' & Hd & H). inversion Hd; subst. exact H.
    - split; [discriminate|]. intros (d' & Hd & _). discriminate. }
  repeat split; try assumption.
  - intros H. apply Hiff. congruence.
  - intros H. f_equal. now apply Hiff.
  - intros H Hex. apply Hiff in Hex. congruence.
  - intros H. f_equal. destruct (live_at E channel quality (lookups w)) eqn:Hl;
      [|reflexivity]. exfalso. apply H. now apply Hiff.
Qed.

Lemma only_polled_refl w : only_polled w w.
Proof.
  unfold only_polled. repeat split; try lia.
  exists []. rewrite app_nil_r. repeat split.
Qed.

Lemma only_polled_trans w1 w2 w3 :
  only_polled w1 w2 -> only_polled w2 w3 -> only_polled w1 w3.
Proof.
  intros (F1 & S1 & C1 & L1 & d1 & T1 & A1 & B1 & D1)
         (F2 & S2 & C2 & L2 & d2 & T2 & A2 & B2 & D2).
  unfold only_polled. repeat split; try congruence; try lia.
  exists (d1 ++ d2). rewrite T2, T1, <- app_assoc. split; [reflexivity|].
  unfold commands, unlinked, written in *.
  rewrite !omap_app, A1, A2, B1, B2, D1, D2. repeat split.
Qed.

Lemma only_polled_log m w : only_polled w (record (EvLog m) w).
Proof.
  unfold only_polled. cbn [fs spawned clock lookups trace record].
  repeat split; try lia. eexists. split; [reflexivity|]. repeat split.
Qed.

Lemma only_polled_probed E channel w : only_polled w (probed E channel w).
Proof.
  unfold only_polled, probed.
  destruct (session_streams E (lookups w) (TWITCH_URL channel)) as [d|[]];
    cbn [fs spawned clock lookups trace record set_lookups];
    rewrite <- ?app_assoc;
    (repeat split; try lia; eexists; split; [reflexivity|]; repeat split).
Qed.

Lemma only_polled_slept seconds w :
  0 <= seconds ->
  only_polled w (set_clock (clock w + seconds) (record (EvSleep seconds) w)).
Proof.
  intros H. unfold only_polled.
  cbn [fs spawned clock lookups trace record set_clock].
  repeat split; try lia. eexists. split; [reflexivity|]. repeat split.
Qed.

Lemma wait_until_live_loop_only_polls E channel quality timeout interval fuel :
  forall waited w,
    only_polled w
      (wait_until_live_loop E channel quality timeout interval fuel waited w).2.
Proof.
  induction fuel as [|fuel IH]; intros waited w; cbn [wait_until_live_loop].
  - destruct (waited <? timeout); [apply only_polled_refl | apply only_polled_log].
  - destruct (waited <? timeout); [|apply only_polled_log].
    rewrite (bind_val _ _ _ _ _ (is_live_eq E channel quality w)).
    destruct (live_at E channel quality (lookups w)).
    + eapply only_polled_trans; [apply only_polled_probed|apply only_polled_log].
    + unfold bind at 1. unfold sleep at 1.
      destruct (Z.ltb_spec interval 0) as [Hneg|Hpos].
      * apply only_polled_probed.
      * eapply only_polled_trans; [apply only_polled_probed|].
        eapply only_polled_trans; [apply (only_polled_slept interval _ Hpos)|].
        apply IH.
Qed.

Lemma wait_for_reconnect_loop_only_polls E channel quality grace_period
    check_interval fuel :
  forall waited w,
    only_polled w
      (wait_for_reconnect_loop E channel quality grace_period check_interval
         fuel waited w).2.
Proof.
  induction fuel as [|fuel IH]; intros waited w; cbn [wait_for_reconnect_loop].
  - destruct (waited <? grace_period);
      [apply only_polled_refl | apply only_polled_log].
  - destruct (waited <? grace_period); [|apply only_polled_log].
    unfold bind at 1. unfold sleep at 1.
    destruct (Z.ltb_spec check_interval 0) as [Hneg|Hpos];
      [apply only_polled_refl|].
    eapply only_polled_trans; [apply (only_polled_slept _ _ Hpos)|].
    rewrite (bind_val _ _ _ _ _ (is_live_eq E channel quality _)).
    eapply only_polled_trans; [apply only_polled_probed|].
    destruct (live_at E channel quality _).
    + apply only_polled_log.
    + apply IH.
Qed.

(** X2: whatever the channel does and however they end (an answer, a
    raised [ValueError], or no end), both wait loops only look up streams,
    sleep and log: no file changes, no subprocess runs, nothing is written
    or unlinked, and the clock does not go back. *)
Theorem wait_loops_only_poll E channel quality budget interval fuel w :
  only_polled w (wait_until_live E channel quality budget interval fuel w).2
  /\ only_polled w (wait_for_reconnect E channel quality budget interval fuel w).2.
Proof.
  split.
  - unfold wait_until_live. erewrite bind_val by reflexivity.
    eapply only_polled_trans; [apply only_polled_log|].
    apply wait_until_live_loop_only_polls.
  - unfold wait_for_reconnect. erewrite bind_val by reflexivity.
    eapply only_polled_trans; [apply only_polled_log|].
    apply wait_for_reconnect_loop_only_polls.
Qed.

Lemma wait_until_live_loop_total E channel quality timeout interval :
  0 < interval ->
  forall (n fuel : nat) waited w,
    timeout <= waited + Z.of_nat n * interval ->
    (n <= fuel)%nat ->
    exists (b : bool) w' (m : nat),
      wait_until_live_loop E channel quality timeout interval fuel waited w
      = (Val b, w')
      /\ (m <= n)%nat
      /\ lookups w' = (lookups w + m)%nat
      /\ (forall i, (S i < m)%nat ->
          live_at E channel quality (lookups w + i) = false)
      /\ (b = true ->
          (0 < m)%nat
          /\ live_at E channel quality (lookups w + (m - 1)) = true
          /\ clock w' = clock w + (Z.of_nat m - 1) * interval
          /\ waited + (Z.of_nat m - 1) * interval < timeout)
      /\ (b = false ->
          ((0 < m)%nat ->
           live_at E channel quality (lookups w + (m - 1)) = false)
          /\ clock w' = clock w + Z.of_nat m * interval
          /\ timeout <= waited + Z.of_nat m * interval).
Proof.
  intros Hi. induction n as [|n IH]; intros fuel waited w Hn Hfuel.
  - rewrite wait_until_live_loop_expired by lia.
    exists false. eexists. exists 0%nat. split; [reflexivity|].
    cbn [lookups clock record]. repeat split; try lia; try discriminate.
  - destruct (Z.ltb_spec waited timeout) as [Hlt|Hge].
    2:{ rewrite wait_until_live_loop_expired by lia.
        exists false. eexists. exists 0%nat. split; [reflexivity|].
        cbn [lookups clock record]. repeat split; try lia; try discriminate. }
    destruct fuel as [|fuel]; [lia|].
    destruct (live_at E channel quality (lookups w)) eqn:Hl.
    + rewrite wait_until_live_loop_live by assumption.
      exists true. eexists. exists 1%nat. split; [reflexivity|].
      cbn [lookups clock record]. rewrite probed_lookups, probed_clock.
      cbn [Nat.sub]. rewrite Nat.add_0_r.
      repeat split; try lia; try discriminate; try assumption.
    + cbn [wait_until_live_loop].
      destruct (Z.ltb_spec waited timeout) as [_|?]; [|lia].
      rewrite (bind_val _ _ _ _ _ (is_live_eq E channel quality w)), Hl.
      rewrite (bind_val _ _ _ _ _ (sleep_eq interval _ ltac:(lia))).
      set (w2 := set_clock _ _).
      destruct (IH fuel (waited + interval) w2 ltac:(lia) ltac:(lia))
        as (b & w' & m & Heq & Hm & Hk & Hoff & Ht & Hf).
      assert (Hk2 : lookups w2 = S (lookups w))
        by (subst w2; cbn [lookups set_clock record]; apply probed_lookups).
      assert (Hc2 : clock w2 = clock w + interval)
        by (subst w2; cbn [clock set_clock record]; now rewrite probed_clock).
      rewrite Hk2, Hc2 in *.
      exists b, w', (S m). split; [exact Heq|].
      split; [lia|]. split; [lia|]. split.
      { intros [|i] Hlt'; [now rewrite Nat.add_0_r|].
        replace (lookups w + S i)%nat with (S (lookups w) + i)%nat by lia.
        apply Hoff. lia. }
      split.
      * intros Hb. destruct (Ht Hb) as (Hm0 & Hlast & Hcl & Hw).
        replace (lookups w + (S m - 1))%nat
          with (S (lookups w) + (m - 1))%nat by lia.
        repeat split; try lia. exact Hlast.
      * intros Hb. destruct (Hf Hb) as (Hlast & Hcl & Hw).
        repeat split; try lia.
        intros _. destruct m as [|m].
        -- cbn [Nat.sub]. now rewrite Nat.add_0_r.
        -- replace (lookups w + (S (S m) - 1))%nat
             with (S (lookups w) + (S m - 1))%nat by lia.
           apply Hlast. lia.
Qed.

(** X3: with a positive interval [wait_until_live] always returns, whatever
    the channel does, after at most ceil(timeout / interval) probes.  It
    answers true exactly when its last probe found the channel live, each
    earlier probe having found it offline; it answers false only when every
    probe failed and the sleeps add up to [timeout] or more. *)
Theorem wait_until_live_total E channel quality timeout interval (n fuel : nat) w :
  0 < interval ->
  timeout <= Z.of_nat n * interval ->
  (n <= fuel)%nat ->
  exists (b : bool) w' (m : nat),
    wait_until_live E channel quality timeout interval fuel w = (Val b, w')
    /\ (m <= n)%nat
    /\ lookups w' = (lookups w + m)%nat
    /\ (forall i, (S i < m)%nat -> live_at E channel quality (lookups w + i) = false)
    /\ (b = true ->
        (0 < m)%nat
        /\ live_at E channel quality (lookups w + (m - 1)) = true
        /\ clock w' = clock w + (Z.of_nat m - 1) * interval
        /\ (Z.of_nat m - 1) * interval < timeout)
    /\ (b = false ->
        ((0 < m)%nat -> live_at E channel quality (lookups w + (m - 1)) = false)
        /\ clock w' = clock w + Z.of_nat m * interval
        /\ timeout <= Z.of_nat m * interval).
Proof.
  intros Hi Hn Hfuel. unfold wait_until_live.
  erewrite bind_val by reflexivity.
  destruct (wait_until_live_loop_total E channel quality timeout interval Hi
              n fuel 0 (record (EvLog (LogWaitingForLive channel timeout interval)) w)
              ltac:(lia) Hfuel)
    as (b & w' & m & Heq & Hm & Hk & Hoff & Ht & Hf).
  cbn [lookups clock record] in *.
  exists b, w', m. repeat split; try assumption.
  - apply Ht; assumption.
  - apply Ht; assumption.
  - apply Ht; assumption.
  - destruct (Ht H) as (_ & _ & _ & Hw). lia.
  - apply Hf; assumption.
  - apply Hf; assumption.
  - destruct (Hf H) as (_ & _ & Hw). lia.
Qed.

Lemma wait_until_live_total_witness :
  exists (b : bool) w' (m : nat),
    wait_until_live (env_live_at 2) "chan" "best" 90 30 5 empty_world = (Val b, w')
    /\ (m <= 3)%nat
    /\ lookups w' = (lookups empty_world + m)%nat
    /\ (forall i, (S i < m)%nat ->
        live_at (env_live_at 2) "chan" "best" (lookups empty_world + i) = false)
    /\ (b = true ->
        (0 < m)%nat
        /\ live_at (env_live_at 2) "chan" "best" (lookups empty_world + (m - 1)) = true
        /\ clock w' = clock empty_world + (Z.of_nat m - 1) * 30
        /\ (Z.of_nat m - 1) * 30 < 90)
    /\ (b = false ->
        ((0 < m)%nat ->
         live_at (env_live_at 2) "chan" "best" (lookups empty_world + (m - 1)) = false)
        /\ clock w' = clock empty_world + Z.of_nat m * 30
        /\ 90 <= Z.of_nat m * 30).
Proof.
  apply (wait_until_live_total (env_live_at 2) "chan" "best" 90 30 3 5 empty_world);
    lia.
Defined.

Lemma wait_for_reconnect_loop_total E channel quality grace_period check_interval :
  0 < check_interval ->
  forall (n fuel : nat) waited w,
    grace_period <= waited + Z.of_nat n * check_interval ->
    (n <= fuel)%nat ->
    exists (b : bool) w' (m : nat),
      wait_for_reconnect_loop E channel quality grace_period check_interval
        fuel waited w = (Val b, w')
      /\ (m <= n)%nat
      /\ lookups w' = (lookups w + m)%nat
      /\ clock w' = clock w + Z.of_nat m * check_interval
      /\ (forall i, (S i < m)%nat ->
          live_at E channel quality (lookups w + i) = false)
      /\ ((0 < m)%nat ->
          live_at E channel quality (lookups w + (m - 1)) = b
          /\ waited + (Z.of_nat m - 1) * check_interval < grace_period)
      /\ (b = true -> (0 < m)%nat)
      /\ (b = false -> grace_period <= waited + Z.of_nat m * check_interval).
Proof.
  intros Hi. induction n as [|n IH]; intros fuel waited w Hn Hfuel.
  - rewrite wait_for_reconnect_loop_expired by lia.
    exists false. eexists. exists 0%nat. split; [reflexivity|].
    cbn [lookups clock record]. repeat split; try lia; try discriminate.
  - destruct (Z.ltb_spec waited grace_period) as [Hlt|Hge].
    2:{ rewrite wait_for_reconnect_loop_expired by lia.
        exists false. eexists. exists 0%nat. split; [reflexivity|].
        cbn [lookups clock record]. repeat split; try lia; try discriminate. }
    destruct fuel as [|fuel]; [lia|].
    rewrite wait_for_reconnect_loop_step by lia.
    destruct (live_at E channel quality (lookups w)) eqn:Hl.
    + exists true. eexists. exists 1%nat. split; [reflexivity|].
      cbn [lookups clock record].
      rewrite slept_and_probed_lookups, slept_and_probed_clock.
      cbn [Nat.sub]. rewrite Nat.add_0_r.
      repeat split; try lia; try discriminate; try assumption.
    + destruct (IH fuel (waited + check_interval)
                  (slept_and_probed E channel check_interval w)
                  ltac:(lia) ltac:(lia))
        as (b & w' & m & Heq & Hm & Hk & Hc & Hoff & Hlast & Ht & Hf).
      rewrite slept_and_probed_lookups, slept_and_probed_clock in *.
      exists b, w', (S m). split; [exact Heq|].
      split; [lia|]. split; [lia|]. split; [lia|]. split.
      { intros [|i] Hlt'; [now rewrite Nat.add_0_r|].
        replace (lookups w + S i)%nat with (S (lookups w) + i)%nat by lia.
        apply Hoff. lia. }
      split.
      * intros _. destruct m as [|m].
        -- cbn [Nat.sub]. rewrite Nat.add_0_r.
           destruct b; [specialize (Ht eq_refl); lia|].
           split; [exact Hl | lia].
        -- destruct (Hlast ltac:(lia)) as [Hb Hw].
           replace (lookups w + (S (S m) - 1))%nat
             with (S (lookups w) + (S m - 1))%nat by lia.
           split; [exact Hb | lia].
      * split; [lia|]. intros Hb. specialize (Hf Hb). lia.
Qed.

(** X4: with a positive check interval [wait_for_reconnect] always returns,
    whatever the channel does, after at most ceil(grace_period /
    check_interval) rounds of one sleep and one probe.  Its answer is the
    result of its last probe; it sleeps less than [grace_period +
    check_interval] seconds in all, so the last probe, which can find the
    stream back, may come after the grace period has passed. *)
Theorem wait_for_reconnect_total E channel quality grace_period check_interval
    (n fuel : nat) w :
  0 < check_interval ->
  grace_period <= Z.of_nat n * check_interval ->
  (n <= fuel)%nat ->
  exists (b : bool) w' (m : nat),
    wait_for_reconnect E channel quality grace_period check_interval fuel w
    = (Val b, w')
    /\ (m <= n)%nat
    /\ lookups w' = (lookups w + m)%nat
    /\ clock w' = clock w + Z.of_nat m * check_interval
    /\ (forall i, (S i < m)%nat -> live_at E channel quality (lookups w + i) = false)
    /\ ((0 < m)%nat ->
        live_at E channel quality (lookups w + (m - 1)) = b
        /\ clock w' - clock w < grace_period + check_interval)
    /\ (b = true -> (0 < m)%nat)
    /\ (b = false -> grace_period <= clock w' - clock w).
Proof.
  intros Hi Hn Hfuel. unfold wait_for_reconnect.
  erewrite bind_val by reflexivity.
  destruct (wait_for_reconnect_loop_total E channel quality grace_period
              check_interval Hi n fuel 0
              (record (EvLog (LogStreamDropped grace_period)) w)
              ltac:(lia) Hfuel)
    as (b & w' & m & Heq & Hm & Hk & Hc & Hoff & Hlast & Ht & Hf).
  cbn [lookups clock record] in *.
  exists b, w', m. repeat split; try assumption.
  - apply Hlast; assumption.
  - destruct (Hlast H) as [_ Hw]. lia.
  - intros Hb. specialize (Hf Hb). lia.
Qed.

(** A grace period of 50 checked every 20 seconds, the stream back at the
    third probe only: found back at 60 seconds. *)
Lemma wait_for_reconnect_total_witness :
  exists (b : bool) w' (m : nat),
    wait_for_reconnect (env_live_at 2) "chan" "best" 50 20 5 empty_world
    = (Val b, w')
    /\ (m <= 3)%nat
    /\ lookups w' = (lookups empty_world + m)%nat
    /\ clock w' = clock empty_world + Z.of_nat m * 20
    /\ (forall i, (S i < m)%nat ->
        live_at (env_live_at 2) "chan" "best" (lookups empty_world + i) = false)
    /\ ((0 < m)%nat ->
        live_at (env_live_at 2) "chan" "best" (lookups empty_world + (m - 1)) = b
        /\ clock w' - clock empty_world < 50 + 20)
    /\ (b = true -> (0 < m)%nat)
    /\ (b = false -> 50 <= clock w' - clock empty_world).
Proof.
  apply (wait_for_reconnect_total (env_live_at 2) "chan" "best" 50 20 3 5
           empty_world); lia.
Defined.

(** The same case run: the stream is reported back at 60 seconds, ten
    seconds after the grace period of 50 ran out. *)
Example wait_for_reconnect_late_return :
  let out := wait_for_reconnect (env_live_at 2) "chan" "best" 50 20 5 empty_world in
  out.1 = Val true /\ clock out.2 = 60 /\ probe_times (trace out.2) = [20; 40; 60].
Proof. cbv zeta. repeat split; vm_compute; reflexivity. Qed.

Lemma wait_until_live_loop_spins E channel quality timeout fuel :
  forall waited w,
    waited < timeout ->
    (forall k, (lookups w <= k)%nat -> live_at E channel quality k = false) ->
    exists w',
      wait_until_live_loop E channel quality timeout 0 fuel waited w
      = (OutOfFuel, w')
      /\ lookups w' = (lookups w + fuel)%nat /\ clock w' = clock w.
Proof.
  induction fuel as [|fuel IH]; intros waited w Hlt Hoff;
    cbn [wait_until_live_loop];
    (destruct (Z.ltb_spec waited timeout) as [_|?]; [|lia]).
  - exists w. repeat split. lia.
  - rewrite (bind_val _ _ _ _ _ (is_live_eq E channel quality w)).
    rewrite (Hoff _ (Nat.le_refl _)).
    rewrite (bind_val _ _ _ _ _ (sleep_eq 0 _ ltac:(lia))).
    set (w2 := set_clock _ _).
    assert (Hk2 : lookups w2 = S (lookups w))
      by (subst w2; cbn [lookups set_clock record]; apply probed_lookups).
    assert (Hc2 : clock w2 = clock w)
      by (subst w2; cbn [clock set_clock record]; rewrite probed_clock; lia).
    destruct (IH (waited + 0) w2 ltac:(lia)) as (w' & Heq & Hk & Hc).
    { intros k Hk. apply Hoff. lia. }
    exists w'. split; [exact Heq|]. split; [lia | congruence].
Qed.

Lemma wait_for_reconnect_loop_spins E channel quality grace_period fuel :
  forall waited w,
    waited < grace_period ->
    (forall k, (lookups w <= k)%nat -> live_at E channel quality k = false) ->
    exists w',
      wait_for_reconnect_loop E channel quality grace_period 0 fuel waited w
      = (OutOfFuel, w')
      /\ lookups w' = (lookups w + fuel)%nat /\ clock w' = clock w.
Proof.
  induction fuel as [|fuel IH]; intros waited w Hlt Hoff.
  - cbn [wait_for_reconnect_loop].
    destruct (Z.ltb_spec waited grace_period) as [_|?]; [|lia].
    exists w. repeat split. lia.
  - rewrite wait_for_reconnect_loop_step by lia.
    rewrite (Hoff _ (Nat.le_refl _)).
    destruct (IH (waited + 0) (slept_and_probed E channel 0 w) ltac:(lia))
      as (w' & Heq & Hk & Hc).
    { intros k Hk. rewrite slept_and_probed_lookups in Hk. apply Hoff. lia. }
    rewrite slept_and_probed_lookups, slept_and_probed_clock in *.
    exists w'. split; [exact Heq|]. split; lia.
Qed.

(** X5: with an interval of 0, a budget above 0 and a channel that stays
    offline, neither wait loop ever returns: however many iterations are
    allowed, each one is spent on a probe, the clock stands still and the
    budget is never reached. *)
Theorem wait_loops_spin_on_zero_interval E channel quality budget fuel w :
  0 < budget ->
  (forall k, (lookups w <= k)%nat -> live_at E channel quality k = false) ->
  (exists w',
      wait_until_live E channel quality budget 0 fuel w = (OutOfFuel, w')
      /\ lookups w' = (lookups w + fuel)%nat /\ clock w' = clock w)
  /\ (exists w',
      wait_for_reconnect E channel quality budget 0 fuel w = (OutOfFuel, w')
      /\ lookups w' = (lookups w + fuel)%nat /\ clock w' = clock w).
Proof.
  intros Hb Hoff. split.
  - unfold wait_until_live. erewrite bind_val by reflexivity.
    destruct (wait_until_live_loop_spins E channel quality budget fuel 0
                (record (EvLog (LogWaitingForLive channel budget 0)) w) Hb Hoff)
      as (w' & Heq & Hk & Hc).
    exists w'. split; [exact Heq|]. split; assumption.
  - unfold wait_for_reconnect. erewrite bind_val by reflexivity.
    destruct (wait_for_reconnect_loop_spins E channel quality budget fuel 0
                (record (EvLog (LogStreamDropped budget)) w) Hb Hoff)
      as (w' & Heq & Hk & Hc).
    exists w'. split; [exact Heq|]. split; assumption.
Qed.

Lemma wait_loops_spin_on_zero_interval_witness :
  (exists w',
      wait_until_live env_never_live "chan" "best" 90 0 7 empty_world
      = (OutOfFuel, w')
      /\ lookups w' = (lookups empty_world + 7)%nat
      /\ clock w' = clock empty_world)
  /\ (exists w',
      wait_for_reconnect env_never_live "chan" "best" 90 0 7 empty_world
      = (OutOfFuel, w')
      /\ lookups w' = (lookups empty_world + 7)%nat
      /\ clock w' = clock empty_world).
Proof.
  apply (wait_loops_spin_on_zero_interval env_never_live "chan" "best" 90 7
           empty_world).
  - lia.
  - intros k _. reflexivity.
Defined.

Lemma wait_for_reconnect_negative E channel quality grace_period check_interval
    fuel w :
  0 < grace_period -> check_interval < 0 ->
  wait_for_reconnect E channel quality grace_period check_interval (S fuel) w
  = (Exn ValueError, record (EvLog (LogStreamDropped grace_period)) w).
Proof.
  intros Hg Hneg. unfold wait_for_reconnect. erewrite bind_val by reflexivity.
  cbn [wait_for_reconnect_loop].
  destruct (Z.ltb_spec 0 grace_period) as [_|?]; [|lia].
  unfold bind at 1. unfold sleep at 1.
  destruct (Z.ltb_spec check_interval 0) as [_|?]; [|lia].
  reflexivity.
Qed.

(** X6: with a negative interval and a budget above 0, [time.sleep]
    raises [ValueError] and the loops let it through: [wait_until_live]
    raises after its first probe unless that probe finds the channel live
    (then it answers true), and [wait_for_reconnect] raises before it has
    probed at all, live channel or not. *)
Theorem wait_loops_raise_on_negative_interval E channel quality budget interval
    fuel w :
  0 < budget -> interval < 0 ->
  (live_at E channel quality (lookups w) = false ->
   exists w',
     wait_until_live E channel quality budget interval (S fuel) w
     = (Exn ValueError, w')
     /\ lookups w' = S (lookups w) /\ sleeps (trace w') = sleeps (trace w))
  /\ (live_at E channel quality (lookups w) = true ->
      exists w',
        wait_until_live E channel quality budget interval (S fuel) w
        = (Val true, w')
        /\ lookups w' = S (lookups w))
  /\ (exists w',
      wait_for_reconnect E channel quality budget interval (S fuel) w
      = (Exn ValueError, w')
      /\ lookups w' = lookups w /\ probe_times (trace w') = probe_times (trace w)).
Proof.
  intros Hb Hneg. split; [|split].
  - intros Hl. unfold wait_until_live. erewrite bind_val by reflexivity.
    cbn [wait_until_live_loop].
    destruct (Z.ltb_spec 0 budget) as [_|?]; [|lia].
    rewrite (bind_val _ _ _ _ _ (is_live_eq E channel quality _)).
    cbn [lookups record]. rewrite Hl.
    unfold bind at 1. unfold sleep at 1.
    destruct (Z.ltb_spec interval 0) as [_|?]; [|lia].
    eexists. split; [reflexivity|]. rewrite probed_lookups.
    split; [reflexivity|].
    unfold probed.
    destruct (session_streams E _ _) as [d|[]];
      cbn [trace record set_lookups]; unfold sleeps; rewrite !omap_app;
      cbn; rewrite ?app_nil_r; reflexivity.
  - intros Hl. unfold wait_until_live. erewrite bind_val by reflexivity.
    rewrite wait_until_live_loop_live by (try lia; exact Hl).
    eexists. split; [reflexivity|]. cbn [lookups record].
    now rewrite probed_lookups.
  - rewrite wait_for_reconnect_negative by assumption.
    eexists. split; [reflexivity|]. cbn [lookups trace record].
    split; [reflexivity|]. unfold probe_times. rewrite omap_app. cbn.
    now rewrite app_nil_r.
Qed.

Lemma wait_loops_raise_on_negative_interval_witness :
  exists w',
    wait_for_reconnect (env_always_live tool_missing) "chan" "best" 60 (-1) 5
      empty_world
    = (Exn ValueError, w')
    /\ lookups w' = lookups empty_world
    /\ probe_times (trace w') = probe_times (trace empty_world).
Proof.
  apply (proj2 (proj2 (wait_loops_raise_on_negative_interval
                         (env_always_live tool_missing) "chan" "best" 60 (-1)
                         4 empty_world ltac:(lia) ltac:(lia)))).
Defined.

(** ** recorder.py: file names *)

Lemma string_app_cons a (s t : string) : String a s +:+ t = String a (s +:+ t).
Proof. reflexivity. Qed.

Lemma string_app_assoc (s t u : string) : (s +:+ t) +:+ u = s +:+ (t +:+ u).
Proof.
  induction s as [|a s IH]; [reflexivity|].
  rewrite !string_app_cons. now rewrite IH.
Qed.

Lemma string_app_length (s t : string) :
  String.length (s +:+ t) = (String.length s + String.length t)%nat.
Proof.
  induction s as [|a s IH]; [reflexivity|].
  rewrite string_app_cons. cbn [String.length]. now rewrite IH.
Qed.

Lemma string_app_inj_r (t s1 s2 : string) : s1 +:+ t = s2 +:+ t -> s1 = s2.
Proof.
  revert s2. induction s1 as [|a s1 IH]; intros [|b s2] H.
  - reflexivity.
  - apply (f_equal String.length) in H.
    rewrite !string_app_length in H. cbn [String.length] in H. lia.
  - apply (f_equal String.length) in H.
    rewrite !string_app_length in H. cbn [String.length] in H. lia.
  - rewrite !string_app_cons in H. inversion H; subst.
    f_equal. now apply IH.
Qed.

Lemma str_nat_nonempty n : str_nat n <> "".
Proof.
  unfold str_nat. intros H.
  pose proof (NilEmpty.usu (Nat.to_uint n)) as Hu. rewrite H in Hu.
  cbn in Hu. inversion Hu as [Hn].
  pose proof (Unsigned.of_to n) as Hof. rewrite <- Hn in Hof. cbn in Hof.
  subst n. discriminate.
Qed.

Lemma parse_decimal_format_02d n : parse_decimal (format_02d n) = Some n.
Proof.
  unfold parse_decimal, format_02d.
  pose proof (NilEmpty.usu (Nat.to_uint n)) as Hu. fold (str_nat n) in Hu.
  destruct (String.length (str_nat n) <? 2)%nat.
  - change ("0" +:+ str_nat n) with (String "0"%char (str_nat n)).
    cbn [NilEmpty.uint_of_string]. rewrite Hu. cbn.
    f_equal. change (Nat.of_uint (Decimal.D0 (Nat.to_uint n)))
      with (Nat.of_uint (Nat.to_uint n)). apply Unsigned.of_to.
  - rewrite Hu. cbn. f_equal. apply Unsigned.of_to.
Qed.

Lemma format_02d_inj n m : format_02d n = format_02d m -> n = m.
Proof.
  intros Heq. apply (f_equal parse_decimal) in Heq.
  rewrite !parse_decimal_format_02d in Heq. congruence.
Qed.

(** X7: the part number survives the formatting: reading the digits of
    [format_02d num] gives [num] back, so different numbers give different
    digit strings; the string has at least two characters and is never cut
    short (a number of three digits keeps all three). *)
Theorem format_02d_round_trip num :
  parse_decimal (format_02d num) = Some num
  /\ String.length (format_02d num)
     = Nat.max 2 (String.length (str_nat num))
  /\ (forall other, format_02d other = format_02d num -> other = num).
Proof.
  split; [apply parse_decimal_format_02d|]. split.
  - unfold format_02d.
    pose proof (str_nat_nonempty num) as Hne.
    destruct (Nat.ltb_spec (String.length (str_nat num)) 2) as [Hlt|Hge].
    + change ("0" +:+ str_nat num) with (String "0"%char (str_nat num)).
      cbn [String.length].
      destruct (str_nat num) as [|a s]; [congruence|]. cbn [String.length] in *.
      lia.
    + lia.
  - intros other. apply format_02d_inj.
Qed.

Lemma segment_path_of_inj s n m :
  segment_path_of s n = segment_path_of s m -> n = m.
Proof.
  unfold segment_path_of, path_join. intros H.
  do 4 apply String.app_inj in H.
  apply string_app_inj_r in H.
  now apply format_02d_inj.
Qed.

Lemma ts_is_not_mp4 (a b : string) : a +:+ ".ts" <> b +:+ ".mp4".
Proof.
  intros H.
  assert (Hlen : String.length a = S (String.length b)).
  { apply (f_equal String.length) in H. rewrite !string_app_length in H.
    cbn in H. lia. }
  revert a H Hlen. induction b as [|c b IH]; intros [|d a] H Hlen;
    cbn [String.length] in Hlen; try lia.
  - destruct a as [|? ?]; [|cbn [String.length] in Hlen; lia].
    discriminate.
  - rewrite !string_app_cons in H. inversion H; subst.
    apply (IH a); [assumption | lia].
Qed.

Lemma segment_path_not_final s n : segment_path_of s n <> final_filename s.
Proof.
  unfold segment_path_of, final_filename, path_join. intros H.
  do 2 apply String.app_inj in H.
  rewrite <- !string_app_assoc in H.
  exact (ts_is_not_mp4 _ _ H).
Qed.

(** X8: within a session the segment path is one-to-one in the part
    number, and no segment path, of whatever number, is the session's final
    file name. *)
Theorem segment_paths_distinct s :
  (forall n m, segment_path_of s n = segment_path_of s m -> n = m)
  /\ (forall n, segment_path_of s n <> final_filename s).
Proof.
  split; [apply segment_path_of_inj | apply segment_path_not_final].
Qed.

(** ** recorder.py: every run of the session loop *)

(** X9: a session whose segments are numbered 1, 2, 3, ... comes out of
    [run] with its earlier segments still in place at the head of the
    list, the numbering still dense, all segment paths different from one
    another and none of them the final file name. *)
Theorem run_keeps_segments_apart E fuel s w s' w' :
  run E fuel s w = (Val s', w') ->
  dense s ->
  (exists more, segments s' = segments s ++ more)
  /\ dense s'
  /\ NoDup (segments s')
  /\ final_filename s' ∉ segments s'.
Proof.
  rewrite run_eq.
  destruct (run_loop E fuel s w) as [[s1|e|] w1] eqn:Hloop; try discriminate.
  intros Hrun Hdense. inversion Hrun; subst s1 w'. clear Hrun.
  apply run_loop_segments in Hloop.
  destruct Hloop as (_ & _ & Hmore & Hd). specialize (Hd Hdense).
  split; [exact Hmore|]. split; [exact Hd|].
  unfold dense in Hd. rewrite Hd. split.
  - apply NoDup_fmap_2; [|apply NoDup_seq].
    intros n m. apply segment_path_of_inj.
  - intros Hin. apply list_elem_of_fmap in Hin. destruct Hin as (n & Hn & _).
    symmetry in Hn. exact (segment_path_not_final s' n Hn).
Qed.

Lemma run_keeps_segments_apart_witness :
  exists s' w',
    run (env_always_live tool_third_time) 5 (sample_session 2) empty_world
    = (Val s', w')
    /\ (exists more, segments s' = segments (sample_session 2) ++ more)
    /\ dense s'
    /\ NoDup (segments s')
    /\ final_filename s' ∉ segments s'.
Proof.
  do 2 eexists. split; [vm_compute; reflexivity|].
  eapply (run_keeps_segments_apart (env_always_live tool_third_time) 5%nat
            (sample_session 2) empty_world).
  - vm_compute. reflexivity.
  - reflexivity.
Defined.









(** X12: with a negative reconnect check interval, a grace period above 0
    and budget left, [run] raises [ValueError] right after its first
    capture: no probe is made, no further capture is run, and the loop logs
    no ending. *)
Theorem run_raises_on_negative_interval E fuel s w :
  reconnect_count s < Config.max_reconnects (config s) ->
  0 < Config.reconnect_grace_period (config s) ->
  Config.reconnect_check_interval (config s) < 0 ->
  exists w' d,
    run E (S fuel) s w = (Exn ValueError, w')
    /\ trace w' = trace w ++ d
    /\ commands d = [streamlink_cmd s (next_segment_path s)]
    /\ probe_times d = [] /\ sleeps d = [] /\ endings d = [].
Proof.
  intros Hbudget Hg Hneg. rewrite run_eq, run_loop_S.
  destruct (record_segment_effect E s w)
    as (ret & s1 & w1 & d1 & Hrec & Hd1 & Hcap & _ & _ & _ & Hc & _ & Hn & _).
  rewrite Hrec. cbv zeta. rewrite Hc, Hn.
  destruct (Z.leb_spec (Config.max_reconnects (config s)) (reconnect_count s));
    [lia|].
  rewrite wait_for_reconnect_negative by assumption.
  do 2 eexists. split; [reflexivity|].
  cbn [trace record]. rewrite Hd1, <- app_assoc. split; [reflexivity|].
  unfold_observers. destruct Hcap as (C1 & C2 & C3 & C4 & C5 & C6 & C7 & C8).
  rewrite !omap_app, C1, C2, C3, C7. repeat split.
Qed.

Lemma run_raises_on_negative_interval_witness :
  let c := {|
    Config.channel := "chan"; Config.output_dir := "/out";
    Config.quality := "best"; Config.stream_timeout := 120;
    Config.initial_wait := 90; Config.retry_interval := 30;
    Config.reconnect_grace_period := 60;
    Config.reconnect_check_interval := -1;
    Config.max_reconnects := 2;
    Config.merge_segments := true; Config.cleanup_segments := true;
    Config.ffmpeg_path := "ffmpeg"; Config.streamlink_args := [] |} in
  let s := new_session c "2024-01-01" in
  exists w' d,
    run (env_always_live tool_third_time) 3 s empty_world = (Exn ValueError, w')
    /\ trace w' = trace empty_world ++ d
    /\ commands d = [streamlink_cmd s (next_segment_path s)]
    /\ probe_times d = [] /\ sleeps d = [] /\ endings d = [].
Proof.
  cbv zeta.
  apply (run_raises_on_negative_interval (env_always_live tool_third_time) 2);
    reflexivity.
Defined.

(** ** postprocess.py: cleaning up and the list file *)





(** The second of three listed paths is the directory /out: the first is
    removed, the third stays. *)
Example cleanup_on_directory_listed :
  let out := cleanup_on (host_with_config Config.default) ["/a"; "/out"; "/b"]
               (set_fs {[ "/a" := "data"; "/b" := "data" ]} empty_world) in
  out.1 = Exn OtherException
  /\ fs out.2 !! "/a" = None /\ fs out.2 !! "/b" = Some "data"
  /\ logged (trace out.2) = [].
Proof. cbv zeta. repeat split; vm_compute; reflexivity. Qed.

(** X14: however ffmpeg ends, by an exit code, by not being found, by
    timing out or by an exception that [merge_segments] lets through, the
    list file written for the merge is gone when [merge_segments] is left,
    and every other path is as the ffmpeg process left it; ffmpeg itself
    was given a file system in which the list file held one line per
    segment. *)
Theorem merge_segments_removes_list_file E segments dest ffmpeg w :
  let concat_list := mktemp E (fs w) in
  let seen := <[concat_list := concat_list_content segments]> (fs w) in
  let left := (subprocess_run E (spawned w)
                 (concat_cmd concat_list dest ffmpeg) seen).2 in
  exists r w',
    merge_segments E segments dest ffmpeg w = (r, w')
    /\ r <> OutOfFuel
    /\ fs w' !! concat_list = None
    /\ (forall p, p <> concat_list -> fs w' !! p = left !! p)
    /\ spawned w' = S (spawned w).
Proof.
  cbv zeta.
  pose proof (merge_segments_eq E segments dest ffmpeg w) as Hm. cbv zeta in Hm.
  set (concat_list := mktemp E (fs w)) in *.
  set (content := concat_list_content segments) in *.
  pose proof (run_ffmpeg_cases E (concat_cmd concat_list dest ffmpeg) ffmpeg
                (set_fs (<[concat_list := content]> (fs w))
                   (record (EvWrite concat_list content)
                      (record (EvLog (LogMerging (length segments) dest)) w))))
    as Hc.
  cbv zeta in Hc. cbn [fs spawned set_fs record] in Hc.
  destruct (run_ffmpeg_effect E (concat_cmd concat_list dest ffmpeg) ffmpeg
              (set_fs (<[concat_list := content]> (fs w))
                 (record (EvWrite concat_list content)
                    (record (EvLog (LogMerging (length segments) dest)) w))))
    as (r & w2 & d & Heq & Hr & _ & _ & _ & _ & Hf & _).
  rewrite Heq in Hm. cbn [fs spawned set_fs record] in Hf.
  assert (Hsp : spawned w2 = S (spawned w)).
  { rewrite Heq in Hc.
    destruct (subprocess_run E (spawned w) _ _) as [[rc|e] fs']; cbn [fst snd] in Hc.
    - destruct (rc =? 0); inversion Hc; reflexivity.
    - destruct e; inversion Hc; reflexivity. }
  exists r. eexists. split; [exact Hm|]. split; [exact Hr|].
  cbn [fs spawned set_fs record]. rewrite Hf.
  split; [apply lookup_delete_eq|]. split; [|exact Hsp].
  intros p Hp. apply lookup_delete_ne. congruence.
Qed.

(** X15: when the transcode step reports success, the final file is there
    and not empty, and cleaning is on, [postprocess] returns the final path
    and afterwards no segment path exists, while every path that is not a
    segment is as the transcode step left it.  So the final file is still
    there if it is not itself listed as a segment; if it is, it has been
    unlinked with the rest and the path returned names no file. *)
Theorem postprocess_success_cleans E segments final_path merge ffmpeg w wv :
  segments <> [] ->
  length segments = 1%nat \/ merge = true ->
  transcode E segments final_path ffmpeg w = (Val true, wv) ->
  artifact_ok (fs wv) final_path ->
  exists w',
    postprocess E segments final_path merge true ffmpeg w
    = (Val (Some final_path), w')
    /\ (forall p, p ∈ segments -> fs w' !! p = None)
    /\ (forall p, p ∉ segments -> fs w' !! p = fs wv !! p)
    /\ (final_path ∉ segments -> artifact_ok (fs w') final_path)
    /\ (final_path ∈ segments -> fs w' !! final_path = None).
Proof.
  intros Hne Hrun Htr Hok.
  rewrite (postprocess_transcoded E segments final_path merge true ffmpeg w
             Hne Hrun), Htr.
  rewrite (proj2 (artifact_okb_spec _ _) Hok). cbn [andb]. cbv zeta.
  set (w1 := record _ wv).
  destruct (unlinked_world_spec segments w1) as (_ & _ & Hout & Hin).
  eexists. split; [reflexivity|]. cbn [fs record].
  assert (Hf1 : fs w1 = fs wv) by reflexivity. rewrite Hf1 in Hout.
  split; [exact Hin|]. split; [exact Hout|]. split.
  - intros Hnin. destruct Hok as (content & Hc & Hlen).
    exists content. rewrite (Hout _ Hnin). split; assumption.
  - apply Hin.
Qed.

(** ffmpeg writes the final file for three segments. *)
Lemma postprocess_success_cleans_witness :
  exists wv w',
    transcode (env_ffmpeg (ffmpeg_writes "movie")) three_segments
      "/out/chan - 2024-01-01.mp4" "ffmpeg" world_with_segments = (Val true, wv)
    /\ postprocess (env_ffmpeg (ffmpeg_writes "movie")) three_segments
         "/out/chan - 2024-01-01.mp4" true true "ffmpeg" world_with_segments
       = (Val (Some "/out/chan - 2024-01-01.mp4"), w')
    /\ (forall p, p ∈ three_segments -> fs w' !! p = None)
    /\ (forall p, p ∉ three_segments -> fs w' !! p = fs wv !! p)
    /\ ("/out/chan - 2024-01-01.mp4" ∉ three_segments ->
        artifact_ok (fs w') "/out/chan - 2024-01-01.mp4")
    /\ ("/out/chan - 2024-01-01.mp4" ∈ three_segments ->
        fs w' !! "/out/chan - 2024-01-01.mp4" = None).
Proof.
  eexists. 
  assert (Htr : transcode (env_ffmpeg (ffmpeg_writes "movie")) three_segments
                  "/out/chan - 2024-01-01.mp4" "ffmpeg" world_with_segments
                = (Val true,
                   (transcode (env_ffmpeg (ffmpeg_writes "movie")) three_segments
                      "/out/chan - 2024-01-01.mp4" "ffmpeg"
                      world_with_segments).2))
    by (vm_compute; reflexivity).
  destruct (postprocess_success_cleans (env_ffmpeg (ffmpeg_writes "movie"))
              three_segments "/out/chan - 2024-01-01.mp4" true "ffmpeg"
              world_with_segments _ ltac:(discriminate) ltac:(now right) Htr)
    as (w' & H).
  { exists "movie". split; vm_compute; [reflexivity | lia]. }
  exists w'. split; [exact Htr | exact H].
Defined.

(** The final path is listed as a segment: the file returned is gone. *)
Example postprocess_unlinks_listed_artifact :
  let out := postprocess (env_ffmpeg (ffmpeg_writes "movie")) ["/out/a.mp4"]
               "/out/a.mp4" true true "ffmpeg"
               (set_fs {[ "/out/a.mp4" := "data" ]} empty_world) in
  out.1 = Val (Some "/out/a.mp4") /\ fs out.2 !! "/out/a.mp4" = None.
Proof. cbv zeta. split; vm_compute; reflexivity. Qed.

(** X16: with cleaning off, [postprocess] unlinks no segment that is on
    disk, whether the transcode step succeeds, fails or raises: each
    segment is as the ffmpeg process left it, or, when no process is run,
    as it was. *)
Theorem postprocess_keep_segments E segments final_path merge ffmpeg w :
  segments <> [] ->
  (forall f : FS, f !! mktemp E f = None) ->
  Forall (fun s => is_Some (fs w !! s)) segments ->
  exists r w' d,
    postprocess E segments final_path merge false ffmpeg w = (r, w')
    /\ trace w' = trace w ++ d
    /\ (forall s, s ∈ segments -> s ∉ unlinked d)
    /\ (length segments = 1%nat \/ merge = true ->
        forall s, s ∈ segments ->
          fs w' !! s = tool_fs E segments final_path ffmpeg w !! s)
    /\ (~ (length segments = 1%nat \/ merge = true) -> fs w' = fs w).
Proof.
  intros Hne Hfresh Hdisk.
  destruct (decide (length segments = 1%nat \/ merge = true)) as [Hrun|Hoff].
  - destruct (postprocess_effect E segments final_path merge false ffmpeg w
                Hne Hrun)
      as (rs & wv & r & w' & dr & Htr & Hpost & Ht & _ & _ & Hcases).
    destruct (transcode_keeps_segments E segments final_path ffmpeg w
                Hne Hfresh Hdisk)
      as (rs' & wv' & dt & Htr' & Hdt & Hkept & Hsame).
    rewrite Htr in Htr'. inversion Htr'; subst rs' wv'. clear Htr'.
    assert (Hquiet : unlinked dr = [] /\ fs w' = fs wv).
    { destruct Hcases
        as [(_ & _ & _ & [[? _]|(_ & Hu & Hf)])|[(_ & _ & Hu & Hf)|(_ & Hu & Hf)]];
        [discriminate | tauto | tauto | tauto]. }
    destruct Hquiet as [Hu Hf].
    exists r, w', (dt ++ dr). split; [exact Hpost|].
    split; [rewrite Ht, Hdt, <- app_assoc; reflexivity|].
    assert (Hun : unlinked (dt ++ dr) = unlinked dt)
      by (unfold unlinked in *; rewrite omap_app, Hu; apply app_nil_r).
    rewrite Hun, Hf. split; [exact Hkept|]. split; [intros _; exact Hsame | tauto].
  - destruct segments as [|s1 [|s2 rest]]; [congruence | tauto |].
    destruct merge; [tauto|].
    eexists. eexists.
    exists [(clock w, EvLog (LogMergeDisabled (length (s1 :: s2 :: rest))))].
    split; [apply postprocess_merge_off|]. split; [reflexivity|].
    split; [intros s _ Hin; inversion Hin|]. split; [tauto|]. reflexivity.
Qed.

Lemma postprocess_keep_segments_witness :
  exists r w' d,
    postprocess (env_ffmpeg (ffmpeg_writes "movie")) three_segments
      "/out/chan - 2024-01-01.mp4" true false "ffmpeg" world_with_segments
    = (r, w')
    /\ trace w' = trace world_with_segments ++ d
    /\ (forall s, s ∈ three_segments -> s ∉ unlinked d)
    /\ (length three_segments = 1%nat \/ true = true ->
        forall s, s ∈ three_segments ->
          fs w' !! s
          = tool_fs (env_ffmpeg (ffmpeg_writes "movie")) three_segments
              "/out/chan - 2024-01-01.mp4" "ffmpeg" world_with_segments !! s)
    /\ (~ (length three_segments = 1%nat \/ true = true) ->
        fs w' = fs world_with_segments).
Proof.
  apply postprocess_keep_segments.
  - discriminate.
  - exact fresh_name_fresh.
  - repeat constructor; vm_compute; eauto.
Defined.

(** X17: [postprocess] always returns or raises, and runs at most one
    subprocess on the way: there is no second try.  It runs none exactly
    when there is no segment, or there are two or more and merging is off;
    with one segment the merge flag makes no difference at all. *)
Theorem postprocess_runs_at_most_once E segments final_path merge clean ffmpeg w :
  (exists r w' d,
      postprocess E segments final_path merge clean ffmpeg w = (r, w')
      /\ r <> OutOfFuel
      /\ trace w' = trace w ++ d
      /\ (length (commands d) <= 1)%nat
      /\ (commands d = [] <->
          segments = [] \/ ((2 <= length segments)%nat /\ merge = false)))
  /\ (forall src,
      postprocess E [src] final_path true clean ffmpeg w
      = postprocess E [src] final_path false clean ffmpeg w).
Proof.
  split; [|reflexivity].
  destruct segments as [|s1 rest].
  { do 3 eexists. split; [reflexivity|]. split; [discriminate|].
    cbn [trace record]. split; [reflexivity|]. cbn. split; [lia|]. tauto. }
  destruct (decide (length (s1 :: rest) = 1%nat \/ merge = true)) as [Hrun|Hoff].
  - destruct (postprocess_effect E (s1 :: rest) final_path merge clean ffmpeg w
                ltac:(discriminate) Hrun)
      as (rs & wv & r & w' & dr & Htr & Hpost & Ht & Hc & _ & Hcases).
    destruct (transcode_effect E (s1 :: rest) final_path ffmpeg w
                ltac:(discriminate))
      as (rs' & wv' & dt & Htr' & _ & Hdt & Hshape).
    rewrite Htr in Htr'. inversion Htr'; subst rs' wv'. clear Htr'.
    assert (Hone : exists cmd, commands dt = [cmd]).
    { destruct rest as [|s2 rest]; [destruct Hshape as (Hcmd & _)
                                   |cbv zeta in Hshape;
                                    destruct Hshape as (_ & Hcmd & _)];
        eauto. }
    destruct Hone as [cmd Hcmd].
    exists r, w', (dt ++ dr). split; [exact Hpost|]. split.
    { destruct Hcases as [(_ & _ & -> & _)|[(_ & -> & _)|([e [_ ->]] & _)]];
        discriminate. }
    split; [rewrite Ht, Hdt, <- app_assoc; reflexivity|].
    unfold commands in *. rewrite omap_app, Hc, Hcmd. cbn. split; [lia|].
    split; [discriminate|].
    intros [Hnil|[Hlen Hm]]; [discriminate|].
    destruct Hrun as [Hone|Hon]; [cbn in *; lia | congruence].
  - destruct rest as [|s2 rest]; [cbn in Hoff; tauto|].
    destruct merge; [tauto|].
    eexists. eexists.
    exists [(clock w, EvLog (LogMergeDisabled (length (s1 :: s2 :: rest))))].
    split; [apply postprocess_merge_off|]. split; [discriminate|].
    split; [reflexivity|]. cbn. split; [lia|].
    split; [intros _; right; split; [lia | reflexivity] | reflexivity].
Qed.

Lemma split_at_quote (s1 s2 x1 x2 : string) :
  quote_free s1 -> quote_free s2 ->
  s1 +:+ String "'"%char x1 = s2 +:+ String "'"%char x2 ->
  s1 = s2 /\ x1 = x2.
Proof.
  revert s2. induction s1 as [|a s1 IH]; intros [|b s2] Hq1 Hq2 H.
  - change ("" +:+ String "'"%char x1) with (String "'"%char x1) in H.
    change ("" +:+ String "'"%char x2) with (String "'"%char x2) in H.
    inversion H. tauto.
  - change ("" +:+ String "'"%char x1) with (String "'"%char x1) in H.
    rewrite string_app_cons in H. inversion H; subst.
    destruct Hq2 as [Hb _]. congruence.
  - change ("" +:+ String "'"%char x2) with (String "'"%char x2) in H.
    rewrite string_app_cons in H. inversion H; subst.
    destruct Hq1 as [Ha _]. congruence.
  - rewrite !string_app_cons in H. inversion H; subst.
    destruct Hq1 as [_ Hq1]. destruct Hq2 as [_ Hq2].
    destruct (IH s2 Hq1 Hq2 ltac:(assumption)) as [-> ->]. tauto.
Qed.

Lemma concat_list_content_line seg rest :
  concat_list_content (seg :: rest)
  = "file '" +:+ (seg +:+ String "'"%char (String (ascii_of_nat 10)
                                            (concat_list_content rest))).
Proof.
  rewrite concat_list_content_cons.
  rewrite !string_app_assoc. reflexivity.
Qed.

Lemma concat_list_content_inj_quote_free l1 : forall l2,
  Forall quote_free l1 -> Forall quote_free l2 ->
  concat_list_content l1 = concat_list_content l2 -> l1 = l2.
Proof.
  induction l1 as [|s1 l1 IH]; intros [|s2 l2] Hq1 Hq2 H.
  - reflexivity.
  - rewrite concat_list_content_line in H. discriminate.
  - rewrite concat_list_content_line in H. discriminate.
  - rewrite !concat_list_content_line in H.
    apply String.app_inj in H.
    apply Forall_cons in Hq1. destruct Hq1 as [Hs1 Hl1].
    apply Forall_cons in Hq2. destruct Hq2 as [Hs2 Hl2].
    destruct (split_at_quote s1 s2 _ _ Hs1 Hs2 H) as [-> Hrest].
    inversion Hrest. f_equal. now apply IH.
Qed.

(** X18: the list file gives the segment list back, order and all, as long
    as no path has a single quote in it: two lists of such paths with the
    same file content are the same list.  Paths are written between quotes
    as they are, so with a quote in a path the content no longer tells the
    lists apart. *)
Theorem concat_list_content_inj :
  (forall l1 l2,
      Forall quote_free l1 -> Forall quote_free l2 ->
      concat_list_content l1 = concat_list_content l2 -> l1 = l2)
  /\ concat_list_content ["a'" +:+ newline +:+ "file 'b"]
     = concat_list_content ["a"; "b"].
Proof.
  split; [apply concat_list_content_inj_quote_free | reflexivity].
Qed.

(** The three segment paths have no quote; their list file tells them from
    the same paths in another order. *)
Example concat_list_tells_orders_apart :
  concat_list_content three_segments
  <> concat_list_content (rev three_segments).
Proof.
  intros H.
  apply concat_list_content_inj_quote_free in H; [discriminate| |];
    repeat constructor; discriminate.
Qed.

(** ** config.py and cli.py: the whole program *)

Lemma validate_eq H c w :
  validate H c w =
  if negb (truthy (Config.channel c)) || String.eqb (Config.channel c) "channelname"
  then (Exn ValueError, w)
  else if is_dir H (Config.output_dir c)
          || bool_decide (is_Some (fs w !! Config.output_dir c))
       then (Val tt, w)
       else match mkdir_parents H (Config.output_dir c) with
            | None => (Val tt, w)
            | Some e => (Exn e, w)
            end.
Proof.
  unfold validate.
  destruct (negb (truthy (Config.channel c)) || _); [reflexivity|].
  unfold bind, host_exists, host_mkdir.
  destruct (is_dir H (Config.output_dir c) || _); reflexivity.
Qed.

Lemma validate_world H c w : (validate H c w).2 = w.
Proof.
  rewrite validate_eq.
  repeat match goal with |- context [if ?b then _ else _] => destruct b end;
    try reflexivity.
  destruct (mkdir_parents H _); reflexivity.
Qed.

Lemma truthy_false s : truthy s = false <-> s = "".
Proof. destruct s; cbn; split; congruence. Qed.

Lemma validate_channel H c w :
  Config.channel c = "" \/ Config.channel c = "channelname" ->
  validate H c w = (Exn ValueError, w).
Proof.
  intros Hbad. rewrite validate_eq.
  destruct Hbad as [He|He]; rewrite He; reflexivity.
Qed.

(** [main] after the configuration is built. *)
Lemma main_eq E H args date fuel w c0 :
  load_config H args w = (Val c0, w) ->
  main E H args date fuel w =
  let c := cli_overrides args c0 in
  match validate H c w with
  | (Val _, _) =>
      match await_live E args c fuel w with
      | (Val true, w1) =>
          match run E fuel (new_session c date) w1 with
          | (Val s, w2) =>
              match postprocess E (segments s) (final_filename s)
                      (Config.merge_segments c) (Config.cleanup_segments c)
                      (Config.ffmpeg_path c) w2 with
              | (Val _, w3) => (Val 0, w3)
              | (Exn e, w3) => (Exn e, w3)
              | (OutOfFuel, w3) => (OutOfFuel, w3)
              end
          | (Exn e, w2) => (Exn e, w2)
          | (OutOfFuel, w2) => (OutOfFuel, w2)
          end
      | (Val false, w1) => (Val 0, w1)
      | (Exn e, w1) => (Exn e, w1)
      | (OutOfFuel, w1) => (OutOfFuel, w1)
      end
  | (Exn ValueError, _) => (Val 1, w)
  | (Exn e, _) => (Exn e, w)
  | (OutOfFuel, _) => (OutOfFuel, w)
  end.
Proof.
  intros Hload. unfold main. rewrite (bind_val _ _ _ _ _ Hload). cbv zeta.
  set (c := cli_overrides args c0).
  pose proof (validate_world H c w) as Hw.
  unfold bind at 1. unfold try_except. unfold bind at 1.
  destruct (validate H c w) as [[[]|e|] w0]; cbn [snd] in Hw; subst w0.
  - cbn [ret negb]. unfold bind at 1.
    destruct (await_live E args c fuel w) as [[[|]|e|] w1]; reflexivity.
  - destruct e; reflexivity.
  - reflexivity.
Qed.

Lemma load_config_default H args w :
  Args.config args = None -> load_config H args w = (Val Config.default, w).
Proof. intros Hc. unfold load_config. now rewrite Hc. Qed.

(** X19: the exit status of [main] is 0 or 1, and it is 1 exactly when
    [Config.validate] raised [ValueError]; nothing has been probed, run or
    written then.  That is the case whenever the channel is empty or still
    the placeholder "channelname"; so with no config file, a call without a
    channel argument, or with an empty one or "channelname", exits 1. *)
Theorem main_exit_status E H args date fuel w c0 :
  load_config H args w = (Val c0, w) ->
  let c := cli_overrides args c0 in
  (main E H args date fuel w = (Val 1, w)
   <-> validate H c w = (Exn ValueError, w))
  /\ (forall code w', main E H args date fuel w = (Val code, w') ->
      code = 0 \/ (code = 1 /\ w' = w))
  /\ (Config.channel c = "" \/ Config.channel c = "channelname" ->
      main E H args date fuel w = (Val 1, w))
  /\ (Args.config args = None ->
      Args.channel args = None \/ Args.channel args = Some ""
      \/ Args.channel args = Some "channelname" ->
      main E H args date fuel w = (Val 1, w)).
Proof.
  intros Hload c.
  assert (Hbad : validate H c w = (Exn ValueError, w) ->
                 main E H args date fuel w = (Val 1, w)).
  { intros Hv. rewrite (main_eq E H args date fuel w c0 Hload). cbv zeta.
    fold c. now rewrite Hv. }
  assert (Hcodes : forall code w', main E H args date fuel w = (Val code, w') ->
                   (code = 0 /\ exists u w0, validate H c w = (Val u, w0))
                   \/ (code = 1 /\ w' = w
                       /\ validate H c w = (Exn ValueError, w))).
  { intros code w'. rewrite (main_eq E H args date fuel w c0 Hload). cbv zeta.
    fold c. pose proof (validate_world H c w) as Hw.
    destruct (validate H c w) as [[u|e|] w0]; cbn [snd] in Hw; subst w0.
    - intros Hm. left. split; [|now eauto].
      destruct (await_live E args c fuel w) as [[[|]|e|] w1];
        try discriminate; [|now inversion Hm].
      destruct (run E fuel (new_session c date) w1) as [[s|e|] w2];
        try discriminate.
      destruct (postprocess E _ _ _ _ _ w2) as [[r|e|] w3];
        try discriminate. now inversion Hm.
    - destruct e; try discriminate. intros Hm. inversion Hm. right. auto.
    - discriminate. }
  split; [split|split; [|split]].
  - intros Hm. destruct (Hcodes _ _ Hm) as [[Hc _]|(_ & _ & Hv)];
      [discriminate | exact Hv].
  - exact Hbad.
  - intros code w' Hm.
    destruct (Hcodes _ _ Hm) as [[Hc _]|(Hc & Hw & _)]; auto.
  - intros Hch. apply Hbad, validate_channel, Hch.
  - intros Hcfg Hch. apply Hbad, validate_channel.
    rewrite (load_config_default H args w Hcfg) in Hload.
    inversion Hload; subst c0. subst c. unfold cli_overrides.
    right. destruct Hch as [Hch|[Hch|Hch]]; rewrite Hch; cbn [override truthy];
      unfold override;
      destruct (Args.output_dir args) as [o|]; try destruct (truthy o);
      destruct (Args.quality args) as [q|]; try destruct (truthy q);
      destruct (Args.no_merge args), (Args.keep_segments args); reflexivity.
Qed.

(** [twitch-recorder] with no argument at all. *)
Lemma main_exit_status_witness :
  main (env_always_live tool_third_time) host_ready
    (Args.mk None None None None false false false false) "2024-01-01" 5
    empty_world
  = (Val 1, empty_world).
Proof.
  apply (main_exit_status (env_always_live tool_third_time) host_ready
           (Args.mk None None None None false false false false) "2024-01-01"
           5%nat empty_world Config.default).
  - reflexivity.
  - reflexivity.
  - left. reflexivity.
Defined.

(** X20: once the configuration is valid, a channel that is offline makes
    [main] exit with status 0 having only looked up streams, slept and
    logged: no subprocess has run and no file has changed.  With
    [--no-wait] that takes one probe; without it and with [initial_wait] at
    0 or less, no probe at all, whether the channel is live or not;
    otherwise at most ceil(initial_wait / retry_interval) probes. *)
Theorem main_offline_records_nothing E H args date fuel w c0 :
  load_config H args w = (Val c0, w) ->
  let c := cli_overrides args c0 in
  validate H c w = (Val tt, w) ->
  (Args.no_wait args = true ->
   live_at E (Config.channel c) (Config.quality c) (lookups w) = false ->
   exists w', main E H args date fuel w = (Val 0, w')
              /\ lookups w' = S (lookups w) /\ only_polled w w')
  /\ (Args.no_wait args = false ->
      Config.initial_wait c <= 0 ->
      exists w', main E H args date fuel w = (Val 0, w')
                 /\ lookups w' = lookups w /\ only_polled w w')
  /\ (forall n : nat,
      Args.no_wait args = false ->
      0 < Config.retry_interval c ->
      Config.initial_wait c <= Z.of_nat n * Config.retry_interval c ->
      (n <= fuel)%nat ->
      (forall k, (lookups w <= k)%nat ->
                 live_at E (Config.channel c) (Config.quality c) k = false) ->
      exists w', main E H args date fuel w = (Val 0, w')
                 /\ (lookups w' <= lookups w + n)%nat /\ only_polled w w').
Proof.
  intros Hload c Hv.
  assert (Hm : forall w1, await_live E args c fuel w = (Val false, w1) ->
               main E H args date fuel w = (Val 0, w1)).
  { intros w1 Ha. rewrite (main_eq E H args date fuel w c0 Hload). cbv zeta.
    fold c. now rewrite Hv, Ha. }
  assert (Hpoll : Args.no_wait args = false ->
                  only_polled w (await_live E args c fuel w).2).
  { intros Hnw. unfold await_live, wait_until_live. rewrite Hnw.
    erewrite bind_val by reflexivity.
    eapply only_polled_trans; [apply only_polled_log|].
    apply wait_until_live_loop_only_polls. }
  split; [|split].
  - intros Hnw Hoff. exists (probed E (Config.channel c) w).
    split; [|split].
    + apply Hm. unfold await_live. rewrite Hnw, is_live_eq, Hoff. reflexivity.
    + apply probed_lookups.
    + apply only_polled_probed.
  - intros Hnw Hle. specialize (Hpoll Hnw).
    assert (Ha : await_live E args c fuel w
                 = (Val false,
                    record (EvLog (LogDidNotGoLive (Config.initial_wait c)))
                      (record (EvLog (LogWaitingForLive (Config.channel c)
                                        (Config.initial_wait c)
                                        (Config.retry_interval c))) w))).
    { unfold await_live, wait_until_live. rewrite Hnw.
      erewrite bind_val by reflexivity.
      apply wait_until_live_loop_expired. lia. }
    rewrite Ha in Hpoll. eexists. split; [apply Hm, Ha|].
    split; [reflexivity | exact Hpoll].
  - intros n Hnw Hi Hn Hfuel Hoff. specialize (Hpoll Hnw).
    destruct (wait_until_live_loop_total E (Config.channel c) (Config.quality c)
                (Config.initial_wait c) (Config.retry_interval c) Hi n fuel 0
                (record (EvLog (LogWaitingForLive (Config.channel c)
                                  (Config.initial_wait c)
                                  (Config.retry_interval c))) w)
                ltac:(lia) Hfuel)
      as (b & w' & m & Heq & Hmn & Hk & _ & Ht & _).
    cbn [lookups record] in Hk, Ht.
    assert (Hb : b = false).
    { destruct b; [|reflexivity].
      destruct (Ht eq_refl) as (_ & Hlive & _).
      rewrite Hoff in Hlive by lia. discriminate. }
    subst b.
    assert (Ha : await_live E args c fuel w = (Val false, w')).
    { unfold await_live, wait_until_live. rewrite Hnw.
      erewrite bind_val by reflexivity. exact Heq. }
    rewrite Ha in Hpoll. exists w'. split; [apply Hm, Ha|].
    split; [lia | exact Hpoll].
Qed.

(** [twitch-recorder chan -o /out --no-wait] while the channel is offline. *)
Lemma main_offline_records_nothing_witness :
  exists w',
    main env_never_live host_ready sample_args "2024-01-01" 5 empty_world
    = (Val 0, w')
    /\ lookups w' = S (lookups empty_world) /\ only_polled empty_world w'.
Proof.
  apply (main_offline_records_nothing env_never_live host_ready sample_args
           "2024-01-01" 5%nat empty_world Config.default);
    reflexivity.
Defined.

(** X21: the whole program on a good day.  With a valid configuration, a
    channel found live, a session loop that returns with at least one
    segment, a transcode step that succeeds and leaves a final file that is
    not empty, and cleaning on, [main] exits with status 0; the final file
    [<output_dir>/<channel> - <date>.mp4] is then in place and not empty,
    and of the part files [<output_dir>/<channel>_<date>_partNN.ts], NN
    from 01 on without a gap, none is left. *)
Theorem main_leaves_final_file_only E H args date fuel w c0 w1 s w2 wv :
  load_config H args w = (Val c0, w) ->
  let c := cli_overrides args c0 in
  validate H c w = (Val tt, w) ->
  await_live E args c fuel w = (Val true, w1) ->
  run E fuel (new_session c date) w1 = (Val s, w2) ->
  segments s <> [] ->
  length (segments s) = 1%nat \/ Config.merge_segments c = true ->
  transcode E (segments s) (final_filename s) (Config.ffmpeg_path c) w2
  = (Val true, wv) ->
  artifact_ok (fs wv) (final_filename s) ->
  Config.cleanup_segments c = true ->
  exists w',
    main E H args date fuel w = (Val 0, w')
    /\ final_filename s
       = path_join (Config.output_dir c)
           (Config.channel c +:+ " - " +:+ date +:+ ".mp4")
    /\ segments s
       = map (fun n => path_join (Config.output_dir c)
                         (Config.channel c +:+ "_" +:+ date +:+ "_part"
                          +:+ format_02d n +:+ ".ts"))
           (seq 1 (length (segments s)))
    /\ artifact_ok (fs w') (final_filename s)
    /\ (forall p, p ∈ segments s -> fs w' !! p = None)
    /\ (forall p, p ∉ segments s -> fs w' !! p = fs wv !! p).
Proof.
  intros Hload c Hv Hlive Hrun Hne Hmerge Htr Hok Hclean.
  rewrite (main_eq E H args date fuel w c0 Hload). cbv zeta. fold c.
  rewrite Hv, Hlive, Hrun.
  rewrite (postprocess_transcoded E (segments s) (final_filename s) _ _ _ w2
             Hne Hmerge), Htr, Hclean.
  rewrite (proj2 (artifact_okb_spec _ _) Hok). cbn [andb]. cbv zeta.
  set (wl := record _ wv).
  destruct (unlinked_world_spec (segments s) wl) as (_ & _ & Hout & Hin).
  assert (Hf : fs wl = fs wv) by reflexivity. rewrite Hf in Hout.
  rewrite run_eq in Hrun.
  destruct (run_loop E fuel (new_session c date) w1) as [[s1|e|] wr] eqn:Hloop;
    try discriminate.
  inversion Hrun; subst s1 w2. clear Hrun.
  destruct (run_loop_segments _ _ _ _ _ _ Hloop) as (Hc & Hd & _ & Hdense).
  assert (Hds : dense s) by (apply Hdense; reflexivity).
  cbn [config session_date new_session] in Hc, Hd.
  assert (Hnin : final_filename s ∉ segments s).
  { unfold dense in Hds. rewrite Hds. intros Hin'.
    apply list_elem_of_fmap in Hin'. destruct Hin' as (n & Hn & _).
    symmetry in Hn. exact (segment_path_not_final s n Hn). }
  eexists. split; [reflexivity|]. cbn [fs record].
  split; [|split; [|split; [|split]]].
  - unfold final_filename, output_dir. now rewrite Hc, Hd.
  - unfold dense in Hds. rewrite Hds at 1. apply map_ext. intros n.
    unfold segment_path_of, output_dir, session_id.
    rewrite Hc, Hd, !string_app_assoc. reflexivity.
  - destruct Hok as (content & Hcont & Hlen). exists content.
    rewrite (Hout _ Hnin). split; assumption.
  - exact Hin.
  - exact Hout.
Qed.

(** One reconnect is allowed and the channel stays live: two parts are
    captured, merged and removed. *)
Lemma main_leaves_final_file_only_witness :
  let E := env_always_live tools_work in
  let H := host_with_config (sample_config 1) in
  let s := mkSession (sample_config 1) "2024-01-01"
             ["/out/chan_2024-01-01_part01.ts"; "/out/chan_2024-01-01_part02.ts"]
             1 in
  exists w',
    main E H sample_args_file "2024-01-01" 9 world_with_config = (Val 0, w')
    /\ final_filename s = "/out/chan - 2024-01-01.mp4"
    /\ segments s
       = map (fun n => path_join "/out"
                         ("chan" +:+ "_" +:+ "2024-01-01" +:+ "_part"
                          +:+ format_02d n +:+ ".ts"))
           (seq 1 (length (segments s)))
    /\ artifact_ok (fs w') (final_filename s)
    /\ (forall p, p ∈ segments s -> fs w' !! p = None)
    /\ (forall p, p ∉ segments s ->
        fs w' !! p
        = fs (transcode E (segments s) (final_filename s) "ffmpeg"
                (run E 9 (sample_session 1)
                   (await_live E sample_args_file (sample_config 1) 9
                      world_with_config).2).2).2 !! p).
Proof.
  intros E H s.
  apply (main_leaves_final_file_only E H sample_args_file "2024-01-01" 9%nat
           world_with_config (sample_config 1)
           (await_live E sample_args_file (sample_config 1) 9
              world_with_config).2
           s
           (run E 9 (sample_session 1)
              (await_live E sample_args_file (sample_config 1) 9
                 world_with_config).2).2).
  - vm_compute. reflexivity.
  - vm_compute. reflexivity.
  - vm_compute. reflexivity.
  - vm_compute. reflexivity.
  - discriminate.
  - right. reflexivity.
  - vm_compute. reflexivity.
  - exists "movie". split; vm_compute; [reflexivity | lia].
  - reflexivity.
Defined.

(** X22: an exit status of 0 does not tell that a recording was made.  Once
    the channel was found live and the session loop has returned, [main]
    exits with 0 also when no segment was captured (no further process is
    run then) and when the transcode step failed or left no final file
    that is not empty; the files are then as the transcode step left
    them. *)
Theorem main_exit_zero_without_recording E H args date fuel w c0 w1 s w2 :
  load_config H args w = (Val c0, w) ->
  let c := cli_overrides args c0 in
  validate H c w = (Val tt, w) ->
  await_live E args c fuel w = (Val true, w1) ->
  run E fuel (new_session c date) w1 = (Val s, w2) ->
  (segments s = [] ->
   exists w', main E H args date fuel w = (Val 0, w')
              /\ fs w' = fs w2 /\ spawned w' = spawned w2)
  /\ (forall wv,
      segments s <> [] ->
      length (segments s) = 1%nat \/ Config.merge_segments c = true ->
      transcode E (segments s) (final_filename s) (Config.ffmpeg_path c) w2
      = (Val false, wv)
      \/ (transcode E (segments s) (final_filename s) (Config.ffmpeg_path c) w2
          = (Val true, wv)
          /\ ~ artifact_ok (fs wv) (final_filename s)) ->
      exists w', main E H args date fuel w = (Val 0, w') /\ fs w' = fs wv).
Proof.
  intros Hload c Hv Hlive Hrun.
  rewrite (main_eq E H args date fuel w c0 Hload). cbv zeta. fold c.
  rewrite Hv, Hlive, Hrun. split.
  - intros Hnil. rewrite Hnil. eexists. split; [reflexivity|].
    split; reflexivity.
  - intros wv Hne Hmerge Htr.
    rewrite (postprocess_transcoded E (segments s) (final_filename s) _ _ _ w2
               Hne Hmerge).
    destruct Htr as [Htr|[Htr Hnok]]; rewrite Htr.
    + cbn [andb]. eexists. split; reflexivity.
    + destruct (artifact_okb (fs wv) (final_filename s)) eqn:Hb.
      * apply artifact_okb_spec in Hb. contradiction.
      * cbn [andb]. eexists. split; reflexivity.
Qed.

(** ffmpeg is not installed: two parts are captured and stay on disk, no
    final file is made, the exit status is 0. *)
Lemma main_exit_zero_without_recording_witness :
  let E := env_always_live tools_no_ffmpeg in
  let H := host_with_config (sample_config 1) in
  exists w',
    main E H sample_args_file "2024-01-01" 9 world_with_config = (Val 0, w')
    /\ fs w' = {[ "/etc/recorder.yaml" := "channel: chan";
                  "/out/chan_2024-01-01_part01.ts" := "data";
                  "/out/chan_2024-01-01_part02.ts" := "data" ]}.
Proof.
  intros E H.
  assert (Hrun : run E 9 (new_session (cli_overrides sample_args_file
                                          (sample_config 1)) "2024-01-01")
                   (await_live E sample_args_file (sample_config 1) 9
                      world_with_config).2
                 = (Val (mkSession (sample_config 1) "2024-01-01"
                           ["/out/chan_2024-01-01_part01.ts";
                            "/out/chan_2024-01-01_part02.ts"] 1),
                    (run E 9 (sample_session 1)
                       (await_live E sample_args_file (sample_config 1) 9
                          world_with_config).2).2))
    by (vm_compute; reflexivity).
  destruct (proj2 (main_exit_zero_without_recording E H sample_args_file
                     "2024-01-01" 9%nat world_with_config (sample_config 1)
                     _ _ _ eq_refl eq_refl eq_refl Hrun)
              (transcode E ["/out/chan_2024-01-01_part01.ts";
                            "/out/chan_2024-01-01_part02.ts"]
                 "/out/chan - 2024-01-01.mp4" "ffmpeg"
                 (run E 9 (sample_session 1)
                    (await_live E sample_args_file (sample_config 1) 9
                       world_with_config).2).2).2
              ltac:(discriminate) ltac:(now right)
              ltac:(left; vm_compute; reflexivity))
    as (w' & Hmain & Hfs).
  exists w'. split; [exact Hmain|].
  rewrite Hfs. vm_compute. reflexivity.
Defined.

(** X23: what the command line can change of a configuration.  A channel,
    output directory or quality given and not empty replaces the
    configured one, an empty one leaves it; [--no-merge] and
    [--keep-segments] can only turn merging and cleaning off, never back on
    when the configuration has them off; the waiting and reconnect
    settings, the stream timeout, the ffmpeg path and the extra streamlink
    arguments are out of the command line's reach.  Applying the overrides
    twice is applying them once. *)
Theorem cli_overrides_fields args c :
  let c' := cli_overrides args c in
  Config.channel c'
  = (match Args.channel args with
     | Some (String a v) => String a v
     | _ => Config.channel c
     end)
  /\ Config.output_dir c'
     = (match Args.output_dir args with
        | Some (String a v) => String a v
        | _ => Config.output_dir c
        end)
  /\ Config.quality c'
     = (match Args.quality args with
        | Some (String a v) => String a v
        | _ => Config.quality c
        end)
  /\ Config.merge_segments c'
     = Config.merge_segments c && negb (Args.no_merge args)
  /\ Config.cleanup_segments c'
     = Config.cleanup_segments c && negb (Args.keep_segments args)
  /\ Config.stream_timeout c' = Config.stream_timeout c
  /\ Config.initial_wait c' = Config.initial_wait c
  /\ Config.retry_interval c' = Config.retry_interval c
  /\ Config.reconnect_grace_period c' = Config.reconnect_grace_period c
  /\ Config.reconnect_check_interval c' = Config.reconnect_check_interval c
  /\ Config.max_reconnects c' = Config.max_reconnects c
  /\ Config.ffmpeg_path c' = Config.ffmpeg_path c
  /\ Config.streamlink_args c' = Config.streamlink_args c
  /\ cli_overrides args c' = c'.
Proof.
  destruct args as [ch cfg out q nm ks nw v].
  destruct c as [c1 c2 c3 c4 c5 c6 c7 c8 c9 c10 c11 c12 c13].
  destruct ch as [[|a1 s1]|], out as [[|a2 s2]|], q as [[|a3 s3]|], nm, ks;
    cbn; rewrite ?andb_true_r, ?andb_false_r; repeat split; reflexivity.
Qed.
